(** * Torrent streaming engine: range server, stream registry, piece scheduler

    A shallow embedding of the Android [TorrentStreamingModule] (Kotlin,
    [docs/IOS_TORRENT_ENGINE_PATH.md]) and of the network classifier
    [getNetworkClassForMbps] (TypeScript), with the properties of the
    design document stated and settled against them.

    Conventions.
    - Kotlin [Int] and [Long] are [Z] with the two's-complement wrap-around
      written out ([toInt], [toLong]); [Long] division truncates toward
      zero ([Z.quot]).
    - Kotlin [String] is [string]; the standard-library functions the code
      calls ([trim], [split], [toLongOrNull], ...) are modelled from their
      documented behaviour, next to the code that uses them.
    - [ConcurrentHashMap<String, ActiveTorrentStream>] is a [gmap string _].
    - A thrown exception is [None] (or an error constructor); a swallowed
      one ([catch (_: Throwable) {}]) is a branch that keeps going. *)

From Stdlib Require Import ZArith QArith Lia Lqa Ascii String List Bool.
From stdpp Require Import base option strings gmap list.

Local Open Scope string_scope.
Local Open Scope Z_scope.

(** ** Machine integers *)

Module Kt.

Definition wrap (bits : Z) (z : Z) : Z :=
  (z + 2 ^ (bits - 1)) mod 2 ^ bits - 2 ^ (bits - 1).

(** [Long.toInt()] and the result of every [Int] operation. *)
Definition toInt (z : Z) : Z := wrap 32 z.
(** The result of every [Long] operation. *)
Definition toLong (z : Z) : Z := wrap 64 z.

Definition Int_MIN_VALUE : Z := - 2 ^ 31.
Definition Int_MAX_VALUE : Z := 2 ^ 31 - 1.
Definition Long_MIN_VALUE : Z := - 2 ^ 63.
Definition Long_MAX_VALUE : Z := 2 ^ 63 - 1.

Definition isInt (z : Z) : Prop := Int_MIN_VALUE <= z <= Int_MAX_VALUE.
Definition isLong (z : Z) : Prop := Long_MIN_VALUE <= z <= Long_MAX_VALUE.

(** [Int.coerceIn(minimumValue, maximumValue)]: throws
    [IllegalArgumentException] when the bounds are crossed. *)
Definition coerceIn (v lo hi : Z) : option Z :=
  if hi <? lo then None
  else if v <? lo then Some lo
  else if hi <? v then Some hi
  else Some v.

(** ** Strings (kotlin.text) *)

(** [Char.isWhitespace], on the Latin-1 range an [ascii] covers. *)
Definition isWhitespace (c : ascii) : bool :=
  let n := Z.of_N (N_of_ascii c) in
  ((9 <=? n) && (n <=? 13)) || ((28 <=? n) && (n <=? 32)) || (n =? 160).

Fixpoint isBlank (s : string) : bool :=
  match s with
  | EmptyString => true
  | String c s' => isWhitespace c && isBlank s'
  end.


(** [s.startsWith(p)] *)
Fixpoint startsWith (s p : string) {struct p} : bool :=
  match p, s with
  | EmptyString, _ => true
  | String a p', String b s' => Ascii.eqb a b && startsWith s' p'
  | String _ _, EmptyString => false
  end.

Fixpoint dropChars (n : nat) (s : string) : string :=
  match n, s with
  | S n', String _ s' => dropChars n' s'
  | _, _ => s
  end.

(** [s.removePrefix(p)] *)
Definition removePrefix (s p : string) : string :=
  if startsWith s p then dropChars (String.length p) s else s.

Fixpoint trimStart (s : string) : string :=
  match s with
  | EmptyString => EmptyString
  | String c s' => if isWhitespace c then trimStart s' else s
  end.

Fixpoint trimEnd (s : string) : string :=
  match s with
  | EmptyString => EmptyString
  | String c s' =>
      match trimEnd s' with
      | EmptyString => if isWhitespace c then EmptyString else String c EmptyString
      | t => String c t
      end
  end.

(** [s.trim()] *)
Definition trim (s : string) : string := trimEnd (trimStart s).

(** The text before and after the first occurrence of [d], if any. *)
Fixpoint cutAtFirst (d : ascii) (s : string) : option (string * string) :=
  match s with
  | EmptyString => None
  | String c s' =>
      if Ascii.eqb c d then Some (EmptyString, s')
      else match cutAtFirst d s' with
           | Some (a, b) => Some (String c a, b)
           | None => None
           end
  end.

(** [s.split(d, limit = 2)] for a one-character delimiter. *)
Definition split2 (s : string) (d : ascii) : list string :=
  match cutAtFirst d s with
  | Some (a, b) => [a; b]
  | None => [s]
  end.

(** [s.substringBefore(d)]: the whole string when [d] does not occur. *)
Definition substringBefore (s : string) (d : ascii) : string :=
  match cutAtFirst d s with
  | Some (a, _) => a
  | None => s
  end.

Definition digitOf (c : ascii) : option Z :=
  let n := Z.of_N (N_of_ascii c) in
  if (48 <=? n) && (n <=? 57) then Some (n - 48) else None.

Fixpoint parseDigits (s : string) (acc : Z) : option Z :=
  match s with
  | EmptyString => Some acc
  | String c s' =>
      match digitOf c with
      | Some d => parseDigits s' (acc * 10 + d)
      | None => None
      end
  end.

(** [s.toLongOrNull()]: an optional sign, then at least one decimal digit;
    [null] on any other character and on a value outside [Long]. *)
Definition toLongOrNull (s : string) : option Z :=
  match s with
  | EmptyString => None
  | String c rest =>
      if Z.of_N (N_of_ascii c) <? 48 then
        match rest with
        | EmptyString => None
        | _ =>
            if Ascii.eqb c "-" then
              match parseDigits rest 0 with
              | Some v => if Long_MIN_VALUE <=? - v then Some (- v) else None
              | None => None
              end
            else if Ascii.eqb c "+" then
              match parseDigits rest 0 with
              | Some v => if v <=? Long_MAX_VALUE then Some v else None
              | None => None
              end
            else None
        end
      else
        match parseDigits s 0 with
        | Some v => if v <=? Long_MAX_VALUE then Some v else None
        | None => None
        end
  end.

Definition digitChar (d : Z) : ascii := ascii_of_N (Z.to_N (48 + d)).

Fixpoint renderDigits (fuel : nat) (n : Z) (acc : string) : string :=
  match fuel with
  | O => acc
  | S fuel' =>
      let acc' := String (digitChar (n mod 10)) acc in
      if n / 10 =? 0 then acc' else renderDigits fuel' (n / 10) acc'
  end.

(** [Long.toString()], as string templates ["$start-$end"] use it. A [Long]
    has at most 19 digits. *)
Definition Long_toString (n : Z) : string :=
  if n <? 0 then String "-" (renderDigits 19 (- n) EmptyString)
  else renderDigits 19 n EmptyString.

(** [Char.lowercaseChar], Latin-1 range. *)
Definition lowercaseChar (c : ascii) : ascii :=
  let n := Z.of_N (N_of_ascii c) in
  if ((65 <=? n) && (n <=? 90)) || ((192 <=? n) && (n <=? 222) && negb (n =? 215))
  then ascii_of_N (Z.to_N (n + 32)) else c.

(** [s.lowercase(Locale.US)] *)
Fixpoint lowercase (s : string) : string :=
  match s with
  | EmptyString => EmptyString
  | String c s' => String (lowercaseChar c) (lowercase s')
  end.

(** [s.endsWith(suffix)] *)
Definition endsWith (s suffix : string) : bool :=
  (String.length suffix <=? String.length s)%nat &&
  String.eqb (dropChars (String.length s - String.length suffix) s) suffix.

End Kt.

(** ** Range parsing *)

Import Kt.

(** The checks that close [parseRangeHeader], after its [when]. *)
Definition rangeWithin (fileSize start end_ : Z) : option (Z * Z) :=
  if (start <? 0) || (fileSize <=? start) then None
  else if end_ <? start then None
  else Some (start, Z.min end_ (toLong (fileSize - 1))).

(** [parseRangeHeader(rangeHeader: String?, fileSize: Long): Pair<Long, Long>?] *)
Definition parseRangeHeader (rangeHeader : option string) (fileSize : Z)
  : option (Z * Z) :=
  match rangeHeader with
  | None => None
  | Some header =>
      if isBlank header || negb (startsWith header "bytes=") || (fileSize <=? 0)
      then None
      else
        let range := trim (removePrefix header "bytes=") in
        match split2 range "-" with
        | [part0; part1] =>
            let startText := trim part0 in
            let endText := trim part1 in
            if isBlank startText then
              match toLongOrNull endText with
              | None => None
              | Some suffixLength =>
                  if suffixLength <=? 0 then None
                  else rangeWithin fileSize
                         (Z.max 0 (toLong (fileSize - suffixLength)))
                         (toLong (fileSize - 1))
              end
            else if isBlank endText then
              match toLongOrNull startText with
              | None => None
              | Some start => rangeWithin fileSize start (toLong (fileSize - 1))
              end
            else
              match toLongOrNull startText with
              | None => None
              | Some start =>
                  match toLongOrNull endText with
                  | None => None
                  | Some end_ => rangeWithin fileSize start end_
                  end
              end
        | _ => None
        end
  end.

(** ** Doubles

    A Kotlin [Double] and a JavaScript [number] are both IEEE binary64.
    The code below only compares them and picks one of two values, so a
    finite double is its exact rational value and no rounding occurs. *)

Module Double.

Inductive t : Type :=
| NaN
| NegInf
| PosInf
| Fin (q : Q).

Definition isFinite (d : t) : bool :=
  match d with Fin _ => true | _ => false end.

(** [a <= b]; false as soon as one side is [NaN]. *)
Definition leb (a b : t) : bool :=
  match a, b with
  | NaN, _ | _, NaN => false
  | NegInf, _ => true
  | _, PosInf => true
  | Fin x, Fin y => Qle_bool x y
  | _, _ => false
  end.

(** [a > b] *)
Definition gtb (a b : t) : bool :=
  match a, b with
  | NaN, _ | _, NaN => false
  | _, _ => negb (leb a b)
  end.

(** JavaScript truthiness of a number: [0], [-0] and [NaN] are falsy. *)
Definition truthy (d : t) : bool :=
  match d with
  | NaN => false
  | Fin q => negb (Qeq_bool q 0)
  | _ => true
  end.

(** [Math.min] and [Math.max]: [NaN] if either argument is. *)
Definition min (a b : t) : t :=
  match a, b with
  | NaN, _ | _, NaN => NaN
  | _, _ => if leb a b then a else b
  end.

Definition max (a b : t) : t :=
  match a, b with
  | NaN, _ | _, NaN => NaN
  | _, _ => if leb a b then b else a
  end.

End Double.

(** ** Network class (TypeScript) *)

Definition DEFAULT_NETWORK_MBPS : Double.t := Double.Fin 20.
(** The binary64 value of the literal [0.1]. *)
Definition MIN_NETWORK_MBPS : Double.t :=
  Double.Fin (3602879701896397 # 36028797018963968).

Inductive NetworkClass : Type :=
| very_slow | slow | medium | fast | very_fast | ultra.

Definition clamp (value minValue maxValue : Double.t) : Double.t :=
  Double.max minValue (Double.min maxValue value).

(** [networkMbps || DEFAULT_NETWORK_MBPS] *)
Definition orDefault (networkMbps : Double.t) : Double.t :=
  if Double.truthy networkMbps then networkMbps else DEFAULT_NETWORK_MBPS.

Definition getNetworkClassForMbps (networkMbps : Double.t) : NetworkClass :=
  let mbps := clamp (orDefault networkMbps) MIN_NETWORK_MBPS (Double.Fin 1000) in
  if Double.leb mbps (Double.Fin (3 # 2)) then very_slow
  else if Double.leb mbps (Double.Fin 5) then slow
  else if Double.leb mbps (Double.Fin 20) then medium
  else if Double.leb mbps (Double.Fin 80) then fast
  else if Double.leb mbps (Double.Fin 250) then very_fast
  else ultra.

(** ** Data model (Kotlin) *)

Definition HANDLE_TIMEOUT_MS : Z := 30000.
Definition METADATA_TIMEOUT_MS : Z := 120000.
Definition PIECE_WAIT_MS : Z := 45000.
Definition INITIAL_PIECE_WAIT_MS : Z := 15000.
Definition STREAMING_WINDOW_PIECES : Z := 112.
Definition STREAMING_BOOST_MIN_STEP : Z := 8.
Definition PREFETCH_WINDOW_PIECES : Z := 256.
Definition PREFETCH_ADVANCE_STEP : Z := 24.
Definition HTTP_HOST : string := "127.0.0.1".
Definition IO_CHUNK_SIZE : Z := 64 * 1024.

(** [com.frostwire.jlibtorrent.Priority] *)
Inductive Priority : Type :=
| IGNORE | NORMAL | TWO | THREE | FOUR | FIVE | SIX | SEVEN.

Module StreamingTuning.
Record t : Type := Build {
  streamingWindowPieces : Z;
  prefetchWindowPieces : Z;
  prefetchAdvanceStep : Z;
  pieceDeadlineStepMs : Z;
  boostNearPieces : Z;
  boostMidPieces : Z
}.
End StreamingTuning.

(** The engine's side of a torrent, as far as the module talks to it:
    validity, which pieces are on disk, and the priority and deadline
    tables the module writes. [engineThrows p] says that an engine call
    about piece [p] raises. *)
Record TorrentHandle : Type := {
  handleId : positive;
  isValid : bool;
  havePiece : Z -> bool;
  engineThrows : Z -> bool;
  piecePriority : gmap Z Priority;
  pieceDeadline : gmap Z Z
}.

Record ActiveTorrentStream : Type := {
  streamId : string;
  infoHash : string;
  saveDir : string;
  handle : TorrentHandle;
  fileIndex : Z;
  fileName : string;
  filePath : string;
  fileSize : Z;
  fileOffset : Z;
  pieceLength : Z;
  totalPieces : Z;
  fileStartPiece : Z;
  fileEndPiece : Z;
  streamingWindowPieces : Z;
  prefetchWindowPieces : Z;
  prefetchAdvanceStep : Z;
  pieceDeadlineStepMs : Z;
  boostNearPieces : Z;
  boostMidPieces : Z;
  nextPrefetchPiece : Z;   (* @Volatile var, default 0 *)
  lastBoostedPiece : Z     (* @Volatile var, default -1 *)
}.

(** Assignments to the mutable parts of a stream. *)
Definition setHandle (s : ActiveTorrentStream) (h : TorrentHandle) : ActiveTorrentStream :=
  {| streamId := streamId s; infoHash := infoHash s; saveDir := saveDir s;
     handle := h; fileIndex := fileIndex s; fileName := fileName s;
     filePath := filePath s; fileSize := fileSize s; fileOffset := fileOffset s;
     pieceLength := pieceLength s; totalPieces := totalPieces s;
     fileStartPiece := fileStartPiece s; fileEndPiece := fileEndPiece s;
     streamingWindowPieces := streamingWindowPieces s;
     prefetchWindowPieces := prefetchWindowPieces s;
     prefetchAdvanceStep := prefetchAdvanceStep s;
     pieceDeadlineStepMs := pieceDeadlineStepMs s;
     boostNearPieces := boostNearPieces s; boostMidPieces := boostMidPieces s;
     nextPrefetchPiece := nextPrefetchPiece s;
     lastBoostedPiece := lastBoostedPiece s |}.


Definition setLastBoostedPiece (s : ActiveTorrentStream) (v : Z) : ActiveTorrentStream :=
  {| streamId := streamId s; infoHash := infoHash s; saveDir := saveDir s;
     handle := handle s; fileIndex := fileIndex s; fileName := fileName s;
     filePath := filePath s; fileSize := fileSize s; fileOffset := fileOffset s;
     pieceLength := pieceLength s; totalPieces := totalPieces s;
     fileStartPiece := fileStartPiece s; fileEndPiece := fileEndPiece s;
     streamingWindowPieces := streamingWindowPieces s;
     prefetchWindowPieces := prefetchWindowPieces s;
     prefetchAdvanceStep := prefetchAdvanceStep s;
     pieceDeadlineStepMs := pieceDeadlineStepMs s;
     boostNearPieces := boostNearPieces s; boostMidPieces := boostMidPieces s;
     nextPrefetchPiece := nextPrefetchPiece s;
     lastBoostedPiece := v |}.

(** [handle.piecePriority(piece, priority)] and
    [handle.setPieceDeadline(piece, deadline)] *)
Definition setPiecePriority (h : TorrentHandle) (piece : Z) (p : Priority) : TorrentHandle :=
  {| handleId := handleId h; isValid := isValid h; havePiece := havePiece h;
     engineThrows := engineThrows h;
     piecePriority := <[piece := p]> (piecePriority h);
     pieceDeadline := pieceDeadline h |}.

Definition setPieceDeadline (h : TorrentHandle) (piece : Z) (deadline : Z) : TorrentHandle :=
  {| handleId := handleId h; isValid := isValid h; havePiece := havePiece h;
     engineThrows := engineThrows h;
     piecePriority := piecePriority h;
     pieceDeadline := <[piece := deadline]> (pieceDeadline h) |}.

(** ** Tuning selection *)

(** [deriveStreamingTuning(networkMbps: Double?)] *)
Definition deriveStreamingTuning (networkMbps : option Double.t) : StreamingTuning.t :=
  let mbps :=
    match networkMbps with
    | Some d =>
        if Double.isFinite d && Double.gtb d (Double.Fin 0) then d else Double.Fin 20
    | None => Double.Fin 20
    end in
  if Double.leb mbps (Double.Fin (3 # 2)) then StreamingTuning.Build 64 128 12 160 14 28
  else if Double.leb mbps (Double.Fin 5) then StreamingTuning.Build 88 192 18 145 18 36
  else if Double.leb mbps (Double.Fin 20) then
    StreamingTuning.Build STREAMING_WINDOW_PIECES PREFETCH_WINDOW_PIECES
                          PREFETCH_ADVANCE_STEP 120 24 48
  else if Double.leb mbps (Double.Fin 80) then StreamingTuning.Build 144 320 32 100 28 56
  else if Double.leb mbps (Double.Fin 250) then StreamingTuning.Build 176 384 40 85 32 64
  else StreamingTuning.Build 224 448 48 70 36 72.

(** ** Piece geometry *)

Record PieceGeometry : Type := {
  geoPieceLength : Z;
  geoTotalPieces : Z;
  geoFirstPiece : Z;
  geoLastPiece : Z
}.

(** The geometry lines of [prepareStreamInternal]: [fileOffset] and
    [fileSize] are [Long], [torrentPieceLength = torrentInfo.pieceLength()]
    and [torrentNumPieces = torrentInfo.numPieces()] are [Int]. *)
Definition pieceGeometry (fileOffset fileSize torrentPieceLength torrentNumPieces : Z)
  : option PieceGeometry :=
  let pieceLength := Z.max 1 torrentPieceLength in
  let totalPieces := Z.max 1 torrentNumPieces in
  firstPiece ← coerceIn (toInt (toLong (Z.quot fileOffset pieceLength)))
                        0 (toInt (totalPieces - 1));
  lastPiece ← coerceIn
    (toInt (toLong (Z.quot (toLong (toLong (fileOffset + Z.max 1 fileSize) - 1))
                           pieceLength)))
    firstPiece (toInt (totalPieces - 1));
  Some {| geoPieceLength := pieceLength; geoTotalPieces := totalPieces;
          geoFirstPiece := firstPiece; geoLastPiece := lastPiece |}.

(** ** Stream coordinator *)

(** The tier of a piece [pieceOffset] pieces after the start of a boost. *)
Definition boostPriority (stream : ActiveTorrentStream) (pieceOffset : Z) : Priority :=
  if pieceOffset <? boostNearPieces stream then SEVEN
  else if pieceOffset <? boostMidPieces stream then SIX
  else FOUR.

(** The body of [for (piece in startPiece..endPiece)] in [boostPieceWindow];
    an engine exception leaves the loop ([catch (_: Throwable) { break }]). *)
Fixpoint boostPieces (stream : ActiveTorrentStream) (startPiece : Z)
    (pieces : list Z) (h : TorrentHandle) : TorrentHandle :=
  match pieces with
  | [] => h
  | piece :: rest =>
      if engineThrows h piece then h
      else
        let pieceOffset := toInt (piece - startPiece) in
        let h1 := setPiecePriority h piece (boostPriority stream pieceOffset) in
        let h2 := setPieceDeadline h1 piece
                    (toInt (pieceOffset * pieceDeadlineStepMs stream)) in
        boostPieces stream startPiece rest h2
  end.

(** [boostPieceWindow(stream, fromPiece, windowPieces: Int? = null)].
    [None] is the [IllegalArgumentException] of [coerceIn]. *)
Definition boostPieceWindow (stream : ActiveTorrentStream) (fromPiece : Z)
    (windowPieces : option Z) : option ActiveTorrentStream :=
  if negb (isValid (handle stream)) then Some stream
  else
    startPiece ← coerceIn fromPiece (fileStartPiece stream) (fileEndPiece stream);
    if (0 <=? lastBoostedPiece stream) &&
       (startPiece <=? toInt (lastBoostedPiece stream + STREAMING_BOOST_MIN_STEP))
    then Some stream
    else
      let effectiveWindowPieces :=
        Z.max 1 (default (streamingWindowPieces stream) windowPieces) in
      let endPiece :=
        Z.min (fileEndPiece stream) (toInt (startPiece + effectiveWindowPieces)) in
      let h := boostPieces stream startPiece
                 (seqZ startPiece (endPiece - startPiece + 1)) (handle stream) in
      Some (setLastBoostedPiece (setHandle stream h) startPiece).

(** How a scan over a run of pieces ends. *)
Inductive Scan : Type :=
| Missing (piece : Z)
| Threw
| AllPresent.

(** One [for] loop of [findNextMissingPiece]. *)
Fixpoint scanPieces (h : TorrentHandle) (pieces : list Z) : Scan :=
  match pieces with
  | [] => AllPresent
  | piece :: rest =>
      if engineThrows h piece then Threw
      else if negb (havePiece h piece) then Missing piece
      else scanPieces h rest
  end.

(** [findNextMissingPiece(stream, fromPiece)] *)
Definition findNextMissingPiece (stream : ActiveTorrentStream) (fromPiece : Z)
  : option Z :=
  if negb (isValid (handle stream)) then Some (-1)
  else
    let start := fileStartPiece stream in
    let end_ := fileEndPiece stream in
    pivot ← coerceIn fromPiece start end_;
    match scanPieces (handle stream) (seqZ pivot (end_ - pivot + 1)) with
    | Missing piece => Some piece
    | Threw => Some (-1)
    | AllPresent =>
        match scanPieces (handle stream) (seqZ start (pivot - start)) with
        | Missing piece => Some piece
        | Threw => Some (-1)
        | AllPresent => Some (-1)
        end
    end.




(** The loop of [waitForPiece] on the clamped piece. [polls] is the number
    of turns the timeout leaves room for, and [tick] what the engine does
    to the handle during one sleep of 120 ms. The result is the stream as
    the boosts and the engine left it, and whether the piece is there. *)
Fixpoint waitLoop (tick : TorrentHandle -> TorrentHandle) (polls : nat)
    (stream : ActiveTorrentStream) (safePiece : Z)
  : option (ActiveTorrentStream * bool) :=
  match polls with
  | O =>
      Some (stream,
            if engineThrows (handle stream) safePiece then false
            else havePiece (handle stream) safePiece)
  | S polls' =>
      if engineThrows (handle stream) safePiece then Some (stream, false)
      else if havePiece (handle stream) safePiece then Some (stream, true)
      else
        boosted ← boostPieceWindow stream safePiece None;
        waitLoop tick polls' (setHandle boosted (tick (handle boosted))) safePiece
  end.

(** [waitForPiece(stream, pieceIndex, timeoutMs)] *)
Definition waitForPiece (tick : TorrentHandle -> TorrentHandle) (polls : nat)
    (stream : ActiveTorrentStream) (pieceIndex : Z)
  : option (ActiveTorrentStream * bool) :=
  if negb (isValid (handle stream)) then Some (stream, false)
  else
    safePiece ← coerceIn pieceIndex (fileStartPiece stream) (fileEndPiece stream);
    waitLoop tick polls stream safePiece.




(** Bounds under which no [Int] operation of the coordinator wraps around:
    piece indices below [2^30], tuning values at most [2^10] (the six
    profiles stay below 512). *)
Definition inBudget (s : ActiveTorrentStream) : Prop :=
  0 <= fileStartPiece s <= fileEndPiece s /\ fileEndPiece s < 2 ^ 30 /\
  0 <= streamingWindowPieces s <= 2 ^ 10 /\
  0 <= prefetchWindowPieces s <= 2 ^ 10 /\
  0 <= prefetchAdvanceStep s <= 2 ^ 10 /\
  0 <= pieceDeadlineStepMs s <= 2 ^ 10.

(** The cursors are where the code leaves them: [lastBoostedPiece] is [-1]
    or a piece of the file, [nextPrefetchPiece] a piece of the file. *)
Definition cursorsInFile (s : ActiveTorrentStream) : Prop :=
  (lastBoostedPiece s = -1 \/
   fileStartPiece s <= lastBoostedPiece s <= fileEndPiece s) /\
  fileStartPiece s <= nextPrefetchPiece s <= fileEndPiece s.

(** ** Module state and stream registry *)

(** The engine session: the torrents it holds (by handle), and the handles
    whose removal makes the engine raise. *)
Record SessionManager : Type := {
  isRunning : bool;
  torrents : gset positive;
  removeThrows : gset positive
}.

(** [sm.remove(handle)]; [None] when the engine raises. *)
Definition sessionRemove (sm : SessionManager) (h : TorrentHandle) : option SessionManager :=
  if decide (handleId h ∈ removeThrows sm) then None
  else Some {| isRunning := isRunning sm;
               torrents := torrents sm ∖ {[handleId h]};
               removeThrows := removeThrows sm |}.

(** The mutable state of [TorrentStreamingModule]: the registry, the
    session, the port of the HTTP bridge, and the save directories that
    exist on disk. *)
Record ModuleState : Type := {
  activeStreams : gmap string ActiveTorrentStream;
  sessionManager : option SessionManager;
  httpServer : option Z;
  disk : gset string
}.

Definition initialState : ModuleState :=
  {| activeStreams := ∅; sessionManager := None; httpServer := None; disk := ∅ |}.

Definition setActiveStreams (st : ModuleState)
    (m : gmap string ActiveTorrentStream) : ModuleState :=
  {| activeStreams := m; sessionManager := sessionManager st;
     httpServer := httpServer st; disk := disk st |}.

Definition setSessionManager (st : ModuleState) (sm : option SessionManager) : ModuleState :=
  {| activeStreams := activeStreams st; sessionManager := sm;
     httpServer := httpServer st; disk := disk st |}.

Definition setHttpServer (st : ModuleState) (port : option Z) : ModuleState :=
  {| activeStreams := activeStreams st; sessionManager := sessionManager st;
     httpServer := port; disk := disk st |}.

Definition setDisk (st : ModuleState) (d : gset string) : ModuleState :=
  {| activeStreams := activeStreams st; sessionManager := sessionManager st;
     httpServer := httpServer st; disk := d |}.

Definition ensureSessionStartedLocked (st : ModuleState) : ModuleState :=
  match sessionManager st with
  | Some sm =>
      if isRunning sm then st
      else setSessionManager st
             (Some {| isRunning := true; torrents := ∅; removeThrows := ∅ |})
  | None =>
      setSessionManager st
        (Some {| isRunning := true; torrents := ∅; removeThrows := ∅ |})
  end.

(** [port] is the port the system hands to [TorrentHttpServer(0)]. *)
Definition ensureHttpServerStartedLocked (port : Z) (st : ModuleState) : ModuleState :=
  match httpServer st with
  | Some _ => st
  | None => setHttpServer st (Some port)
  end.

(** [deleteRecursively(file)] on a save directory. *)
Definition deleteRecursively (dir : string) (st : ModuleState) : ModuleState :=
  setDisk st (disk st ∖ {[dir]}).

(** [stopStreamLocked(stream, cleanupFiles)] *)
Definition stopStreamLocked (stream : ActiveTorrentStream) (cleanupFiles : bool)
    (st : ModuleState) : ModuleState :=
  let st1 :=
    match sessionManager st with
    | Some sm =>
        match sessionRemove sm (handle stream) with
        | Some sm' => setSessionManager st (Some sm')
        | None => st                      (* catch (_: Throwable) {} *)
        end
    | None => st
    end in
  if cleanupFiles then deleteRecursively (saveDir stream) st1 else st1.

(** [stopAllStreamsLocked(cleanupFiles)] *)
Definition stopAllStreamsLocked (cleanupFiles : bool) (st : ModuleState) : ModuleState :=
  let current := (map_to_list (activeStreams st)).*2 in
  foldl (fun acc stream => stopStreamLocked stream cleanupFiles acc)
        (setActiveStreams st ∅) current.

(** How a promise of the bridge is settled. *)
Inductive Settled (A : Type) : Type :=
| Resolved (value : A)
| Rejected (code message : string).
Arguments Resolved {A} value.
Arguments Rejected {A} code message.

(** [stopStream(streamId, promise)], the task run on the I/O executor.
    Nothing inside the [try] raises: the engine's exception is swallowed in
    [stopStreamLocked] and [java.io.File] reports failure by its result. *)
Definition stopStream (streamId : string) (st : ModuleState)
  : ModuleState * Settled bool :=
  let stream := activeStreams st !! streamId in
  let st1 := setActiveStreams st (delete streamId (activeStreams st)) in
  let st2 :=
    match stream with
    | Some s => stopStreamLocked s true st1
    | None => st1
    end in
  (st2, Resolved true).

(** [stopAllStreams(promise)] *)
Definition stopAllStreams (st : ModuleState) : ModuleState * Settled bool :=
  (stopAllStreamsLocked true st, Resolved true).

(** *** Preparing a stream *)

(** [guessMimeType(path)] *)
Definition guessMimeType (path : string) : string :=
  let lower := lowercase path in
  if endsWith lower ".mkv" then "video/x-matroska"
  else if endsWith lower ".mp4" || endsWith lower ".m4v" then "video/mp4"
  else if endsWith lower ".webm" then "video/webm"
  else if endsWith lower ".avi" then "video/x-msvideo"
  else if endsWith lower ".mov" then "video/quicktime"
  else if endsWith lower ".ts" || endsWith lower ".m2ts" then "video/mp2t"
  else if endsWith lower ".mpg" || endsWith lower ".mpeg" then "video/mpeg"
  else "application/octet-stream".

Record FileEntry : Type := {
  entryPath : string;
  entrySize : Z;
  entryOffset : Z
}.

Record TorrentInfo : Type := {
  infoPieceLength : Z;
  infoNumPieces : Z;
  infoFiles : list FileEntry
}.

(** What the world outside the module answers during one [prepareStream]:
    the info-hash of the magnet, the handle and the metadata the engine
    comes up with (or not, within the timeouts), the file the picker
    selects, the UUID drawn for the stream, and the port a newly started
    HTTP bridge listens on. *)
Record Resolution : Type := {
  resInfoHashHex : string;
  resHandle : option TorrentHandle;
  resTorrentInfo : option TorrentInfo;
  resSelectedFileIndex : Z;
  resStreamId : string;
  resPort : Z
}.

Record PreparedStream : Type := {
  outStreamId : string;
  outPlaybackUrl : string;
  outInfoHash : string;
  outFileName : string;
  outFileSize : Z;
  outMimeType : string
}.

Definition baseTorrentDir : string := "cache/torrent-stream".

(** The first [synchronized(lock)] block of [prepareStreamInternal]. *)
Definition prepareStopPrior (res : Resolution) (st : ModuleState) : ModuleState :=
  stopAllStreamsLocked true
    (ensureHttpServerStartedLocked (resPort res) (ensureSessionStartedLocked st)).

(** From the magnet to the [ActiveTorrentStream], between the two locked
    blocks; the left result is the message of the exception thrown. *)
Definition prepareResolve (res : Resolution) (networkMbps : option Double.t)
    (st : ModuleState) : ModuleState * (string + ActiveTorrentStream) :=
  let dir := baseTorrentDir +:+ "/" +:+ resInfoHashHex res in
  let st1 := setDisk st (disk st ∪ {[dir]}) in
  match sessionManager st1 with
  | None => (st1, inl "Torrent session is not initialized")
  | Some sm =>
      match resHandle res with
      | None => (st1, inl "Timed out while waiting for torrent handle")
      | Some h =>
          let st2 := setSessionManager st1
                       (Some {| isRunning := isRunning sm;
                                torrents := torrents sm ∪ {[handleId h]};
                                removeThrows := removeThrows sm |}) in
          match resTorrentInfo res with
          | None => (st2, inl "Timed out while waiting for torrent metadata")
          | Some info =>
              if resSelectedFileIndex res <? 0
              then (st2, inl "No playable video file found in torrent")
              else
                match infoFiles info !! Z.to_nat (resSelectedFileIndex res) with
                | None => (st2, inl "file index out of range")
                | Some entry =>
                    match pieceGeometry (entryOffset entry) (entrySize entry)
                            (infoPieceLength info) (infoNumPieces info) with
                    | None => (st2, inl "Cannot coerce value to an empty range")
                    | Some geo =>
                        let tuning := deriveStreamingTuning networkMbps in
                        (st2, inr
                          {| streamId := resStreamId res;
                             infoHash := resInfoHashHex res;
                             saveDir := dir;
                             handle := h;
                             fileIndex := resSelectedFileIndex res;
                             fileName := if isBlank (entryPath entry)
                                         then "stream.bin" else entryPath entry;
                             filePath := dir +:+ "/" +:+ entryPath entry;
                             fileSize := entrySize entry;
                             fileOffset := entryOffset entry;
                             pieceLength := geoPieceLength geo;
                             totalPieces := geoTotalPieces geo;
                             fileStartPiece := geoFirstPiece geo;
                             fileEndPiece := geoLastPiece geo;
                             streamingWindowPieces :=
                               StreamingTuning.streamingWindowPieces tuning;
                             prefetchWindowPieces :=
                               StreamingTuning.prefetchWindowPieces tuning;
                             prefetchAdvanceStep :=
                               StreamingTuning.prefetchAdvanceStep tuning;
                             pieceDeadlineStepMs :=
                               StreamingTuning.pieceDeadlineStepMs tuning;
                             boostNearPieces := StreamingTuning.boostNearPieces tuning;
                             boostMidPieces := StreamingTuning.boostMidPieces tuning;
                             nextPrefetchPiece := geoFirstPiece geo;
                             lastBoostedPiece := -1 |})
                    end
                end
          end
      end
  end.

(** The second [synchronized(lock)] block: [activeStreams[streamId] = stream]. *)
Definition prepareRegister (stream : ActiveTorrentStream) (st : ModuleState) : ModuleState :=
  setActiveStreams st (<[streamId stream := stream]> (activeStreams st)).

(** After registration: the first boost writes through to the registered
    stream (the registry holds the same object), then the prefetch loop is
    started and the first piece awaited. *)
Definition preparePrime (stream : ActiveTorrentStream) (st : ModuleState)
  : ModuleState * (string + PreparedStream) :=
  match boostPieceWindow stream (fileStartPiece stream)
          (Some (prefetchWindowPieces stream)) with
  | None => (st, inl "Cannot coerce value to an empty range")
  | Some boosted =>
      let st1 := setActiveStreams st
                   (<[streamId stream := boosted]> (activeStreams st)) in
      match httpServer st1 with
      | None => (st1, inl "Torrent HTTP bridge is not running")
      | Some serverPort =>
          (st1, inr {| outStreamId := streamId stream;
                       outPlaybackUrl := "http://" +:+ HTTP_HOST +:+ ":" +:+
                                         Long_toString serverPort +:+
                                         "/torrent/" +:+ streamId stream;
                       outInfoHash := infoHash stream;
                       outFileName := fileName stream;
                       outFileSize := fileSize stream;
                       outMimeType := guessMimeType (fileName stream) |})
      end
  end.

(** [prepareStreamInternal], run as one task on the I/O executor. *)
Definition prepareStreamInternal (res : Resolution) (networkMbps : option Double.t)
    (st : ModuleState) : ModuleState * (string + PreparedStream) :=
  let st1 := prepareStopPrior res st in
  match prepareResolve res networkMbps st1 with
  | (st2, inl message) => (st2, inl message)
  | (st2, inr stream) => preparePrime stream (prepareRegister stream st2)
  end.

(** [prepareStream]'s task: the result or [TORRENT_PREPARE_FAILED]. *)
Definition prepareStream (res : Resolution) (networkMbps : option Double.t)
    (st : ModuleState) : ModuleState * Settled PreparedStream :=
  match prepareStreamInternal res networkMbps st with
  | (st', inr out) => (st', Resolved out)
  | (st', inl message) => (st', Rejected "TORRENT_PREPARE_FAILED" message)
  end.





(** ** Playback server *)

(** [NanoHTTPD.Method] *)
Inductive Method : Type :=
| GET | PUT | POST | DELETE | HEAD | OPTIONS | TRACE | CONNECT | PATCH.

(** [NanoHTTPD.Response.Status], the ones the bridge answers with. *)
Inductive Status : Type :=
| OK
| PARTIAL_CONTENT
| NOT_FOUND
| METHOD_NOT_ALLOWED
| RANGE_NOT_SATISFIABLE
| INTERNAL_ERROR.

Definition requestStatus (s : Status) : Z :=
  match s with
  | OK => 200
  | PARTIAL_CONTENT => 206
  | NOT_FOUND => 404
  | METHOD_NOT_ALLOWED => 405
  | RANGE_NOT_SATISFIABLE => 416
  | INTERNAL_ERROR => 500
  end.

(** [IHTTPSession]: NanoHTTPD hands the header names over in lower case. *)
Record IHTTPSession : Type := {
  method : Method;
  uri : string;
  headers : gmap string string
}.

(** The data of a fixed-length response: a text, or a
    [TorrentInputStream(stream, startOffset, length)] of which NanoHTTPD
    sends [length] bytes. *)
Inductive Body : Type :=
| TextBody (text : string)
| StreamBody (stream : ActiveTorrentStream) (startOffset length : Z).

Record Response : Type := {
  status : Status;
  mimeType : string;
  body : Body;
  responseHeaders : gmap string string
}.

(** The number of bytes the response body carries. *)
Definition bodyLength (r : Response) : Z :=
  match body r with
  | TextBody text => Z.of_nat (String.length text)
  | StreamBody _ _ length => length
  end.

Definition newFixedLengthResponse (s : Status) (mime : string) (b : Body) : Response :=
  {| status := s; mimeType := mime; body := b; responseHeaders := ∅ |}.

Definition addHeader (r : Response) (name value : string) : Response :=
  {| status := status r; mimeType := mimeType r; body := body r;
     responseHeaders := <[name := value]> (responseHeaders r) |}.

Definition isGetOrHead (m : Method) : bool :=
  match m with GET | HEAD => true | _ => false end.

Definition isHead (m : Method) : bool :=
  match m with HEAD => true | _ => false end.

(** [TorrentHttpServer.serveTorrentRequest(session)] *)
Definition serveTorrentRequest (streams : gmap string ActiveTorrentStream)
    (session : IHTTPSession) : Response :=
  if negb (isGetOrHead (method session)) then
    newFixedLengthResponse METHOD_NOT_ALLOWED "text/plain" (TextBody "Method not allowed")
  else
    let streamId := substringBefore (removePrefix (uri session) "/torrent/") "/" in
    match streams !! streamId with
    | None => newFixedLengthResponse NOT_FOUND "text/plain" (TextBody "Stream not found")
    | Some stream =>
        let rangeHeader := headers session !! "range" in
        let parsedRange := parseRangeHeader rangeHeader (fileSize stream) in
        let start := match parsedRange with Some (first, _) => first | None => 0 end in
        let end_ := match parsedRange with
                    | Some (_, second) => second
                    | None => toLong (fileSize stream - 1)
                    end in
        if (start <? 0) || (end_ <? start) || (fileSize stream <=? start) then
          let invalid := newFixedLengthResponse RANGE_NOT_SATISFIABLE "text/plain"
                           (TextBody "Requested range not satisfiable") in
          let invalid := addHeader invalid "Accept-Ranges" "bytes" in
          addHeader invalid "Content-Range"
                    ("bytes */" +:+ Long_toString (fileSize stream))
        else
          let length := toLong (toLong (end_ - start) + 1) in
          let status := match parsedRange with
                        | Some _ => PARTIAL_CONTENT
                        | None => OK
                        end in
          let mimeType := guessMimeType (fileName stream) in
          let response :=
            if isHead (method session)
            then newFixedLengthResponse status mimeType (TextBody "")
            else newFixedLengthResponse status mimeType (StreamBody stream start length) in
          let response := addHeader response "Accept-Ranges" "bytes" in
          let response := addHeader response "Content-Length" (Long_toString length) in
          let response := addHeader response "Connection" "keep-alive" in
          match parsedRange with
          | Some _ =>
              addHeader response "Content-Range"
                ("bytes " +:+ Long_toString start +:+ "-" +:+ Long_toString end_ +:+
                 "/" +:+ Long_toString (fileSize stream))
          | None => response
          end
    end.

(** [TorrentHttpServer.serve(session)]; nothing in [serveTorrentRequest]
    raises, so the [catch] that answers 500 is never entered. *)
Definition serve (streams : gmap string ActiveTorrentStream)
    (session : IHTTPSession) : Response :=
  if negb (startsWith (uri session) "/torrent/") then
    newFixedLengthResponse NOT_FOUND "text/plain" (TextBody "Not found")
  else serveTorrentRequest streams session.

(** A GET for [/torrent/{streamId}] with [Range: bytes={first}-{last}],
    the numbers written in decimal. *)
Definition rangeRequest (streamId : string) (first last : string)
    (others : gmap string string) : IHTTPSession :=
  {| method := GET;
     uri := "/torrent/" +:+ streamId;
     headers := <["range" := "bytes=" +:+ first +:+ "-" +:+ last]> others |}.

(** ** The body stream *)

(** [TorrentInputStream]: the stream it reads, the offset in the file and
    the number of bytes still to deliver. *)
Record TorrentInputStream : Type := {
  source : ActiveTorrentStream;
  offsetInFile : Z;
  remaining : Z
}.

(** [TorrentInputStream(stream, startOffset, length)] *)
Definition openInputStream (stream : ActiveTorrentStream) (startOffset length : Z)
  : TorrentInputStream :=
  {| source := stream; offsetInFile := startOffset; remaining := length |}.

(** The result of [read(buffer, off, len)]: [-1], [0], or the bytes put
    into the buffer. *)
Inductive ReadResult : Type :=
| ReadEnd
| ReadNothing
| ReadChunk (bytes : list Byte.byte).

(** What surrounds a read: the engine between two polls of a wait, the
    polls a wait has time for, and the backing file as it is on disk
    ([None]: not there yet). The file does not change while the read
    retries, and a [RandomAccessFile.read] returns all the bytes asked for
    that the file has. *)
Record ReadEnv : Type := {
  envTick : TorrentHandle -> TorrentHandle;
  envPolls : nat;
  envFile : option (list Byte.byte)
}.

(** [TorrentInputStream.read(buffer, off, len)]. [None] is an exception:
    the [EOFException] of a piece that did not arrive or of a file that
    yields no bytes, the [IOException] of a file that does not exist. *)
Definition read (env : ReadEnv) (t : TorrentInputStream) (len : Z)
  : option (TorrentInputStream * ReadResult) :=
  if remaining t <=? 0 then Some (t, ReadEnd)
  else if len <=? 0 then Some (t, ReadNothing)
  else
    let stream := source t in
    let requested := toInt (Z.min len (remaining t)) in
    let globalOffset := toLong (fileOffset stream + offsetInFile t) in
    pieceIndex ← coerceIn (toInt (toLong (Z.quot globalOffset (pieceLength stream))))
                          0 (toInt (totalPieces stream - 1));
    match waitForPiece (envTick env) (envPolls env) stream pieceIndex with
    | Some (waited, true) =>
        boosted ← boostPieceWindow waited pieceIndex None;
        let pieceEndOffsetGlobal :=
          toLong (toLong (pieceIndex + 1) * pieceLength boosted) in
        let maxInPiece := Z.max 1 (toLong (pieceEndOffsetGlobal - globalOffset)) in
        let chunkSize := toInt (Z.min requested (Z.min maxInPiece IO_CHUNK_SIZE)) in
        match envFile env with
        | None => None
        | Some data =>
            match take (Z.to_nat chunkSize) (drop (Z.to_nat (offsetInFile t)) data) with
            | [] => None
            | bytes =>
                let bytesRead := Z.of_nat (length bytes) in
                Some ({| source := boosted;
                         offsetInFile := toLong (offsetInFile t + bytesRead);
                         remaining := toLong (remaining t - bytesRead) |},
                      ReadChunk bytes)
            end
        end
    | _ => None
    end.

(** How NanoHTTPD sends a fixed-length body of [pending] bytes: it reads at
    most [BUFFER_SIZE = 16 * 1024] bytes at a time until [pending] bytes
    are sent or a read returns nothing; an exception ends the response.
    [fuel] bounds the number of reads. *)
Fixpoint sendBody (env : ReadEnv) (fuel : nat) (t : TorrentInputStream) (pending : Z)
  : list Byte.byte :=
  match fuel with
  | O => []
  | S fuel' =>
      if pending <=? 0 then []
      else
        match read env t (toInt (Z.min pending (16 * 1024))) with
        | Some (t', ReadChunk bytes) =>
            bytes ++ sendBody env fuel' t' (toLong (pending - Z.of_nat (length bytes)))
        | _ => []
        end
  end.

(** The bytes a client receives as the body of a response. *)
Definition sentBody (env : ReadEnv) (fuel : nat) (r : Response) : list Byte.byte :=
  match body r with
  | TextBody text => list_byte_of_string text
  | StreamBody stream startOffset length =>
      sendBody env fuel (openInputStream stream startOffset length) length
  end.

(** ** Sample data *)

(** A valid handle on which every piece except those in [missing] is on
    disk, with empty priority and deadline tables. *)
Definition handleMissing (missing : list Z) : TorrentHandle :=
  {| handleId := 1%positive;
     isValid := true;
     havePiece := fun piece => negb (bool_decide (piece ∈ missing));
     engineThrows := fun _ => false;
     piecePriority := ∅;
     pieceDeadline := ∅ |}.

(** A stream over pieces [first .. last] of a file of [size] bytes, with
    the tuning of a 20 Mbps link and the given cursors. *)
Definition streamOver (h : TorrentHandle) (size first last nextPrefetch lastBoosted : Z)
  : ActiveTorrentStream :=
  {| streamId := "3f2b8c1e-4d5a-4e6f-8a9b-0c1d2e3f4a5b";
     infoHash := "c12fe1c06bba254a9dc9f519b335aa7c1367a88a";
     saveDir := "cache/torrent-stream/c12fe1c06bba254a9dc9f519b335aa7c1367a88a";
     handle := h;
     fileIndex := 0;
     fileName := "movie.mkv";
     filePath := "cache/torrent-stream/c12fe1c06bba254a9dc9f519b335aa7c1367a88a/movie.mkv";
     fileSize := size;
     fileOffset := 0;
     pieceLength := 16;
     totalPieces := last + 1;
     fileStartPiece := first;
     fileEndPiece := last;
     streamingWindowPieces := 112;
     prefetchWindowPieces := 256;
     prefetchAdvanceStep := 24;
     pieceDeadlineStepMs := 120;
     boostNearPieces := 24;
     boostMidPieces := 48;
     nextPrefetchPiece := nextPrefetch;
     lastBoostedPiece := lastBoosted |}.

(** A registered stream of 100 bytes. *)
Definition smallStream : ActiveTorrentStream :=
  streamOver (handleMissing []) 100 0 6 0 (-1).

Definition smallRegistry : gmap string ActiveTorrentStream :=
  {[ streamId smallStream := smallStream ]}.

(** ** Vocabulary for the string facts *)

Fixpoint allChars (P : ascii -> bool) (s : string) : bool :=
  match s with
  | EmptyString => true
  | String c s' => P c && allChars P s'
  end.

Definition isDigit (c : ascii) : bool :=
  match digitOf c with Some _ => true | None => false end.

(** [ds] is a non-empty run of decimal digits that reads as [n]. *)
Definition isDecimalOf (ds : string) (n : Z) : Prop :=
  ds <> EmptyString /\ allChars isDigit ds = true /\
  forall acc, parseDigits ds acc = Some (acc * 10 ^ Z.of_nat (String.length ds) + n).

Definition isNot (d : ascii) (c : ascii) : bool := negb (Ascii.eqb c d).

(** ** Vocabulary for the tuning facts *)

(** The one profile of each network class, as [deriveStreamingTuning]
    lists them. *)
Definition profileOf (c : NetworkClass) : StreamingTuning.t :=
  match c with
  | very_slow => StreamingTuning.Build 64 128 12 160 14 28
  | slow => StreamingTuning.Build 88 192 18 145 18 36
  | medium => StreamingTuning.Build 112 256 24 120 24 48
  | fast => StreamingTuning.Build 144 320 32 100 28 56
  | very_fast => StreamingTuning.Build 176 384 40 85 32 64
  | ultra => StreamingTuning.Build 224 448 48 70 36 72
  end.

(** ** Vocabulary for the geometry facts *)

(** [v] clamped to [[lo, hi]]. *)
Definition clampTo (lo hi v : Z) : Z := Z.max lo (Z.min hi v).

(** The piece geometry in the words of the design document:
    [floor(fileOffset / pieceLength)] and
    [floor((fileOffset + fileSize - 1) / pieceLength)], both clamped to
    [[0, totalPieces - 1]]. *)
Definition documentedFirstPiece (s : ActiveTorrentStream) : Z :=
  clampTo 0 (totalPieces s - 1) (fileOffset s / pieceLength s).

Definition documentedLastPiece (s : ActiveTorrentStream) : Z :=
  clampTo 0 (totalPieces s - 1) ((fileOffset s + fileSize s - 1) / pieceLength s).

(** A torrent of four 16-byte pieces: a 48-byte video, an empty video that
    starts on the boundary of piece 3, and a 16-byte text. *)
Definition sampleInfo : TorrentInfo :=
  {| infoPieceLength := 16;
     infoNumPieces := 4;
     infoFiles := [ {| entryPath := "show/episode.mkv"; entrySize := 48; entryOffset := 0 |};
                    {| entryPath := "show/empty.mkv"; entrySize := 0; entryOffset := 48 |};
                    {| entryPath := "show/notes.txt"; entrySize := 16; entryOffset := 48 |} ] |}.

(** The answers of the world for a prepare that picks file [index] of
    [sampleInfo] and draws [sid] as stream id. *)
Definition sampleResolution (sid : string) (index : Z) : Resolution :=
  {| resInfoHashHex := "c12fe1c06bba254a9dc9f519b335aa7c1367a88a";
     resHandle := Some (handleMissing [0; 1; 2; 3]);
     resTorrentInfo := Some sampleInfo;
     resSelectedFileIndex := index;
     resStreamId := sid;
     resPort := 38211 |}.

(** The module once its session and HTTP bridge run, nothing registered. *)
Definition startedState : ModuleState :=
  prepareStopPrior (sampleResolution "" 0) initialState.

(** ** Vocabulary for the coordinator facts *)

(** The handle [h] once the engine has dropped the torrent. *)
Definition invalidated (h : TorrentHandle) : TorrentHandle :=
  {| handleId := handleId h; isValid := false; havePiece := havePiece h;
     engineThrows := engineThrows h; piecePriority := piecePriority h;
     pieceDeadline := pieceDeadline h |}.

(** No engine call about a piece of the file raises. *)
Definition engineQuiet (s : ActiveTorrentStream) : Prop :=
  forall p, fileStartPiece s <= p <= fileEndPiece s -> engineThrows (handle s) p = false.

(** [piece] is the first missing piece in the order
    [pivot .. fileEndPiece], then [fileStartPiece .. pivot - 1]. *)
Definition firstMissingFrom (s : ActiveTorrentStream) (pivot piece : Z) : Prop :=
  havePiece (handle s) piece = false /\
  ((pivot <= piece <= fileEndPiece s /\
    forall p, pivot <= p < piece -> havePiece (handle s) p = true) \/
   (fileStartPiece s <= piece < pivot /\
    (forall p, pivot <= p <= fileEndPiece s -> havePiece (handle s) p = true) /\
    forall p, fileStartPiece s <= p < piece -> havePiece (handle s) p = true)).

(** ** Vocabulary for the registry facts *)

(** The module after a first prepare of file 0 of [sampleInfo], registered
    under the id ["first"]. *)
Definition oneStreamState : ModuleState :=
  (prepareStreamInternal (sampleResolution "first" 0) None initialState).1.

(** ** Vocabulary for the body stream facts *)

(** Every piece of the file is on disk, on a valid handle that does not
    raise. *)
Definition fullyDownloaded (s : ActiveTorrentStream) : Prop :=
  isValid (handle s) = true /\
  forall p, fileStartPiece s <= p <= fileEndPiece s ->
            havePiece (handle s) p = true /\ engineThrows (handle s) p = false.

(** The sizes of the stream are those of a torrent: [Int] piece length and
    piece count, a file inside the [Long] range whose pieces have [Int]
    indices. *)
Definition soundSizes (s : ActiveTorrentStream) : Prop :=
  1 <= pieceLength s <= Int_MAX_VALUE /\
  1 <= totalPieces s <= Int_MAX_VALUE /\
  0 <= fileOffset s /\ 0 <= fileSize s /\
  fileOffset s + fileSize s < Long_MAX_VALUE /\
  (fileOffset s + fileSize s) / pieceLength s <= Int_MAX_VALUE.

(** The backing file is complete on disk. *)
Definition fileOnDisk (env : ReadEnv) (s : ActiveTorrentStream) (data : list Byte.byte)
  : Prop :=
  envFile env = Some data /\ Z.of_nat (length data) = fileSize s.

(** A stream in a state in which its whole file can be served. *)
Definition servable (env : ReadEnv) (data : list Byte.byte) (s : ActiveTorrentStream)
  : Prop :=
  inBudget s /\ cursorsInFile s /\ fullyDownloaded s /\ soundSizes s /\
  fileOnDisk env s data.

(** The 100 bytes of [smallStream]'s file, complete on disk, and an engine
    that stands still. *)
Definition smallData : list Byte.byte := replicate 100 Byte.x2a.

Definition smallEnv : ReadEnv :=
  {| envTick := fun h => h; envPolls := 375; envFile := Some smallData |}.

(** * Further parts of the module *)

(** ** Picking the file to play *)

(** [String.contains(other)] *)
Fixpoint contains (s other : string) : bool :=
  startsWith s other ||
  match s with
  | EmptyString => false
  | String _ s' => contains s' other
  end.

(** [isLikelyVideoFile(path)] *)
Definition isLikelyVideoFile (path : string) : bool :=
  endsWith path ".mkv" ||
  endsWith path ".mp4" ||
  endsWith path ".m4v" ||
  endsWith path ".avi" ||
  endsWith path ".webm" ||
  endsWith path ".mov" ||
  endsWith path ".ts" ||
  endsWith path ".m2ts" ||
  endsWith path ".mpg" ||
  endsWith path ".mpeg".

(** The score [selectPlayableFileIndex] gives a video file of [size] bytes
    whose lower-cased path is [lowerPath]. *)
Definition fileScore (size : Z) (lowerPath : string) : Z :=
  let score := size in
  let score := if contains lowerPath "/sample" || contains lowerPath "sample."
               then toLong (score - 500000000) else score in
  let score := if contains lowerPath "trailer" then toLong (score - 300000000) else score in
  let score := if contains lowerPath "extras" then toLong (score - 200000000) else score in
  let score := if contains lowerPath "featurette" then toLong (score - 200000000) else score in
  score.

(** The four variables of the loop of [selectPlayableFileIndex]. *)
Record PickState : Type := {
  bestIndex : Z;
  bestScore : Z;
  fallbackLargestIndex : Z;
  fallbackLargestSize : Z
}.

(** One turn of [for (i in 0 until totalFiles)]. *)
Definition pickStep (acc : PickState) (i : Z) (entry : FileEntry) : PickState :=
  let size := entrySize entry in
  let lowerPath := lowercase (entryPath entry) in
  let acc1 :=
    if fallbackLargestSize acc <? size
    then {| bestIndex := bestIndex acc; bestScore := bestScore acc;
            fallbackLargestIndex := i; fallbackLargestSize := size |}
    else acc in
  if negb (isLikelyVideoFile lowerPath) then acc1
  else
    let score := fileScore size lowerPath in
    if bestScore acc1 <? score
    then {| bestIndex := i; bestScore := score;
            fallbackLargestIndex := fallbackLargestIndex acc1;
            fallbackLargestSize := fallbackLargestSize acc1 |}
    else acc1.

Fixpoint pickLoop (i : Z) (files : list FileEntry) (acc : PickState) : PickState :=
  match files with
  | [] => acc
  | entry :: rest => pickLoop (i + 1) rest (pickStep acc i entry)
  end.

(** [selectPlayableFileIndex(torrentInfo, preferredFileIndex)] *)
Definition selectPlayableFileIndex (torrentInfo : TorrentInfo)
    (preferredFileIndex : option Z) : Z :=
  let fs := infoFiles torrentInfo in
  let totalFiles := Z.of_nat (length fs) in
  if totalFiles <=? 0 then -1
  else
    let preferred :=
      match preferredFileIndex with
      | Some p =>
          if (0 <=? p) && (p <? totalFiles) then
            match fs !! Z.to_nat p with
            | Some entry =>
                if isLikelyVideoFile (lowercase (entryPath entry)) then Some p else None
            | None => None
            end
          else None
      | None => None
      end in
    match preferred with
    | Some p => p
    | None =>
        let acc := pickLoop 0 fs
                     {| bestIndex := -1; bestScore := Long_MIN_VALUE;
                        fallbackLargestIndex := 0;
                        fallbackLargestSize := Long_MIN_VALUE |} in
        if 0 <=? bestIndex acc then bestIndex acc else fallbackLargestIndex acc
    end.

(** [prioritizeSelectedFile(handle, torrentInfo, selectedFileIndex)]: the
    array handed to [handle.prioritizeFiles]; [None] is the
    [ArrayIndexOutOfBoundsException] of the assignment. *)
Definition prioritizeSelectedFile (torrentInfo : TorrentInfo) (selectedFileIndex : Z)
  : option (list Priority) :=
  let filesCount := Z.max 1 (Z.of_nat (length (infoFiles torrentInfo))) in
  let priorities := replicate (Z.to_nat filesCount) IGNORE in
  if (0 <=? selectedFileIndex) && (selectedFileIndex <? filesCount)
  then Some (<[Z.to_nat selectedFileIndex := SEVEN]> priorities)
  else None.

(** ** The bridge methods around the tasks *)


(** [shutdownLocked()], the task [invalidate()] queues. *)
Definition shutdownLocked (st : ModuleState) : ModuleState :=
  setSessionManager (setHttpServer (stopAllStreamsLocked true st) None) None.

(** ** The service on the TypeScript side *)

(** The [networkMbps] of the payload [preparePlayback] hands to the native
    [prepareStream]: [Math.max(0.1, options.networkMbps)] for a finite
    number, [undefined] otherwise. *)
Definition payloadNetworkMbps (networkMbps : option Double.t) : option Double.t :=
  match networkMbps with
  | Some d =>
      if Double.isFinite d then Some (Double.max MIN_NETWORK_MBPS d) else None
  | None => None
  end.

(** [\d+] at the front of [s]: what is left after the digits. *)
Fixpoint skipDigits (s : string) : string :=
  match s with
  | EmptyString => EmptyString
  | String c s' => if isDigit c then skipDigits s' else s
  end.

(** [s] without [prefix], when it starts with it. *)
Definition stripPrefix (s prefix : string) : option string :=
  if startsWith s prefix then Some (dropChars (String.length prefix) s) else None.

(** [isLocalTorrentPlaybackUrl(url)], the test of
    [/^http:\/\/(?:127\.0\.0\.1|localhost):\d+\/torrent\//]. *)
Definition isLocalTorrentPlaybackUrl (url : option string) : bool :=
  match url with
  | None => false
  | Some u =>
      match stripPrefix u "http://" with
      | None => false
      | Some afterScheme =>
          let afterHost :=
            match stripPrefix afterScheme "127.0.0.1" with
            | Some rest => Some rest
            | None => stripPrefix afterScheme "localhost"
            end in
          match afterHost with
          | None => false
          | Some rest =>
              match stripPrefix rest ":" with
              | None => false
              | Some afterColon =>
                  let afterPort := skipDigits afterColon in
                  (String.length afterPort <? String.length afterColon)%nat &&
                  startsWith afterPort "/torrent/"
              end
          end
      end
  end.

(** [MinimalNetInfoState], its [details] read the way
    [estimateNetworkProfile] reads them: [Number(details.rxLinkSpeed)],
    [Number(details.linkSpeed)] and
    [(details.cellularGeneration || '').toString().toLowerCase()]. *)
Record MinimalNetInfoState : Type := {
  netType : option string;
  rxLinkSpeed : Double.t;
  linkSpeed : Double.t;
  cellularGeneration : string;
  isConnectionExpensive : option bool;
  isInternetReachable : option bool
}.

Record NetworkProfile : Type := {
  estimatedDownlinkMbps : Double.t;
  profileSource : string;
  connectionType : string;
  isMetered : bool
}.

(** [estimateNetworkProfile(state)]; [0.6] is the binary64 value of the
    literal. *)
Definition estimateNetworkProfile (state : option MinimalNetInfoState) : NetworkProfile :=
  let connectionType :=
    match state with
    | Some s =>
        match netType s with
        | Some t => if String.eqb t EmptyString then "unknown" else t
        | None => "unknown"
        end
    | None => "unknown"
    end in
  let isMetered :=
    match state with
    | Some s => match isConnectionExpensive s with Some b => b | None => false end
    | None => false
    end in
  let rx := match state with Some s => rxLinkSpeed s | None => Double.NaN end in
  let link := match state with Some s => linkSpeed s | None => Double.NaN end in
  let generation :=
    match state with Some s => cellularGeneration s | None => EmptyString end in
  let estimate :=
    if String.eqb connectionType "wifi" then
      if Double.isFinite rx && Double.gtb rx (Double.Fin 0)
      then (rx, "wifi-rx-link-speed")
      else if Double.isFinite link && Double.gtb link (Double.Fin 0)
      then (link, "wifi-link-speed")
      else (DEFAULT_NETWORK_MBPS, "unknown")
    else if String.eqb connectionType "cellular" then
      (if String.eqb generation "5g" then Double.Fin 130
       else if String.eqb generation "4g" then Double.Fin 28
       else if String.eqb generation "3g" then Double.Fin 4
       else if String.eqb generation "2g"
       then Double.Fin (5404319552844595 # 9007199254740992)
       else Double.Fin 12,
       "cellular-generation")
    else if String.eqb connectionType "ethernet" then (Double.Fin 350, "ethernet")
    else (DEFAULT_NETWORK_MBPS, "unknown") in
  let estimatedDownlinkMbps := estimate.1 in
  let estimatedDownlinkMbps :=
    match state with
    | Some s =>
        match isInternetReachable s with
        | Some false => MIN_NETWORK_MBPS
        | _ => estimatedDownlinkMbps
        end
    | None => estimatedDownlinkMbps
    end in
  let estimatedDownlinkMbps :=
    if isMetered && Double.gtb estimatedDownlinkMbps (Double.Fin 40)
    then Double.Fin 40 else estimatedDownlinkMbps in
  {| estimatedDownlinkMbps :=
       clamp estimatedDownlinkMbps MIN_NETWORK_MBPS (Double.Fin 1000);
     profileSource := estimate.2;
     connectionType := connectionType;
     isMetered := isMetered |}.

(** ** Merging trackers into the magnet *)

(** [String.split(delimiter: Char)] *)
Fixpoint split (s : string) (d : ascii) : list string :=
  match s with
  | EmptyString => [EmptyString]
  | String c s' =>
      if Ascii.eqb c d then EmptyString :: split s' d
      else match split s' d with
           | part :: rest => String c part :: rest
           | [] => [String c EmptyString]
           end
  end.




(** In what follows [decode] is [URLDecoder.decode(s, "UTF-8")], [None]
    when it throws on a malformed escape, and [encode] is
    [URLEncoder.encode(s, "UTF-8")]. *)






(** ** Vocabulary for the further properties *)

(** [Priority.swig()], the level the engine orders priorities by. *)
Definition priorityLevel (p : Priority) : Z :=
  match p with
  | IGNORE => 0 | NORMAL => 1 | TWO => 2 | THREE => 3
  | FOUR => 4 | FIVE => 5 | SIX => 6 | SEVEN => 7
  end.

(** The classes from the slowest to the fastest. *)
Definition classRank (c : NetworkClass) : Z :=
  match c with
  | very_slow => 0 | slow => 1 | medium => 2 | fast => 3 | very_fast => 4 | ultra => 5
  end.

(** The file is a video by its name, and the score the picker gives it. *)
Definition isVideoEntry (e : FileEntry) : bool :=
  isLikelyVideoFile (lowercase (entryPath e)).

Definition entryScore (e : FileEntry) : Z :=
  fileScore (entrySize e) (lowercase (entryPath e)).

(** File [i] of the torrent is a video by its name. *)
Definition isVideoAt (info : TorrentInfo) (i : Z) : Prop :=
  exists entry, infoFiles info !! Z.to_nat i = Some entry /\ 0 <= i /\
                isLikelyVideoFile (lowercase (entryPath entry)) = true.

(** The score of file [i], when there is one. *)
Definition scoreAt (info : TorrentInfo) (i : Z) : option Z :=
  entry ← infoFiles info !! Z.to_nat i;
  Some (fileScore (entrySize entry) (lowercase (entryPath entry))).

(** The sizes of the files are those of a torrent. *)
Definition soundFiles (info : TorrentInfo) : Prop :=
  Forall (fun entry => 0 <= entrySize entry <= Long_MAX_VALUE) (infoFiles info).

(** The file of [res] is the one the picker selects for
    [preferredFileIndex], from metadata that lists at least one file (what
    [waitForMetadata] waits for). *)
Definition pickedBy (res : Resolution) (preferredFileIndex : option Z) : Prop :=
  forall info, resTorrentInfo res = Some info ->
    infoFiles info <> [] /\
    resSelectedFileIndex res = selectPlayableFileIndex info preferredFileIndex.

(** The metadata of [res] is that of a torrent: [Int] piece length and
    count, files of non-negative size laid out inside the [Long] range. *)
Definition soundInfo (res : Resolution) : Prop :=
  forall info, resTorrentInfo res = Some info ->
    isInt (infoPieceLength info) /\ isInt (infoNumPieces info) /\
    Forall (fun entry => 0 <= entryOffset entry /\ 0 <= entrySize entry /\
                         entryOffset entry + entrySize entry < Long_MAX_VALUE /\
                         (entryOffset entry + entrySize entry)
                           / Z.max 1 (infoPieceLength info) <= Int_MAX_VALUE)
           (infoFiles info).

(** A torrent of four files: a disc image larger than every video, a
    sample larger than the feature, the feature, and a trailer. *)
Definition bundleInfo : TorrentInfo :=
  {| infoPieceLength := 4194304;
     infoNumPieces := 1598;
     infoFiles :=
       [ {| entryPath := "Pack/bonus.iso"; entrySize := 5000000000; entryOffset := 0 |};
         {| entryPath := "Pack/Sample/sample.mkv"; entrySize := 900000000;
            entryOffset := 5000000000 |};
         {| entryPath := "Pack/Feature.MKV"; entrySize := 700000000;
            entryOffset := 5900000000 |};
         {| entryPath := "Pack/trailer.mp4"; entrySize := 100000000;
            entryOffset := 6600000000 |} ] |}.


(** The pieces of the stream are the ones [prepareStreamInternal] computes
    from its offset, size, piece length and piece count. *)
Definition preparedGeometry (s : ActiveTorrentStream) : Prop :=
  pieceGeometry (fileOffset s) (fileSize s) (pieceLength s) (totalPieces s) =
  Some {| geoPieceLength := pieceLength s; geoTotalPieces := totalPieces s;
          geoFirstPiece := fileStartPiece s; geoLastPiece := fileEndPiece s |}.

(** The file lies inside the pieces of the torrent. *)
Definition insideTorrent (s : ActiveTorrentStream) : Prop :=
  fileOffset s + fileSize s <= pieceLength s * totalPieces s.


(** ** Ranking streams by playback viability (TypeScript) *)

(** [availableMbps] of [computeStreamPlaybackViability]. *)
Definition availableMbps (networkMbps : Double.t) : Double.t :=
  clamp (orDefault networkMbps) MIN_NETWORK_MBPS (Double.Fin 1000).

(** [prefersLowerBitrate] of [rankStreamsByPlaybackViability]. *)
Definition prefersLowerBitrate (networkMbps : Double.t) : bool :=
  match getNetworkClassForMbps networkMbps with
  | very_slow | slow | medium => true
  | _ => false
  end.

(** An item of the list [rankStreamsByPlaybackViability] sorts; its
    numbers are finite. *)
Record RankedItem : Type := {
  itemIndex : Z;
  viabilityScore : Q;
  requiredMbps : Q;
  seeders : option Q;
  quality : Q;
  isCached : bool;
  isTorrent : bool
}.

(** The comparator handed to [sort]. Its result is the number whose sign
    [sort] looks at; the difference of two finite doubles has the sign of
    their exact difference. *)
Definition compareRanked (prefersLower : bool) (a b : RankedItem) : Q :=
  (if negb (Qeq_bool (viabilityScore a) (viabilityScore b))
   then viabilityScore b - viabilityScore a
   else if negb (Bool.eqb (isCached a) (isCached b))
   then (if isCached a then - (1) else 1)
   else
     let aSeeders := default (- (1)) (seeders a) in
     let bSeeders := default (- (1)) (seeders b) in
     if (isTorrent a || isTorrent b) && negb (Qeq_bool aSeeders bSeeders)
     then bSeeders - aSeeders
     else if prefersLower && negb (Qeq_bool (requiredMbps a) (requiredMbps b))
     then requiredMbps a - requiredMbps b
     else if negb prefersLower && negb (Qeq_bool (quality a) (quality b))
     then quality b - quality a
     else if negb prefersLower && negb (Qeq_bool (requiredMbps a) (requiredMbps b))
     then requiredMbps b - requiredMbps a
     else if prefersLower && negb (Qeq_bool (quality a) (quality b))
     then quality b - quality a
     else inject_Z (itemIndex a - itemIndex b)%Z)%Q.

(** Three streams the comparator orders in a circle: a torrent between two
    direct streams that differ in seeders and in bitrate. *)
Definition circleTorrent : RankedItem :=
  {| itemIndex := 0; viabilityScore := 60; requiredMbps := 10; seeders := Some 3%Q;
     quality := 1080; isCached := false; isTorrent := true |}.

Definition circleDirectMany : RankedItem :=
  {| itemIndex := 1; viabilityScore := 60; requiredMbps := 3; seeders := Some 5%Q;
     quality := 2160; isCached := false; isTorrent := false |}.

Definition circleDirectFew : RankedItem :=
  {| itemIndex := 2; viabilityScore := 60; requiredMbps := 2; seeders := Some 1%Q;
     quality := 4320; isCached := false; isTorrent := false |}.

(** * Properties *)

Set Warnings "-clear-no-such-hyp".

(** ** Facts about the string functions *)

Section StringFacts.

Lemma app_nil_l (s : string) : EmptyString +:+ s = s.
Proof. reflexivity. Qed.

Lemma app_cons (c : ascii) (a b : string) : String c a +:+ b = String c (a +:+ b).
Proof. reflexivity. Qed.

Lemma app_assoc' (a b c : string) : (a +:+ b) +:+ c = a +:+ (b +:+ c).
Proof. induction a as [|x a IH]; [reflexivity|]. rewrite !app_cons, IH. reflexivity. Qed.

Lemma length_app' (a b : string) :
  String.length (a +:+ b) = (String.length a + String.length b)%nat.
Proof. induction a as [|x a IH]; [reflexivity|]. rewrite app_cons. simpl. now rewrite IH. Qed.

Lemma allChars_app P (a b : string) :
  allChars P (a +:+ b) = allChars P a && allChars P b.
Proof.
  induction a as [|x a IH]; [reflexivity|].
  rewrite app_cons. simpl. rewrite IH. now rewrite andb_assoc.
Qed.

Lemma allChars_impl (P Q : ascii -> bool) (s : string) :
  (forall c, P c = true -> Q c = true) -> allChars P s = true -> allChars Q s = true.
Proof.
  intros HPQ. induction s as [|c s IH]; [reflexivity|]. simpl.
  intros [Hc Hs]%andb_true_iff. rewrite (HPQ _ Hc). now apply IH.
Qed.

Lemma digitOf_range c d : digitOf c = Some d -> 48 <= Z.of_N (N_of_ascii c) <= 57.
Proof.
  unfold digitOf. destruct (_ && _) eqn:E; [|discriminate].
  apply andb_true_iff in E as [?%Z.leb_le ?%Z.leb_le]. lia.
Qed.

Lemma isDigit_range c : isDigit c = true -> 48 <= Z.of_N (N_of_ascii c) <= 57.
Proof.
  unfold isDigit. destruct (digitOf c) eqn:E; [|discriminate].
  intros _. eapply digitOf_range, E.
Qed.

Lemma isDigit_not_whitespace c : isDigit c = true -> negb (isWhitespace c) = true.
Proof.
  intros H%isDigit_range. unfold isWhitespace.
  apply negb_true_iff, orb_false_iff. split; [apply orb_false_iff; split|].
  - apply andb_false_iff. right. apply Z.leb_gt. lia.
  - apply andb_false_iff. right. apply Z.leb_gt. lia.
  - apply Z.eqb_neq. lia.
Qed.

Lemma isDigit_not_dash c : isDigit c = true -> isNot "-" c = true.
Proof.
  intros H%isDigit_range. unfold isNot. apply negb_true_iff, Ascii.eqb_neq.
  intros ->. vm_compute in H. destruct H as [H _]. now apply H.
Qed.

Lemma digitOf_digitChar d : 0 <= d <= 9 -> digitOf (digitChar d) = Some d.
Proof.
  intros H.
  assert (d = 0 \/ d = 1 \/ d = 2 \/ d = 3 \/ d = 4 \/ d = 5 \/ d = 6 \/ d = 7
          \/ d = 8 \/ d = 9) as Hd by lia.
  repeat (destruct Hd as [-> | Hd]; [reflexivity|]). now subst.
Qed.

Lemma parseDigits_app (a b : string) : forall acc,
  parseDigits (a +:+ b) acc =
  match parseDigits a acc with Some v => parseDigits b v | None => None end.
Proof.
  induction a as [|c a IH]; intros acc; [reflexivity|].
  rewrite app_cons. simpl. destruct (digitOf c); [apply IH | reflexivity].
Qed.

Lemma renderDigits_decimal (fuel : nat) : forall n rest,
  (0 < fuel)%nat -> 0 <= n < 10 ^ Z.of_nat fuel ->
  exists ds, renderDigits fuel n rest = ds +:+ rest /\ isDecimalOf ds n.
Proof.
  induction fuel as [|fuel IH]; intros n rest Hfuel Hn; [lia|].
  assert (Hdig : digitOf (digitChar (n mod 10)) = Some (n mod 10))
    by (apply digitOf_digitChar; pose proof (Z.mod_pos_bound n 10); lia).
  simpl renderDigits. destruct (n / 10 =? 0) eqn:Hq.
  - apply Z.eqb_eq in Hq.
    exists (String (digitChar (n mod 10)) EmptyString). split; [reflexivity|].
    split; [discriminate|]. split.
    + simpl. unfold isDigit. now rewrite Hdig.
    + intros acc. simpl. rewrite Hdig. f_equal.
      pose proof (Z.div_mod n 10). lia.
  - apply Z.eqb_neq in Hq.
    assert (Hlt : n / 10 < 10 ^ Z.of_nat fuel).
    { apply Z.div_lt_upper_bound; [lia|].
      replace (10 * 10 ^ Z.of_nat fuel) with (10 ^ Z.of_nat (S fuel)); [lia|].
      rewrite Nat2Z.inj_succ, Z.pow_succ_r; lia. }
    assert (Hge : 0 <= n / 10) by (apply Z.div_pos; lia).
    assert (Hfuel' : (0 < fuel)%nat).
    { destruct fuel; [simpl in Hlt; lia | lia]. }
    destruct (IH (n / 10) (String (digitChar (n mod 10)) rest) Hfuel'
                (conj Hge Hlt)) as (ds & Heq & Hne & Hall & Hparse).
    exists (ds +:+ String (digitChar (n mod 10)) EmptyString). split.
    { rewrite Heq, app_assoc'. reflexivity. }
    split; [destruct ds; [congruence | discriminate]|]. split.
    + rewrite allChars_app, Hall. simpl. unfold isDigit. now rewrite Hdig.
    + intros acc. rewrite parseDigits_app, Hparse. simpl. rewrite Hdig. f_equal.
      rewrite length_app'. simpl String.length.
      rewrite Nat2Z.inj_add. change (Z.of_nat 1) with 1.
      rewrite Z.pow_add_r by lia. pose proof (Z.div_mod n 10). lia.
Qed.

(** [Long.toString] of a non-negative [Long] is a plain decimal numeral. *)
Lemma Long_toString_decimal n :
  0 <= n <= Long_MAX_VALUE -> isDecimalOf (Long_toString n) n.
Proof.
  intros Hn. unfold Long_toString.
  destruct (n <? 0) eqn:E; [apply Z.ltb_lt in E; lia|].
  destruct (renderDigits_decimal 19 n EmptyString) as (ds & Heq & Hdec).
  - lia.
  - unfold Long_MAX_VALUE in Hn. change (Z.of_nat 19) with 19. lia.
  - rewrite Heq. replace (ds +:+ EmptyString) with ds; [exact Hdec|].
    clear. induction ds as [|c ds IH]; [reflexivity|]. rewrite app_cons. now f_equal.
Qed.

Lemma trimStart_plain s :
  allChars (fun c => negb (isWhitespace c)) s = true -> trimStart s = s.
Proof.
  destruct s as [|c s]; [reflexivity|]. simpl.
  intros [Hc _]%andb_true_iff. apply negb_true_iff in Hc. now rewrite Hc.
Qed.

Lemma trimEnd_plain s :
  allChars (fun c => negb (isWhitespace c)) s = true -> trimEnd s = s.
Proof.
  induction s as [|c s IH]; [reflexivity|]. simpl.
  intros [Hc Hs]%andb_true_iff. apply negb_true_iff in Hc.
  rewrite (IH Hs), Hc. now destruct s.
Qed.

Lemma trim_plain s :
  allChars (fun c => negb (isWhitespace c)) s = true -> trim s = s.
Proof. intros H. unfold trim. rewrite (trimStart_plain _ H). now apply trimEnd_plain. Qed.

Lemma trim_decimal ds n : isDecimalOf ds n -> trim ds = ds.
Proof.
  intros (_ & Hall & _). apply trim_plain.
  eapply allChars_impl; [|exact Hall]. apply isDigit_not_whitespace.
Qed.

Lemma isBlank_decimal ds n : isDecimalOf ds n -> isBlank ds = false.
Proof.
  intros (Hne & Hall & _). destruct ds as [|c ds]; [congruence|].
  simpl in *. apply andb_true_iff in Hall as [Hc _].
  apply isDigit_not_whitespace, negb_true_iff in Hc. now rewrite Hc.
Qed.

Lemma toLongOrNull_decimal ds n :
  isDecimalOf ds n -> n <= Long_MAX_VALUE -> toLongOrNull ds = Some n.
Proof.
  intros (Hne & Hall & Hparse) Hn. destruct ds as [|c ds]; [congruence|].
  unfold toLongOrNull.
  assert (Hc : 48 <= Z.of_N (N_of_ascii c) <= 57).
  { simpl in Hall. apply andb_true_iff in Hall as [Hc _]. now apply isDigit_range. }
  destruct (Z.of_N (N_of_ascii c) <? 48) eqn:E; [apply Z.ltb_lt in E; lia|].
  rewrite Hparse. replace (0 * _ + n) with n by lia.
  destruct (n <=? Long_MAX_VALUE) eqn:E'; [reflexivity | apply Z.leb_gt in E'; lia].
Qed.

(** A numeral too large for a [Long] does not parse. *)
Lemma toLongOrNull_overflow ds n :
  isDecimalOf ds n -> Long_MAX_VALUE < n -> toLongOrNull ds = None.
Proof.
  intros (Hne & Hall & Hparse) Hn. destruct ds as [|c ds]; [congruence|].
  unfold toLongOrNull.
  assert (Hc : 48 <= Z.of_N (N_of_ascii c) <= 57).
  { simpl in Hall. apply andb_true_iff in Hall as [Hc _]. now apply isDigit_range. }
  destruct (Z.of_N (N_of_ascii c) <? 48) eqn:E; [apply Z.ltb_lt in E; lia|].
  rewrite Hparse. replace (0 * _ + n) with n by lia.
  destruct (n <=? Long_MAX_VALUE) eqn:E'; [apply Z.leb_le in E'; lia | reflexivity].
Qed.

Lemma cutAtFirst_app d (a b : string) :
  allChars (isNot d) a = true -> cutAtFirst d (a +:+ String d b) = Some (a, b).
Proof.
  induction a as [|c a IH]; intros Hall.
  - rewrite app_nil_l. simpl. now rewrite Ascii.eqb_refl.
  - rewrite app_cons. simpl in *. apply andb_true_iff in Hall as [Hc Ha].
    unfold isNot in Hc. apply negb_true_iff in Hc. now rewrite Hc, (IH Ha).
Qed.

Lemma cutAtFirst_absent d (s : string) :
  allChars (isNot d) s = true -> cutAtFirst d s = None.
Proof.
  induction s as [|c s IH]; [reflexivity|]. simpl.
  intros [Hc Hs]%andb_true_iff. unfold isNot in Hc. apply negb_true_iff in Hc.
  now rewrite Hc, (IH Hs).
Qed.

Lemma wrap_small bits z :
  0 < bits -> - 2 ^ (bits - 1) <= z < 2 ^ (bits - 1) -> wrap bits z = z.
Proof.
  intros Hb Hz. unfold wrap.
  assert (2 ^ bits = 2 * 2 ^ (bits - 1)).
  { replace bits with (Z.succ (bits - 1)) at 1 by lia. apply Z.pow_succ_r. lia. }
  rewrite Z.mod_small; lia.
Qed.

Lemma toLong_small z : isLong z -> toLong z = z.
Proof.
  unfold isLong, Long_MIN_VALUE, Long_MAX_VALUE, toLong. intros H.
  apply wrap_small; [lia|]. change (64 - 1) with 63. lia.
Qed.

Lemma toInt_small z : isInt z -> toInt z = z.
Proof.
  unfold isInt, Int_MIN_VALUE, Int_MAX_VALUE, toInt. intros H.
  apply wrap_small; [lia|]. change (32 - 1) with 31. lia.
Qed.

End StringFacts.

(** ** Range parsing, on examples *)

Example parse_closed : parseRangeHeader (Some "bytes=10-19") 100 = Some (10, 19).
Proof. reflexivity. Qed.
Example parse_open : parseRangeHeader (Some "bytes=10-") 100 = Some (10, 99).
Proof. reflexivity. Qed.
Example parse_suffix : parseRangeHeader (Some "bytes=-30") 100 = Some (70, 99).
Proof. reflexivity. Qed.
Example parse_past_eof : parseRangeHeader (Some "bytes=100-200") 100 = None.
Proof. reflexivity. Qed.
Example render_12 : Long_toString 1203 = "1203".
Proof. reflexivity. Qed.

(** ** The playback server *)

Lemma parseRangeHeader_closed (a b : string) (first last fileSize : Z) :
  isDecimalOf a first -> isDecimalOf b last -> 0 < fileSize ->
  parseRangeHeader (Some ("bytes=" +:+ a +:+ "-" +:+ b)) fileSize =
  match toLongOrNull a, toLongOrNull b with
  | Some start, Some end_ => rangeWithin fileSize start end_
  | _, _ => None
  end.
Proof.
  intros Ha Hb Hsize.
  assert (Hplain : allChars (fun c => negb (isWhitespace c)) (a +:+ "-" +:+ b) = true).
  { rewrite !allChars_app.
    destruct Ha as (_ & Ha & _), Hb as (_ & Hb & _).
    rewrite (allChars_impl _ _ _ isDigit_not_whitespace Ha).
    rewrite (allChars_impl _ _ _ isDigit_not_whitespace Hb). reflexivity. }
  unfold parseRangeHeader.
  change (isBlank ("bytes=" +:+ a +:+ "-" +:+ b)) with false.
  change (startsWith ("bytes=" +:+ a +:+ "-" +:+ b) "bytes=") with true.
  change (removePrefix ("bytes=" +:+ a +:+ "-" +:+ b) "bytes=") with (a +:+ "-" +:+ b).
  destruct (fileSize <=? 0) eqn:E; [apply Z.leb_le in E; lia|]. simpl orb. cbv iota.
  rewrite (trim_plain _ Hplain). unfold split2.
  change (a +:+ "-" +:+ b) with (a +:+ String "-" b).
  rewrite cutAtFirst_app
    by (destruct Ha as (_ & Ha & _); exact (allChars_impl _ _ _ isDigit_not_dash Ha)).
  rewrite (trim_decimal _ _ Ha), (trim_decimal _ _ Hb).
  rewrite (isBlank_decimal _ _ Ha), (isBlank_decimal _ _ Hb).
  destruct (toLongOrNull a), (toLongOrNull b); reflexivity.
Qed.

Lemma rangeWithin_inside (fileSize start end_ : Z) :
  isLong fileSize -> 0 <= start <= end_ -> start < fileSize ->
  rangeWithin fileSize start end_ = Some (start, Z.min end_ (fileSize - 1)).
Proof.
  intros Hlong Hse Hsf. unfold rangeWithin.
  destruct (start <? 0) eqn:E1; [apply Z.ltb_lt in E1; lia|].
  destruct (fileSize <=? start) eqn:E2; [apply Z.leb_le in E2; lia|].
  destruct (end_ <? start) eqn:E3; [apply Z.ltb_lt in E3; lia|]. simpl.
  rewrite toLong_small; [reflexivity|].
  unfold isLong, Long_MIN_VALUE, Long_MAX_VALUE in *. lia.
Qed.

(** What [parseRangeHeader] returns always lies inside the file. *)
Lemma rangeWithin_sound (fileSize start end_ first last : Z) :
  isLong fileSize ->
  rangeWithin fileSize start end_ = Some (first, last) ->
  0 <= first <= last /\ last < fileSize.
Proof.
  intros Hlong. unfold rangeWithin.
  destruct (start <? 0) eqn:E1; [discriminate|].
  destruct (fileSize <=? start) eqn:E2; [discriminate|].
  destruct (end_ <? start) eqn:E3; [discriminate|]. simpl.
  apply Z.ltb_ge in E1, E3. apply Z.leb_gt in E2.
  rewrite toLong_small
    by (unfold isLong, Long_MIN_VALUE, Long_MAX_VALUE in *; lia).
  intros [= <- <-]. lia.
Qed.

Lemma parseRangeHeader_sound (rangeHeader : option string) (fileSize first last : Z) :
  isLong fileSize ->
  parseRangeHeader rangeHeader fileSize = Some (first, last) ->
  0 <= first <= last /\ last < fileSize.
Proof.
  intros Hlong. unfold parseRangeHeader.
  destruct rangeHeader as [header|]; [|discriminate].
  destruct (_ || _); [discriminate|].
  destruct (split2 _ _) as [|part0 [|part1 [|? ?]]]; try discriminate.
  destruct (isBlank (trim part0)).
  - destruct (toLongOrNull _); [|discriminate].
    destruct (_ <=? 0); [discriminate|]. now apply rangeWithin_sound.
  - destruct (isBlank (trim part1)).
    + destruct (toLongOrNull _); [|discriminate]. now apply rangeWithin_sound.
    + destruct (toLongOrNull _); [|discriminate].
      destruct (toLongOrNull _); [|discriminate]. now apply rangeWithin_sound.
Qed.

(** The answer to a GET whose Range header parses to [(first, last)]. *)
Lemma serve_parsed (streams : gmap string ActiveTorrentStream) (sid : string)
    (stream : ActiveTorrentStream) (hs : gmap string string) (first last : Z) :
  streams !! sid = Some stream ->
  substringBefore sid "/" = sid ->
  isLong (fileSize stream) ->
  parseRangeHeader (hs !! "range") (fileSize stream) = Some (first, last) ->
  serve streams {| method := GET; uri := "/torrent/" +:+ sid; headers := hs |} =
  {| status := PARTIAL_CONTENT;
     mimeType := guessMimeType (fileName stream);
     body := StreamBody stream first (last - first + 1);
     responseHeaders :=
       <["Content-Range" := "bytes " +:+ Long_toString first +:+ "-" +:+
                            Long_toString last +:+ "/" +:+
                            Long_toString (fileSize stream)]>
       (<["Connection" := "keep-alive"]>
        (<["Content-Length" := Long_toString (last - first + 1)]>
         (<["Accept-Ranges" := "bytes"]> ∅))) |}.
Proof.
  intros Hreg Hsid Hlong Hparse.
  destruct (parseRangeHeader_sound _ _ _ _ Hlong Hparse) as [Hfl Hlast].
  unfold serve. cbn [uri method headers].
  change (startsWith ("/torrent/" +:+ sid) "/torrent/") with true. cbn [negb].
  unfold serveTorrentRequest. cbn [uri method headers isGetOrHead isHead negb].
  change (removePrefix ("/torrent/" +:+ sid) "/torrent/") with sid.
  rewrite Hsid, Hreg, Hparse.
  destruct (first <? 0) eqn:E1; [apply Z.ltb_lt in E1; lia|].
  destruct (last <? first) eqn:E2; [apply Z.ltb_lt in E2; lia|].
  destruct (fileSize stream <=? first) eqn:E3; [apply Z.leb_le in E3; lia|].
  cbn [orb].
  assert (Hlen : toLong (toLong (last - first) + 1) = last - first + 1).
  { unfold isLong, Long_MIN_VALUE, Long_MAX_VALUE in Hlong.
    rewrite (toLong_small (last - first))
      by (unfold isLong, Long_MIN_VALUE, Long_MAX_VALUE; lia).
    apply toLong_small. unfold isLong, Long_MIN_VALUE, Long_MAX_VALUE. lia. }
  rewrite Hlen. reflexivity.
Qed.

(** The answer to a GET whose Range header does not parse, on a file that
    is not empty: the whole file, as if no range had been asked for. *)
Lemma serve_unparsed (streams : gmap string ActiveTorrentStream) (sid : string)
    (stream : ActiveTorrentStream) (hs : gmap string string) :
  streams !! sid = Some stream ->
  substringBefore sid "/" = sid ->
  isLong (fileSize stream) -> 0 < fileSize stream ->
  parseRangeHeader (hs !! "range") (fileSize stream) = None ->
  serve streams {| method := GET; uri := "/torrent/" +:+ sid; headers := hs |} =
  {| status := OK;
     mimeType := guessMimeType (fileName stream);
     body := StreamBody stream 0 (fileSize stream);
     responseHeaders :=
       <["Connection" := "keep-alive"]>
        (<["Content-Length" := Long_toString (fileSize stream)]>
         (<["Accept-Ranges" := "bytes"]> ∅)) |}.
Proof.
  intros Hreg Hsid Hlong Hpos Hparse.
  unfold serve. cbn [uri method headers].
  change (startsWith ("/torrent/" +:+ sid) "/torrent/") with true. cbn [negb].
  unfold serveTorrentRequest. cbn [uri method headers isGetOrHead isHead negb].
  change (removePrefix ("/torrent/" +:+ sid) "/torrent/") with sid.
  rewrite Hsid, Hreg, Hparse.
  assert (Hlast : toLong (fileSize stream - 1) = fileSize stream - 1).
  { apply toLong_small. unfold isLong, Long_MIN_VALUE, Long_MAX_VALUE in *. lia. }
  rewrite Hlast.
  change (0 <? 0) with false.
  destruct (fileSize stream - 1 <? 0) eqn:E2; [apply Z.ltb_lt in E2; lia|].
  destruct (fileSize stream <=? 0) eqn:E3; [apply Z.leb_le in E3; lia|].
  cbn [orb].
  assert (Hlen : toLong (toLong (fileSize stream - 1 - 0) + 1) = fileSize stream).
  { replace (fileSize stream - 1 - 0) with (fileSize stream - 1) by lia.
    rewrite Hlast. replace (fileSize stream - 1 + 1) with (fileSize stream) by lia.
    now apply toLong_small. }
  rewrite Hlen. reflexivity.
Qed.

(** On a file that is not empty no GET is ever answered 416: a range that
    [parseRangeHeader] turns down is treated as no range at all. *)
Lemma get_never_unsatisfiable (streams : gmap string ActiveTorrentStream) (sid : string)
    (stream : ActiveTorrentStream) (hs : gmap string string) :
  streams !! sid = Some stream ->
  substringBefore sid "/" = sid ->
  isLong (fileSize stream) -> 0 < fileSize stream ->
  requestStatus
    (status (serve streams {| method := GET; uri := "/torrent/" +:+ sid; headers := hs |}))
  <> 416.
Proof.
  intros Hreg Hsid Hlong Hpos.
  destruct (parseRangeHeader (hs !! "range") (fileSize stream)) as [[first last]|] eqn:E.
  - rewrite (serve_parsed _ _ _ _ _ _ Hreg Hsid Hlong E). discriminate.
  - rewrite (serve_unparsed _ _ _ _ Hreg Hsid Hlong Hpos E). discriminate.
Qed.

(** C2 (the code departs from it). A Range request that starts at the end
    of the file, and one whose end lies before its start, are both answered
    200 with the whole file and no [Content-Range] header, where the
    property asks for 416 with [Content-Range: bytes */100]. *)
Theorem unsatisfiable_range_answered_whole :
  let past := serve smallRegistry (rangeRequest (streamId smallStream) "100" "200" ∅) in
  let inverted := serve smallRegistry (rangeRequest (streamId smallStream) "10" "5" ∅) in
  fileSize smallStream = 100 /\
  (requestStatus (status past) = 200 /\
   responseHeaders past !! "Content-Range" = None /\
   body past = StreamBody smallStream 0 100) /\
  (requestStatus (status inverted) = 200 /\
   responseHeaders inverted !! "Content-Range" = None /\
   body inverted = StreamBody smallStream 0 100).
Proof.
  assert (Hreg : smallRegistry !! streamId smallStream = Some smallStream)
    by apply lookup_singleton_eq.
  assert (Hlong : isLong (fileSize smallStream))
    by (unfold isLong; vm_compute; split; discriminate).
  cbv zeta. split; [reflexivity|]. unfold rangeRequest. split.
  - rewrite (serve_unparsed _ _ _ _ Hreg eq_refl Hlong);
      [| reflexivity | rewrite lookup_insert_eq; reflexivity].
    cbn [status responseHeaders body requestStatus].
    split; [reflexivity|]. split; [|reflexivity].
    rewrite !lookup_insert_ne by discriminate. apply lookup_empty.
  - rewrite (serve_unparsed _ _ _ _ Hreg eq_refl Hlong);
      [| reflexivity | rewrite lookup_insert_eq; reflexivity].
    cbn [status responseHeaders body requestStatus].
    split; [reflexivity|]. split; [|reflexivity].
    rewrite !lookup_insert_ne by discriminate. apply lookup_empty.
Qed.

(** The only 416 of the server: a registered file of no bytes. *)
Example empty_file_unsatisfiable :
  let empty := streamOver (handleMissing []) 0 0 0 0 (-1) in
  let r := serveTorrentRequest {[ streamId empty := empty ]}
             {| method := GET; uri := "/torrent/" +:+ streamId empty; headers := ∅ |} in
  requestStatus (status r) = 416 /\
  responseHeaders r !! "Content-Range" = Some "bytes */0".
Proof.
  cbv zeta. unfold serveTorrentRequest. cbn [method uri headers isGetOrHead negb].
  change (substringBefore (removePrefix _ "/torrent/") "/")
    with (streamId (streamOver (handleMissing []) 0 0 0 0 (-1))).
  rewrite lookup_singleton_eq. rewrite lookup_empty.
  split; [reflexivity|]. cbn. apply lookup_insert_eq.
Qed.

(** C9, as stated, fails: the end [2^63] of [bytes=0-9223372036854775808]
    lies past the end of a file of 100 bytes, and the answer is a plain 200
    for the whole file, not a 206. *)
Lemma overlong_end_not_parsed :
  let r := serve smallRegistry
             (rangeRequest (streamId smallStream) "0" "9223372036854775808" ∅) in
  0 <= 0 < fileSize smallStream /\ fileSize smallStream <= 2 ^ 63 /\
  toLongOrNull "9223372036854775808" = None /\
  requestStatus (status r) = 200 /\
  requestStatus (status r) <> 206 /\
  responseHeaders r !! "Content-Range" = None.
Proof.
  assert (Hreg : smallRegistry !! streamId smallStream = Some smallStream)
    by apply lookup_singleton_eq.
  assert (Hlong : isLong (fileSize smallStream))
    by (unfold isLong; vm_compute; split; discriminate).
  cbv zeta. split; [split; [lia | reflexivity]|]. split; [vm_compute; discriminate|].
  split; [reflexivity|]. unfold rangeRequest.
  rewrite (serve_unparsed _ _ _ _ Hreg eq_refl Hlong);
    [| reflexivity | rewrite lookup_insert_eq; reflexivity].
  cbn [status responseHeaders requestStatus].
  split; [reflexivity|]. split; [discriminate|].
  rewrite !lookup_insert_ne by discriminate. apply lookup_empty.
Qed.

(** C9, amended. For a Range request [start-end] with
    [0 <= start < fileSize <= end]: when [end] fits a [Long] the parsed end
    is clamped to [fileSize - 1] and the answer is 206 for the bytes
    [start .. fileSize - 1]; when it does not, the header is not parsed and
    the answer is 200 with the whole file. *)
Theorem overlong_range_end_clamped
    (streams : gmap string ActiveTorrentStream) (sid : string)
    (stream : ActiveTorrentStream) (others : gmap string string)
    (endText : string) (start end_ : Z) :
  streams !! sid = Some stream ->
  substringBefore sid "/" = sid ->
  isLong (fileSize stream) ->
  isDecimalOf endText end_ ->
  0 <= start < fileSize stream -> fileSize stream <= end_ ->
  let r := serve streams (rangeRequest sid (Long_toString start) endText others) in
  (end_ <= Long_MAX_VALUE ->
   parseRangeHeader (headers (rangeRequest sid (Long_toString start) endText others)
                       !! "range") (fileSize stream)
     = Some (start, fileSize stream - 1) /\
   requestStatus (status r) = 206 /\
   responseHeaders r !! "Content-Range" =
     Some ("bytes " +:+ Long_toString start +:+ "-" +:+
           Long_toString (fileSize stream - 1) +:+ "/" +:+
           Long_toString (fileSize stream)) /\
   body r = StreamBody stream start (fileSize stream - start)) /\
  (Long_MAX_VALUE < end_ ->
   requestStatus (status r) = 200 /\
   responseHeaders r !! "Content-Range" = None /\
   body r = StreamBody stream 0 (fileSize stream)).
Proof.
  intros Hreg Hsid Hlong Hde Hsf Hfe r. subst r. unfold rangeRequest. cbn [headers].
  assert (Hds : isDecimalOf (Long_toString start) start)
    by (apply Long_toString_decimal; unfold isLong, Long_MAX_VALUE in *; lia).
  assert (Hstart : toLongOrNull (Long_toString start) = Some start)
    by (apply (toLongOrNull_decimal _ _ Hds); unfold isLong in Hlong; lia).
  rewrite lookup_insert_eq.
  rewrite (parseRangeHeader_closed _ _ start end_) by (assumption || lia).
  rewrite Hstart. split; intros Hend.
  - assert (Hparse : match toLongOrNull endText with
                     | Some end_0 => rangeWithin (fileSize stream) start end_0
                     | None => None
                     end = Some (start, fileSize stream - 1)).
    { rewrite (toLongOrNull_decimal _ _ Hde Hend).
      rewrite rangeWithin_inside by (assumption || lia). f_equal. f_equal. lia. }
    split; [exact Hparse|].
    rewrite (serve_parsed streams sid stream _ start (fileSize stream - 1) Hreg Hsid Hlong).
    + cbn [status responseHeaders body requestStatus].
      split; [reflexivity|]. split; [apply lookup_insert_eq|].
      f_equal. lia.
    + rewrite lookup_insert_eq.
      rewrite (parseRangeHeader_closed _ _ start end_) by (assumption || lia).
      rewrite Hstart. exact Hparse.
  - rewrite (serve_unparsed streams sid stream _ Hreg Hsid Hlong).
    + cbn [status responseHeaders body requestStatus].
      split; [reflexivity|]. split; [|reflexivity].
      rewrite !lookup_insert_ne by discriminate. apply lookup_empty.
    + lia.
    + rewrite lookup_insert_eq.
      rewrite (parseRangeHeader_closed _ _ start end_) by (assumption || lia).
      rewrite Hstart, (toLongOrNull_overflow _ _ Hde Hend). reflexivity.
Qed.

Lemma overlong_range_end_clamped_witness :
  0 <= 10 < fileSize smallStream /\ fileSize smallStream <= 150 /\
  let r := serve smallRegistry
             (rangeRequest (streamId smallStream) (Long_toString 10) (Long_toString 150) ∅) in
  requestStatus (status r) = 206 /\
  responseHeaders r !! "Content-Range" = Some "bytes 10-99/100" /\
  body r = StreamBody smallStream 10 90.
Proof.
  assert (Hreg : smallRegistry !! streamId smallStream = Some smallStream)
    by apply lookup_singleton_eq.
  assert (Hlong : isLong (fileSize smallStream))
    by (unfold isLong; vm_compute; split; discriminate).
  assert (Hdec : isDecimalOf (Long_toString 150) 150)
    by (apply Long_toString_decimal; unfold Long_MAX_VALUE; lia).
  assert (Hin : 0 <= 10 < fileSize smallStream) by (split; [lia | reflexivity]).
  assert (Hpast : fileSize smallStream <= 150) by (vm_compute; discriminate).
  split; [exact Hin|]. split; [exact Hpast|].
  destruct (overlong_range_end_clamped smallRegistry (streamId smallStream)
              smallStream ∅ (Long_toString 150) 10 150 Hreg eq_refl Hlong Hdec Hin Hpast)
    as [Hfits _].
  destruct Hfits as (_ & H1 & H2 & H3); [unfold Long_MAX_VALUE; lia|].
  cbv zeta. split; [exact H1|]. split; [exact H2 | exact H3].
Defined.

(** ** Network class and tuning *)

Ltac q_case :=
  match goal with
  | |- context [Qle_bool ?a ?b] =>
      let E := fresh "E" in
      destruct (Qle_bool a b) eqn:E;
      [apply Qle_bool_iff in E
      | assert (~ (a <= b)%Q) by (rewrite <- Qle_bool_iff, E; discriminate); clear E]
  | |- context [Qeq_bool ?a ?b] =>
      let E := fresh "E" in
      destruct (Qeq_bool a b) eqn:E;
      [apply Qeq_bool_iff in E | apply Qeq_bool_neq in E]
  end.

Ltac q_solve :=
  cbn; repeat (q_case; cbn; try (exfalso; lra)); try reflexivity.

Lemma class_of_default : getNetworkClassForMbps DEFAULT_NETWORK_MBPS = medium.
Proof. reflexivity. Qed.

Lemma class_of_positive (q : Q) :
  (0 < q)%Q ->
  ((q <= 3 # 2)%Q -> getNetworkClassForMbps (Double.Fin q) = very_slow) /\
  ((3 # 2 < q)%Q -> (q <= 5)%Q -> getNetworkClassForMbps (Double.Fin q) = slow) /\
  ((5 < q)%Q -> (q <= 20)%Q -> getNetworkClassForMbps (Double.Fin q) = medium) /\
  ((20 < q)%Q -> (q <= 80)%Q -> getNetworkClassForMbps (Double.Fin q) = fast) /\
  ((80 < q)%Q -> (q <= 250)%Q -> getNetworkClassForMbps (Double.Fin q) = very_fast) /\
  ((250 < q)%Q -> getNetworkClassForMbps (Double.Fin q) = ultra).
Proof.
  intros Hpos.
  unfold getNetworkClassForMbps, clamp, orDefault, MIN_NETWORK_MBPS, DEFAULT_NETWORK_MBPS.
  repeat split; intros; q_solve.
Qed.

Lemma class_of_negative (q : Q) :
  (q < 0)%Q -> getNetworkClassForMbps (Double.Fin q) = very_slow.
Proof.
  intros Hneg.
  unfold getNetworkClassForMbps, clamp, orDefault, MIN_NETWORK_MBPS, DEFAULT_NETWORK_MBPS.
  q_solve.
Qed.

Lemma class_of_falsy (x : Double.t) :
  Double.truthy x = false -> getNetworkClassForMbps x = medium.
Proof.
  intros H. unfold getNetworkClassForMbps, orDefault. rewrite H. reflexivity.
Qed.

Lemma tuning_of_positive (q : Q) :
  (0 < q)%Q ->
  deriveStreamingTuning (Some (Double.Fin q)) = profileOf (getNetworkClassForMbps (Double.Fin q)).
Proof.
  intros Hpos.
  unfold deriveStreamingTuning, getNetworkClassForMbps, clamp, orDefault,
    MIN_NETWORK_MBPS, DEFAULT_NETWORK_MBPS.
  q_solve.
Qed.

Lemma tuning_default (d : option Double.t) :
  match d with
  | None => True
  | Some x => Double.isFinite x = false \/ Double.gtb x (Double.Fin 0) = false
  end ->
  deriveStreamingTuning d = profileOf medium.
Proof.
  unfold deriveStreamingTuning. destruct d as [x|]; [|reflexivity].
  intros [H | H]; rewrite H; [reflexivity|].
  rewrite andb_false_r. reflexivity.
Qed.

Lemma clamp_below_minimum (q : Q) :
  (q < 3602879701896397 # 36028797018963968)%Q ->
  clamp (Double.Fin q) MIN_NETWORK_MBPS (Double.Fin 1000) = MIN_NETWORK_MBPS.
Proof.
  intros Hq. unfold clamp, MIN_NETWORK_MBPS. q_solve.
Qed.

(** C4, as stated, fails on a negative estimate: [getNetworkClassForMbps]
    does not replace it by the 20 Mbps default (class [medium]) but clamps
    it to the minimum, which is class [very_slow]; the Android tuning, which
    does default it, thereby picks another profile than that class has. *)
Lemma negative_estimate_not_defaulted :
  (-1 <= 0)%Q /\
  getNetworkClassForMbps (Double.Fin (-1)) = very_slow /\
  getNetworkClassForMbps DEFAULT_NETWORK_MBPS = medium /\
  getNetworkClassForMbps (Double.Fin (-1)) <> getNetworkClassForMbps DEFAULT_NETWORK_MBPS /\
  deriveStreamingTuning (Some (Double.Fin (-1))) <>
    profileOf (getNetworkClassForMbps (Double.Fin (-1))).
Proof.
  split; [discriminate|]. split; [reflexivity|]. split; [reflexivity|].
  split; discriminate.
Qed.

(** C4, amended. [getNetworkClassForMbps] is a total step function of the
    estimate: a zero or [NaN] estimate is replaced by the 20 Mbps default;
    every other estimate is clamped to [0.1, 1000] before classification,
    so a negative one falls in the lowest band; the bands [<= 1.5], [<= 5],
    [<= 20], [<= 80], [<= 250] and above map to [very_slow] ... [ultra].
    The Android [deriveStreamingTuning] picks the profile of the same band
    for a positive finite estimate, and the 20 Mbps profile for [null], a
    non-finite and a non-positive one. *)
Theorem network_class_step_function :
  (forall x, Double.truthy x = false ->
     getNetworkClassForMbps x = getNetworkClassForMbps DEFAULT_NETWORK_MBPS) /\
  (forall q, (q < 3602879701896397 # 36028797018963968)%Q ->
     clamp (Double.Fin q) MIN_NETWORK_MBPS (Double.Fin 1000) = MIN_NETWORK_MBPS) /\
  (forall q, (q < 0)%Q -> getNetworkClassForMbps (Double.Fin q) = very_slow) /\
  getNetworkClassForMbps Double.NegInf = very_slow /\
  (forall q, (0 < q)%Q ->
     ((q <= 3 # 2)%Q -> getNetworkClassForMbps (Double.Fin q) = very_slow) /\
     ((3 # 2 < q)%Q -> (q <= 5)%Q -> getNetworkClassForMbps (Double.Fin q) = slow) /\
     ((5 < q)%Q -> (q <= 20)%Q -> getNetworkClassForMbps (Double.Fin q) = medium) /\
     ((20 < q)%Q -> (q <= 80)%Q -> getNetworkClassForMbps (Double.Fin q) = fast) /\
     ((80 < q)%Q -> (q <= 250)%Q -> getNetworkClassForMbps (Double.Fin q) = very_fast) /\
     ((250 < q)%Q -> getNetworkClassForMbps (Double.Fin q) = ultra)) /\
  getNetworkClassForMbps Double.PosInf = ultra /\
  (getNetworkClassForMbps (Double.Fin 1) = very_slow /\
   getNetworkClassForMbps (Double.Fin 5) = slow /\
   getNetworkClassForMbps (Double.Fin 20) = medium /\
   getNetworkClassForMbps (Double.Fin 1000) = ultra) /\
  (forall q, (0 < q)%Q ->
     deriveStreamingTuning (Some (Double.Fin q)) =
     profileOf (getNetworkClassForMbps (Double.Fin q))) /\
  (forall d,
     match d with
     | None => True
     | Some x => Double.isFinite x = false \/ Double.gtb x (Double.Fin 0) = false
     end ->
     deriveStreamingTuning d = deriveStreamingTuning (Some (Double.Fin 20))).
Proof.
  split; [intros x H; now rewrite (class_of_falsy x H)|].
  split; [exact clamp_below_minimum|].
  split; [exact class_of_negative|].
  split; [reflexivity|].
  split; [exact class_of_positive|].
  split; [reflexivity|].
  split; [repeat split; reflexivity|].
  split; [exact tuning_of_positive|].
  intros d Hd. now rewrite (tuning_default d Hd).
Qed.

Lemma network_class_step_function_witness :
  getNetworkClassForMbps (Double.Fin 0) = medium /\
  getNetworkClassForMbps (Double.Fin (-3)) = very_slow /\
  getNetworkClassForMbps (Double.Fin (5 # 2)) = slow /\
  deriveStreamingTuning (Some (Double.Fin (-3))) = profileOf medium.
Proof.
  destruct network_class_step_function
    as (Hfalsy & _ & Hneg & _ & Hpos & _ & _ & _ & Hdef).
  split; [exact (Hfalsy (Double.Fin 0) eq_refl)|].
  split; [apply Hneg; reflexivity|].
  split.
  - destruct (Hpos (5 # 2)%Q eq_refl) as (_ & Hslow & _).
    apply Hslow; [reflexivity | discriminate].
  - apply (Hdef (Some (Double.Fin (-3)))). right. reflexivity.
Defined.

(** ** Piece geometry *)

Lemma coerceIn_clampTo (v lo hi : Z) :
  lo <= hi -> coerceIn v lo hi = Some (clampTo lo hi v).
Proof.
  intros H. unfold coerceIn, clampTo.
  destruct (hi <? lo) eqn:E1; [apply Z.ltb_lt in E1; lia|].
  destruct (v <? lo) eqn:E2; [apply Z.ltb_lt in E2; f_equal; lia|].
  destruct (hi <? v) eqn:E3; [apply Z.ltb_lt in E3; f_equal; lia|].
  apply Z.ltb_ge in E2, E3. f_equal. lia.
Qed.

Lemma clampTo_bounds (v lo hi : Z) : lo <= hi -> lo <= clampTo lo hi v <= hi.
Proof. unfold clampTo. lia. Qed.

(** Under the bounds a torrent's metadata obeys, [pieceGeometry] does not
    throw and computes the clamped floors. *)
Lemma pieceGeometry_value (off size pl n : Z) :
  isInt pl -> isInt n -> 0 <= off -> 0 <= size -> off + size < Long_MAX_VALUE ->
  (off + size) / Z.max 1 pl <= Int_MAX_VALUE ->
  let first := clampTo 0 (Z.max 1 n - 1) (off / Z.max 1 pl) in
  pieceGeometry off size pl n =
  Some {| geoPieceLength := Z.max 1 pl;
          geoTotalPieces := Z.max 1 n;
          geoFirstPiece := first;
          geoLastPiece :=
            clampTo first (Z.max 1 n - 1) ((off + Z.max 1 size - 1) / Z.max 1 pl) |}.
Proof.
  intros Hpl Hn Hoff Hsize Hsum Hquot first.
  unfold isInt, Int_MIN_VALUE, Int_MAX_VALUE, Long_MAX_VALUE in *.
  set (PL := Z.max 1 pl) in *. set (T := Z.max 1 n) in *.
  assert (HPL : 1 <= PL) by (unfold PL; lia).
  assert (HT : 1 <= T <= 2 ^ 31 - 1) by (unfold T; lia).
  assert (Hq1 : 0 <= off / PL <= (off + size) / PL).
  { split; [apply Z.div_pos; lia | apply Z.div_le_mono; lia]. }
  assert (Hq2 : 0 <= (off + Z.max 1 size - 1) / PL <= (off + size) / PL).
  { split; [apply Z.div_pos; lia | apply Z.div_le_mono; lia]. }
  unfold pieceGeometry. fold PL T.
  rewrite (toInt_small (T - 1)) by (unfold isInt, Int_MIN_VALUE, Int_MAX_VALUE; lia).
  rewrite (Z.quot_div_nonneg off PL) by lia.
  rewrite (toLong_small (off / PL))
    by (unfold isLong, Long_MIN_VALUE, Long_MAX_VALUE; lia).
  rewrite (toInt_small (off / PL)) by (unfold isInt, Int_MIN_VALUE, Int_MAX_VALUE; lia).
  rewrite coerceIn_clampTo by lia. cbn [mbind option_bind]. fold first.
  rewrite (toLong_small (off + Z.max 1 size))
    by (unfold isLong, Long_MIN_VALUE, Long_MAX_VALUE; lia).
  rewrite (toLong_small (off + Z.max 1 size - 1))
    by (unfold isLong, Long_MIN_VALUE, Long_MAX_VALUE; lia).
  rewrite (Z.quot_div_nonneg (off + Z.max 1 size - 1) PL) by lia.
  rewrite (toLong_small ((off + Z.max 1 size - 1) / PL))
    by (unfold isLong, Long_MIN_VALUE, Long_MAX_VALUE; lia).
  rewrite (toInt_small ((off + Z.max 1 size - 1) / PL))
    by (unfold isInt, Int_MIN_VALUE, Int_MAX_VALUE; lia).
  pose proof (clampTo_bounds (off / PL) 0 (T - 1)).
  rewrite coerceIn_clampTo by (unfold first; lia). reflexivity.
Qed.

(** The stream [prepareResolve] builds takes its geometry from
    [pieceGeometry] on the selected file. *)
Lemma prepareResolve_geometry (res : Resolution) (mbps : option Double.t)
    (st st' : ModuleState) (stream : ActiveTorrentStream) :
  prepareResolve res mbps st = (st', inr stream) ->
  exists info geo,
    resTorrentInfo res = Some info /\
    pieceGeometry (fileOffset stream) (fileSize stream)
      (infoPieceLength info) (infoNumPieces info) = Some geo /\
    pieceLength stream = geoPieceLength geo /\
    totalPieces stream = geoTotalPieces geo /\
    fileStartPiece stream = geoFirstPiece geo /\
    fileEndPiece stream = geoLastPiece geo /\
    nextPrefetchPiece stream = geoFirstPiece geo /\
    lastBoostedPiece stream = -1.
Proof.
  unfold prepareResolve. cbn [sessionManager setDisk].
  destruct (sessionManager st) as [sm|]; [|intros [= _ ?]; discriminate].
  destruct (resHandle res) as [h|]; [|intros [= _ ?]; discriminate].
  destruct (resTorrentInfo res) as [info|]; [|intros [= _ ?]; discriminate].
  destruct (resSelectedFileIndex res <? 0); [intros [= _ ?]; discriminate|].
  destruct (infoFiles info !! _) as [entry|]; [|intros [= _ ?]; discriminate].
  destruct (pieceGeometry _ _ _ _) as [geo|] eqn:Hgeo; [|intros [= _ ?]; discriminate].
  intros [= _ <-]. exists info, geo. cbn. repeat split; try reflexivity. exact Hgeo.
Qed.

(** C5, as stated, fails for a file of no bytes that starts on a piece
    boundary: [fileOffset = 48], [pieceLength = 16], [fileSize = 0] gives
    [floor(47 / 16) = 2] in the documented formula, and the prepared stream
    has [fileEndPiece = 3]. *)
Lemma empty_file_last_piece :
  match (prepareResolve (sampleResolution "3f2b8c1e" 1) None startedState).2 with
  | inr stream =>
      fileOffset stream = 48 /\ fileSize stream = 0 /\ pieceLength stream = 16 /\
      totalPieces stream = 4 /\
      fileStartPiece stream = 3 /\ fileEndPiece stream = 3 /\
      documentedLastPiece stream = 2 /\
      fileEndPiece stream <> documentedLastPiece stream
  | inl _ => False
  end.
Proof. vm_compute. repeat split; discriminate. Qed.

(** C5, amended. For every prepared stream, [firstPiece] is
    [floor(fileOffset / pieceLength)] clamped to [[0, totalPieces - 1]] and
    [lastPiece] is [floor((fileOffset + max(1, fileSize) - 1) / pieceLength)]
    clamped to [[firstPiece, totalPieces - 1]]; for a file of at least one
    byte that is [floor((fileOffset + fileSize - 1) / pieceLength)] clamped
    to [[0, totalPieces - 1]]. [pieceLength] and [totalPieces] are the
    torrent's, raised to at least 1. *)
Theorem prepared_piece_geometry (res : Resolution) (mbps : option Double.t)
    (st st' : ModuleState) (stream : ActiveTorrentStream) (info : TorrentInfo) :
  prepareResolve res mbps st = (st', inr stream) ->
  resTorrentInfo res = Some info ->
  isInt (infoPieceLength info) -> isInt (infoNumPieces info) ->
  0 <= fileOffset stream -> 0 <= fileSize stream ->
  fileOffset stream + fileSize stream < Long_MAX_VALUE ->
  (fileOffset stream + fileSize stream) / pieceLength stream <= Int_MAX_VALUE ->
  pieceLength stream = Z.max 1 (infoPieceLength info) /\
  totalPieces stream = Z.max 1 (infoNumPieces info) /\
  fileStartPiece stream = documentedFirstPiece stream /\
  fileEndPiece stream =
    clampTo (fileStartPiece stream) (totalPieces stream - 1)
      ((fileOffset stream + Z.max 1 (fileSize stream) - 1) / pieceLength stream) /\
  (1 <= fileSize stream -> fileEndPiece stream = documentedLastPiece stream) /\
  0 <= fileStartPiece stream <= fileEndPiece stream /\
  fileEndPiece stream <= totalPieces stream - 1.
Proof.
  intros Hprep Hinfo Hpl Hn Hoff Hsize Hsum Hquot.
  destruct (prepareResolve_geometry _ _ _ _ _ Hprep)
    as (info' & geo & Hinfo' & Hgeo & HPL & HT & Hfirst & Hlast & _).
  rewrite Hinfo in Hinfo'. injection Hinfo' as <-.
  assert (HPLv : pieceLength stream = Z.max 1 (infoPieceLength info)).
  { rewrite HPL. unfold pieceGeometry in Hgeo.
    destruct (coerceIn _ 0 _); [|discriminate]. cbn [mbind option_bind] in Hgeo.
    destruct (coerceIn _ _ _); [|discriminate]. cbn [mbind option_bind] in Hgeo.
    now injection Hgeo as <-. }
  rewrite HPLv in Hquot.
  rewrite (pieceGeometry_value _ _ _ _ Hpl Hn Hoff Hsize Hsum Hquot) in Hgeo.
  injection Hgeo as <-. cbn in HPL, HT, Hfirst, Hlast.
  unfold documentedFirstPiece, documentedLastPiece.
  rewrite Hlast, Hfirst, HT, HPL.
  set (PL := Z.max 1 (infoPieceLength info)) in *.
  set (T := Z.max 1 (infoNumPieces info)) in *.
  assert (HPL1 : 1 <= PL) by (unfold PL; lia).
  assert (HT1 : 1 <= T) by (unfold T; lia).
  assert (Hq0 : 0 <= fileOffset stream / PL) by (apply Z.div_pos; lia).
  assert (Hq1 : fileOffset stream / PL <=
                (fileOffset stream + Z.max 1 (fileSize stream) - 1) / PL)
    by (apply Z.div_le_mono; lia).
  split; [reflexivity|]. split; [reflexivity|]. split; [reflexivity|].
  split; [reflexivity|]. split.
  - intros Hone. replace (Z.max 1 (fileSize stream)) with (fileSize stream) in * by lia.
    unfold clampTo. lia.
  - unfold clampTo. lia.
Qed.

Lemma prepared_piece_geometry_witness :
  match prepareResolve (sampleResolution "3f2b8c1e" 0) None startedState with
  | (_, inr stream) =>
      fileSize stream = 48 /\
      fileStartPiece stream = documentedFirstPiece stream /\
      fileEndPiece stream = documentedLastPiece stream /\
      fileEndPiece stream = 2
  | (_, inl _) => False
  end.
Proof.
  destruct (prepareResolve (sampleResolution "3f2b8c1e" 0) None startedState)
    as [st' [message | stream]] eqn:Hprep; [vm_compute in Hprep; discriminate|].
  assert (Hfields : fileOffset stream = 0 /\ fileSize stream = 48 /\
                    pieceLength stream = 16 /\ fileEndPiece stream = 2).
  { vm_compute in Hprep. injection Hprep as _ <-. repeat split. }
  destruct Hfields as (Hoff & Hsize & Hpl & Hend).
  destruct (prepared_piece_geometry (sampleResolution "3f2b8c1e" 0) None startedState
              st' stream sampleInfo Hprep eq_refl)
    as (_ & _ & Hfirst & _ & Hlast & _).
  - unfold isInt. vm_compute. split; discriminate.
  - unfold isInt. vm_compute. split; discriminate.
  - rewrite Hoff. lia.
  - rewrite Hsize. lia.
  - rewrite Hoff, Hsize. unfold Long_MAX_VALUE. lia.
  - rewrite Hoff, Hsize, Hpl. vm_compute. discriminate.
  - split; [exact Hsize|]. split; [exact Hfirst|].
    split; [apply Hlast; rewrite Hsize; lia | exact Hend].
Defined.

(** ** The missing-piece scan *)

Lemma scanPieces_seqZ (h : TorrentHandle) (n : nat) : forall a,
  (forall p, a <= p < a + Z.of_nat n -> engineThrows h p = false) ->
  match scanPieces h (seqZ a (Z.of_nat n)) with
  | Missing r =>
      a <= r < a + Z.of_nat n /\ havePiece h r = false /\
      forall p, a <= p < r -> havePiece h p = true
  | Threw => False
  | AllPresent => forall p, a <= p < a + Z.of_nat n -> havePiece h p = true
  end.
Proof.
  induction n as [|n IH]; intros a Hquiet.
  - rewrite seqZ_nil by lia. simpl. intros p Hp. lia.
  - rewrite seqZ_cons by lia.
    replace (Z.pred (Z.of_nat (S n))) with (Z.of_nat n) by lia.
    simpl. rewrite (Hquiet a) by lia.
    destruct (havePiece h a) eqn:Ha; simpl.
    + specialize (IH (Z.succ a)).
      destruct (scanPieces h (seqZ (Z.succ a) (Z.of_nat n))) as [r| |].
      * destruct IH as (Hr & Hmiss & Hpre); [intros p Hp; apply Hquiet; lia|].
        split; [lia|]. split; [exact Hmiss|].
        intros p Hp. destruct (decide (p = a)) as [->|Hne]; [exact Ha|].
        apply Hpre. lia.
      * apply IH. intros p Hp. apply Hquiet. lia.
      * intros p Hp. destruct (decide (p = a)) as [->|Hne]; [exact Ha|].
        apply IH; [intros q Hq; apply Hquiet; lia | lia].
    + split; [lia|]. split; [exact Ha|]. intros p Hp. lia.
Qed.

Lemma scanPieces_run (h : TorrentHandle) (a len : Z) :
  (forall p, a <= p < a + len -> engineThrows h p = false) ->
  match scanPieces h (seqZ a len) with
  | Missing r =>
      a <= r < a + len /\ havePiece h r = false /\
      forall p, a <= p < r -> havePiece h p = true
  | Threw => False
  | AllPresent => forall p, a <= p < a + len -> havePiece h p = true
  end.
Proof.
  intros Hquiet. destruct (Z.le_gt_cases len 0) as [Hle | Hgt].
  - rewrite seqZ_nil by lia. simpl. intros p Hp. lia.
  - rewrite <- (Z2Nat.id len) by lia. apply scanPieces_seqZ.
    rewrite Z2Nat.id by lia. exact Hquiet.
Qed.

(** On a valid, quiet handle the scan finds the first missing piece in
    wrap order, and answers [-1] exactly when the file is complete. *)
Lemma findNextMissingPiece_valid (stream : ActiveTorrentStream) (fromPiece : Z) :
  0 <= fileStartPiece stream <= fileEndPiece stream ->
  isValid (handle stream) = true -> engineQuiet stream ->
  let pivot := clampTo (fileStartPiece stream) (fileEndPiece stream) fromPiece in
  exists r,
    findNextMissingPiece stream fromPiece = Some r /\
    ((r = -1 /\
      forall p, fileStartPiece stream <= p <= fileEndPiece stream ->
                havePiece (handle stream) p = true) \/
     (0 <= r /\ firstMissingFrom stream pivot r)).
Proof.
  intros Hse Hvalid Hquiet pivot. unfold findNextMissingPiece.
  rewrite Hvalid. cbn [negb]. rewrite coerceIn_clampTo by lia.
  cbn [mbind option_bind]. fold pivot.
  pose proof (clampTo_bounds fromPiece (fileStartPiece stream) (fileEndPiece stream))
    as Hpivot. fold pivot in Hpivot.
  pose proof (scanPieces_run (handle stream) pivot (fileEndPiece stream - pivot + 1))
    as Hfwd.
  destruct (scanPieces (handle stream) (seqZ pivot (fileEndPiece stream - pivot + 1)))
    as [r| |].
  - destruct Hfwd as (Hr & Hmiss & Hpre); [intros p Hp; apply Hquiet; lia|].
    exists r. split; [reflexivity|]. right. split; [lia|].
    split; [exact Hmiss|]. left. split; [lia | exact Hpre].
  - exfalso. apply Hfwd. intros p Hp. apply Hquiet. lia.
  - pose proof (scanPieces_run (handle stream) (fileStartPiece stream)
                  (pivot - fileStartPiece stream)) as Hwrap.
    destruct (scanPieces (handle stream)
                (seqZ (fileStartPiece stream) (pivot - fileStartPiece stream)))
      as [r| |].
    + destruct Hwrap as (Hr & Hmiss & Hpre); [intros p Hp; apply Hquiet; lia|].
      exists r. split; [reflexivity|]. right. split; [lia|].
      split; [exact Hmiss|]. right. split; [lia|]. split; [|exact Hpre].
      intros p Hp. apply Hfwd; [intros q Hq; apply Hquiet; lia | lia].
    + exfalso. apply Hwrap. intros p Hp. apply Hquiet. lia.
    + exists (-1). split; [reflexivity|]. left. split; [reflexivity|].
      intros p Hp. destruct (Z.lt_ge_cases p pivot).
      * apply Hwrap; [intros q Hq; apply Hquiet; lia | lia].
      * apply Hfwd; [intros q Hq; apply Hquiet; lia | lia].
Qed.

(** C8, as stated, fails once the engine has dropped the torrent: the scan
    answers [-1] although piece 2 of the file is missing. *)
Lemma scan_on_invalid_handle :
  let stream := streamOver (invalidated (handleMissing [2])) 160 0 9 8 (-1) in
  fileStartPiece stream <= 2 <= fileEndPiece stream /\
  havePiece (handle stream) 2 = false /\
  findNextMissingPiece stream 8 = Some (-1).
Proof. cbv zeta. split; [split; discriminate|]. split; reflexivity. Qed.

(** C8, amended. While the handle is valid and no piece query raises,
    [findNextMissingPiece] returns the first piece not yet downloaded in
    the order [cursor .. fileEndPiece], then [fileStartPiece .. cursor - 1]
    (the cursor clamped to the file), and returns [-1] only when every
    piece of the file is present; on an invalid handle it returns [-1]
    whatever is missing. With pieces 0..9, cursor 8, pieces 8 and 9
    present and piece 2 the first one missing, it returns 2. *)
Theorem find_next_missing_piece (stream : ActiveTorrentStream) (fromPiece : Z) :
  0 <= fileStartPiece stream <= fileEndPiece stream ->
  (isValid (handle stream) = true -> engineQuiet stream ->
   exists r,
     findNextMissingPiece stream fromPiece = Some r /\
     (r = -1 ->
      forall p, fileStartPiece stream <= p <= fileEndPiece stream ->
                havePiece (handle stream) p = true) /\
     (r <> -1 ->
      firstMissingFrom stream
        (clampTo (fileStartPiece stream) (fileEndPiece stream) fromPiece) r)) /\
  (isValid (handle stream) = false -> findNextMissingPiece stream fromPiece = Some (-1)) /\
  findNextMissingPiece (streamOver (handleMissing [2; 5]) 160 0 9 8 (-1)) 8 = Some 2.
Proof.
  intros Hse. split; [|split].
  - intros Hvalid Hquiet.
    destruct (findNextMissingPiece_valid stream fromPiece Hse Hvalid Hquiet)
      as (r & Hr & [[-> Hall] | [Hpos Hfirst]]).
    + exists (-1). split; [exact Hr|]. split; [intros _; exact Hall | congruence].
    + exists r. split; [exact Hr|]. split; [lia | intros _; exact Hfirst].
  - intros Hinvalid. unfold findNextMissingPiece. now rewrite Hinvalid.
  - reflexivity.
Qed.

Lemma find_next_missing_piece_witness :
  let stream := streamOver (handleMissing [2; 5]) 160 0 9 8 (-1) in
  0 <= fileStartPiece stream <= fileEndPiece stream /\
  isValid (handle stream) = true /\
  exists r, findNextMissingPiece stream 8 = Some r /\ firstMissingFrom stream 8 r.
Proof.
  cbv zeta.
  assert (Hse : 0 <= fileStartPiece (streamOver (handleMissing [2; 5]) 160 0 9 8 (-1))
                  <= fileEndPiece (streamOver (handleMissing [2; 5]) 160 0 9 8 (-1)))
    by (split; discriminate).
  split; [exact Hse|]. split; [reflexivity|].
  destruct (find_next_missing_piece
              (streamOver (handleMissing [2; 5]) 160 0 9 8 (-1)) 8 Hse)
    as (Hvalid & _ & Hexample).
  destruct (Hvalid eq_refl) as (r & Hr & _ & Hfirst); [intros p _; reflexivity|].
  exists r. split; [exact Hr|].
  rewrite Hexample in Hr. injection Hr as <-. apply Hfirst. discriminate.
Defined.

(** ** Boosting a window *)

Lemma boostPieces_frame (stream : ActiveTorrentStream) (sp : Z) (pieces : list Z) :
  forall h,
    handleId (boostPieces stream sp pieces h) = handleId h /\
    isValid (boostPieces stream sp pieces h) = isValid h /\
    havePiece (boostPieces stream sp pieces h) = havePiece h /\
    engineThrows (boostPieces stream sp pieces h) = engineThrows h.
Proof.
  induction pieces as [|piece rest IH]; intros h; [easy|].
  simpl. destruct (engineThrows h piece); [easy|].
  destruct (IH (setPieceDeadline
                  (setPiecePriority h piece (boostPriority stream (toInt (piece - sp))))
                  piece (toInt (toInt (piece - sp) * pieceDeadlineStepMs stream))))
    as (H1 & H2 & H3 & H4).
  rewrite H1, H2, H3, H4. easy.
Qed.

(** Pieces the loop does not visit keep their priority and deadline. *)
Lemma boostPieces_other (stream : ActiveTorrentStream) (sp : Z) (pieces : list Z) :
  forall h p, p ∉ pieces ->
    piecePriority (boostPieces stream sp pieces h) !! p = piecePriority h !! p /\
    pieceDeadline (boostPieces stream sp pieces h) !! p = pieceDeadline h !! p.
Proof.
  induction pieces as [|piece rest IH]; intros h p Hp; [easy|].
  apply not_elem_of_cons in Hp as [Hne Hrest].
  simpl. destruct (engineThrows h piece); [easy|].
  destruct (IH (setPieceDeadline
                  (setPiecePriority h piece (boostPriority stream (toInt (piece - sp))))
                  piece (toInt (toInt (piece - sp) * pieceDeadlineStepMs stream)))
              p Hrest) as [H1 H2].
  rewrite H1, H2. cbn [piecePriority pieceDeadline setPieceDeadline setPiecePriority].
  now rewrite !lookup_insert_ne by congruence.
Qed.

(** On a quiet engine every piece the loop visits gets its tier and its
    deadline. *)
Lemma boostPieces_visited (stream : ActiveTorrentStream) (sp : Z) (pieces : list Z) :
  forall h,
    (forall p, p ∈ pieces -> engineThrows h p = false) ->
    forall p, p ∈ pieces ->
      piecePriority (boostPieces stream sp pieces h) !! p =
        Some (boostPriority stream (toInt (p - sp))) /\
      pieceDeadline (boostPieces stream sp pieces h) !! p =
        Some (toInt (toInt (p - sp) * pieceDeadlineStepMs stream)).
Proof.
  induction pieces as [|piece rest IH]; intros h Hquiet p Hp;
    [now apply elem_of_nil in Hp|].
  simpl. rewrite (Hquiet piece) by apply list_elem_of_here.
  set (h2 := setPieceDeadline _ _ _).
  assert (Hquiet2 : forall q, q ∈ rest -> engineThrows h2 q = false).
  { intros q Hq. apply (Hquiet q). now apply list_elem_of_further. }
  destruct (decide (p ∈ rest)) as [Hin | Hout].
  - exact (IH h2 Hquiet2 p Hin).
  - apply elem_of_cons in Hp as [-> | Hin]; [|contradiction].
    destruct (boostPieces_other stream sp rest h2 piece Hout) as [H1 H2].
    rewrite H1, H2. unfold h2.
    cbn [piecePriority pieceDeadline setPieceDeadline setPiecePriority].
    now rewrite !lookup_insert_eq.
Qed.


(** The result of [boostPieceWindow], with the [Int] arithmetic resolved. *)
Lemma boostPieceWindow_value (stream : ActiveTorrentStream) (fromPiece : Z)
    (windowPieces : option Z) :
  inBudget stream ->
  -1 <= lastBoostedPiece stream <= fileEndPiece stream ->
  (forall w, windowPieces = Some w -> w <= 2 ^ 20) ->
  isValid (handle stream) = true ->
  let startPiece := clampTo (fileStartPiece stream) (fileEndPiece stream) fromPiece in
  let window := Z.max 1 (default (streamingWindowPieces stream) windowPieces) in
  let endPiece := Z.min (fileEndPiece stream) (startPiece + window) in
  boostPieceWindow stream fromPiece windowPieces =
  Some (if (0 <=? lastBoostedPiece stream) &&
           (startPiece <=? lastBoostedPiece stream + STREAMING_BOOST_MIN_STEP)
        then stream
        else setLastBoostedPiece
               (setHandle stream
                  (boostPieces stream startPiece
                     (seqZ startPiece (endPiece - startPiece + 1)) (handle stream)))
               startPiece).
Proof.
  intros (Hse & Hend & Hsw & Hpw & Hadv & Hdl) Hlast Hwin Hvalid startPiece window endPiece.
  unfold boostPieceWindow. rewrite Hvalid. cbn [negb].
  rewrite coerceIn_clampTo by lia. cbn [mbind option_bind]. fold startPiece.
  pose proof (clampTo_bounds fromPiece (fileStartPiece stream) (fileEndPiece stream))
    as Hsp. fold startPiece in Hsp.
  unfold STREAMING_BOOST_MIN_STEP.
  rewrite (toInt_small (lastBoostedPiece stream + 8))
    by (unfold isInt, Int_MIN_VALUE, Int_MAX_VALUE; lia).
  destruct ((0 <=? lastBoostedPiece stream) &&
            (startPiece <=? lastBoostedPiece stream + 8)); [reflexivity|].
  fold window.
  assert (Hw : 1 <= window <= 2 ^ 20).
  { unfold window. destruct windowPieces as [w|]; cbn.
    - specialize (Hwin w eq_refl). lia.
    - lia. }
  rewrite (toInt_small (startPiece + window))
    by (unfold isInt, Int_MIN_VALUE, Int_MAX_VALUE; lia).
  reflexivity.
Qed.




(** ** The cursors *)



(** What a boost does to the cursors: [nextPrefetchPiece] is not written,
    [lastBoostedPiece] stays or moves forward to the start of the boost. *)
Lemma boostPieceWindow_cursors (stream boosted : ActiveTorrentStream) (fromPiece : Z)
    (windowPieces : option Z) :
  inBudget stream -> cursorsInFile stream ->
  boostPieceWindow stream fromPiece windowPieces = Some boosted ->
  (boosted = stream \/
   exists pieces,
     boosted =
       setLastBoostedPiece
         (setHandle stream
            (boostPieces stream
               (clampTo (fileStartPiece stream) (fileEndPiece stream) fromPiece)
               pieces (handle stream)))
         (clampTo (fileStartPiece stream) (fileEndPiece stream) fromPiece)
     /\ lastBoostedPiece stream <
        clampTo (fileStartPiece stream) (fileEndPiece stream) fromPiece).
Proof.
  intros (Hse & Hend & _) [Hlast _]. unfold boostPieceWindow.
  destruct (isValid (handle stream)); cbn [negb]; [|intros [= <-]; now left].
  rewrite coerceIn_clampTo by lia. cbn [mbind option_bind].
  pose proof (clampTo_bounds fromPiece (fileStartPiece stream) (fileEndPiece stream))
    as Hsp.
  set (startPiece := clampTo _ _ _) in *.
  unfold STREAMING_BOOST_MIN_STEP.
  rewrite (toInt_small (lastBoostedPiece stream + 8))
    by (unfold isInt, Int_MIN_VALUE, Int_MAX_VALUE; lia).
  destruct (0 <=? lastBoostedPiece stream) eqn:E1;
    [destruct (startPiece <=? lastBoostedPiece stream + 8) eqn:E2|]; cbn [andb].
  - intros [= <-]. now left.
  - intros [= <-]. right. eexists. split; [reflexivity|]. apply Z.leb_gt in E2. lia.
  - intros [= <-]. right. eexists. split; [reflexivity|]. apply Z.leb_gt in E1. lia.
Qed.

Lemma cursor_step_boost (stream boosted : ActiveTorrentStream) (fromPiece : Z)
    (windowPieces : option Z) :
  inBudget stream -> cursorsInFile stream ->
  boostPieceWindow stream fromPiece windowPieces = Some boosted ->
  lastBoostedPiece stream <= lastBoostedPiece boosted /\
  nextPrefetchPiece boosted = nextPrefetchPiece stream /\
  fileStartPiece boosted = fileStartPiece stream /\
  fileEndPiece boosted = fileEndPiece stream /\
  prefetchAdvanceStep boosted = prefetchAdvanceStep stream /\
  inBudget boosted /\ cursorsInFile boosted.
Proof.
  intros Hbudget Hcursors Hboost.
  destruct (boostPieceWindow_cursors _ _ _ _ Hbudget Hcursors Hboost)
    as [-> | (h & -> & Hlt)].
  - split; [lia|]. do 4 (split; [reflexivity|]). split; assumption.
  - pose proof Hbudget as (Hse & _).
    pose proof (clampTo_bounds fromPiece (fileStartPiece stream) (fileEndPiece stream))
      as Hsp.
    cbn [lastBoostedPiece nextPrefetchPiece fileStartPiece fileEndPiece
         prefetchAdvanceStep setLastBoostedPiece setHandle].
    split; [lia|]. do 4 (split; [reflexivity|]). split.
    + exact Hbudget.
    + destruct Hcursors as [_ Hnext]. split; [right; cbn; lia | exact Hnext].
Qed.










Lemma deriveStreamingTuning_bounds (mbps : option Double.t) :
  let t := deriveStreamingTuning mbps in
  0 <= StreamingTuning.streamingWindowPieces t <= 2 ^ 10 /\
  0 <= StreamingTuning.prefetchWindowPieces t <= 2 ^ 10 /\
  0 <= StreamingTuning.prefetchAdvanceStep t <= 2 ^ 10 /\
  0 <= StreamingTuning.pieceDeadlineStepMs t <= 2 ^ 10.
Proof.
  unfold deriveStreamingTuning.
  set (m := match mbps with Some _ => _ | None => _ end). clearbody m.
  repeat match goal with
         | |- context [Double.leb m ?c] => destruct (Double.leb m c)
         end; cbn;
    unfold STREAMING_WINDOW_PIECES, PREFETCH_WINDOW_PIECES, PREFETCH_ADVANCE_STEP; lia.
Qed.

(** A stream as [prepareResolve] creates it starts inside the budget, with
    its cursors where the code puts them. *)
Lemma prepared_stream_in_budget (res : Resolution) (mbps : option Double.t)
    (st st' : ModuleState) (stream : ActiveTorrentStream) (info : TorrentInfo) :
  prepareResolve res mbps st = (st', inr stream) ->
  resTorrentInfo res = Some info ->
  isInt (infoPieceLength info) -> isInt (infoNumPieces info) ->
  infoNumPieces info <= 2 ^ 30 ->
  0 <= fileOffset stream -> 0 <= fileSize stream ->
  fileOffset stream + fileSize stream < Long_MAX_VALUE ->
  (fileOffset stream + fileSize stream) / Z.max 1 (infoPieceLength info) <= Int_MAX_VALUE ->
  inBudget stream /\ cursorsInFile stream.
Proof.
  intros Hprep Hinfo Hpl Hn Hn30 Hoff Hsize Hsum Hquot.
  destruct (prepareResolve_geometry _ _ _ _ _ Hprep)
    as (info' & geo & Hinfo' & Hgeo & HPL & HT & Hfirst & Hlast & Hnext & Hboosted).
  rewrite Hinfo in Hinfo'. injection Hinfo' as <-.
  rewrite (pieceGeometry_value _ _ _ _ Hpl Hn Hoff Hsize Hsum Hquot) in Hgeo.
  injection Hgeo as <-. cbn in HPL, HT, Hfirst, Hlast, Hnext.
  assert (Htune : streamingWindowPieces stream =
                    StreamingTuning.streamingWindowPieces (deriveStreamingTuning mbps) /\
                  prefetchWindowPieces stream =
                    StreamingTuning.prefetchWindowPieces (deriveStreamingTuning mbps) /\
                  prefetchAdvanceStep stream =
                    StreamingTuning.prefetchAdvanceStep (deriveStreamingTuning mbps) /\
                  pieceDeadlineStepMs stream =
                    StreamingTuning.pieceDeadlineStepMs (deriveStreamingTuning mbps)).
  { clear -Hprep. unfold prepareResolve in Hprep. cbn [sessionManager setDisk] in Hprep.
    destruct (sessionManager st); [|now inversion Hprep].
    destruct (resHandle res); [|now inversion Hprep].
    destruct (resTorrentInfo res); [|now inversion Hprep].
    destruct (_ <? 0); [now inversion Hprep|].
    destruct (infoFiles _ !! _); [|now inversion Hprep].
    destruct (pieceGeometry _ _ _ _); [|now inversion Hprep].
    injection Hprep as _ <-. cbn. repeat split. }
  destruct Htune as (H1 & H2 & H3 & H4).
  pose proof (deriveStreamingTuning_bounds mbps) as (B1 & B2 & B3 & B4).
  set (PL := Z.max 1 (infoPieceLength info)) in *.
  assert (HPL1 : 1 <= PL) by (unfold PL; lia).
  assert (Hq0 : 0 <= fileOffset stream / PL) by (apply Z.div_pos; lia).
  assert (Hq1 : fileOffset stream / PL <=
                (fileOffset stream + Z.max 1 (fileSize stream) - 1) / PL)
    by (apply Z.div_le_mono; lia).
  unfold inBudget, cursorsInFile.
  rewrite H1, H2, H3, H4, Hnext, Hboosted, Hlast, Hfirst. unfold clampTo.
  repeat split; try apply B1; try apply B2; try apply B3; try apply B4; try lia.
Qed.




(** ** The stream registry *)

Lemma stopStreamLocked_keeps (stream : ActiveTorrentStream) (cleanup : bool)
    (st : ModuleState) :
  activeStreams (stopStreamLocked stream cleanup st) = activeStreams st /\
  httpServer (stopStreamLocked stream cleanup st) = httpServer st.
Proof.
  unfold stopStreamLocked, deleteRecursively.
  destruct (sessionManager st) as [sm|]; [destruct (sessionRemove sm _)|];
    destruct cleanup; split; reflexivity.
Qed.

Lemma stopStreamLocked_disk (stream : ActiveTorrentStream) (st : ModuleState) :
  disk (stopStreamLocked stream true st) = disk st ∖ {[saveDir stream]}.
Proof.
  unfold stopStreamLocked, deleteRecursively.
  destruct (sessionManager st) as [sm|]; [destruct (sessionRemove sm _)|]; reflexivity.
Qed.

Lemma stopStreamLocked_session (stream : ActiveTorrentStream) (cleanup : bool)
    (st : ModuleState) :
  match sessionManager st, sessionManager (stopStreamLocked stream cleanup st) with
  | None, None => True
  | Some sm, Some sm' =>
      isRunning sm' = isRunning sm /\ removeThrows sm' = removeThrows sm /\
      torrents sm' = torrents sm ∖ ({[handleId (handle stream)]} ∖ removeThrows sm)
  | _, _ => False
  end.
Proof.
  unfold stopStreamLocked, deleteRecursively, sessionRemove.
  destruct (sessionManager st) as [sm|] eqn:Hsm.
  - destruct (decide (handleId (handle stream) ∈ removeThrows sm)) as [Hin | Hout];
      destruct cleanup; cbn; rewrite ?Hsm; cbn;
      (split; [reflexivity|]); (split; [reflexivity|]); set_solver.
  - destruct cleanup; cbn; now rewrite Hsm.
Qed.

Lemma stop_fold (cleanup : bool) (streams : list ActiveTorrentStream) :
  forall st,
    let st' := foldl (fun acc stream => stopStreamLocked stream cleanup acc) st streams in
    activeStreams st' = activeStreams st /\ httpServer st' = httpServer st /\
    match sessionManager st, sessionManager st' with
    | None, None => True
    | Some sm, Some sm' =>
        isRunning sm' = isRunning sm /\ removeThrows sm' = removeThrows sm /\
        torrents sm' =
          torrents sm ∖ (list_to_set ((fun s => handleId (handle s)) <$> streams)
                         ∖ removeThrows sm)
    | _, _ => False
    end.
Proof.
  induction streams as [|stream rest IH]; intros st.
  - cbn. split; [reflexivity|]. split; [reflexivity|].
    destruct (sessionManager st); [|exact I].
    split; [reflexivity|]. split; [reflexivity|]. set_solver.
  - cbn [foldl]. cbv zeta in IH |- *.
    destruct (IH (stopStreamLocked stream cleanup st)) as (Hreg & Hhttp & Hsess).
    destruct (stopStreamLocked_keeps stream cleanup st) as [Hreg1 Hhttp1].
    pose proof (stopStreamLocked_session stream cleanup st) as Hsess1.
    split; [congruence|]. split; [congruence|].
    destruct (sessionManager st) as [sm|];
      destruct (sessionManager (stopStreamLocked stream cleanup st)) as [sm1|];
      try contradiction;
      destruct (sessionManager (foldl _ _ rest)) as [sm2|]; try contradiction;
      [|exact I].
    destruct Hsess1 as (R1 & T1 & S1), Hsess as (R2 & T2 & S2).
    split; [congruence|]. split; [congruence|].
    rewrite S2, S1, T1. cbn [fmap list_fmap list_to_set]. set_solver.
Qed.

Lemma stop_fold_disk (streams : list ActiveTorrentStream) :
  forall st,
    disk (foldl (fun acc stream => stopStreamLocked stream true acc) st streams) =
    disk st ∖ list_to_set (saveDir <$> streams).
Proof.
  induction streams as [|stream rest IH]; intros st.
  - cbn. set_solver.
  - cbn [foldl]. rewrite IH, stopStreamLocked_disk.
    cbn [fmap list_fmap list_to_set]. set_solver.
Qed.

Lemma stopAllStreamsLocked_empty (cleanup : bool) (st : ModuleState) :
  activeStreams (stopAllStreamsLocked cleanup st) = ∅.
Proof.
  unfold stopAllStreamsLocked.
  destruct (stop_fold cleanup (map_to_list (activeStreams st)).*2
              (setActiveStreams st ∅)) as (H & _).
  exact H.
Qed.

Lemma registered_in_values (st : ModuleState) (sid : string) (s : ActiveTorrentStream) :
  activeStreams st !! sid = Some s -> s ∈ (map_to_list (activeStreams st)).*2.
Proof.
  intros H. apply list_elem_of_fmap. exists (sid, s).
  split; [reflexivity|]. now apply elem_of_map_to_list.
Qed.


Lemma prepareResolve_registry (res : Resolution) (mbps : option Double.t)
    (st : ModuleState) :
  activeStreams (prepareResolve res mbps st).1 = activeStreams st /\
  (activeStreams st = ∅ ->
   forall st' stream, prepareResolve res mbps st = (st', inr stream) ->
     streamId stream = resStreamId res /\ activeStreams st' = ∅).
Proof.
  unfold prepareResolve. cbn [sessionManager setDisk].
  destruct (sessionManager st) as [sm|]; [|split; [reflexivity | discriminate]].
  destruct (resHandle res) as [h|]; [|split; [reflexivity | discriminate]].
  destruct (resTorrentInfo res) as [info|]; [|split; [reflexivity | discriminate]].
  destruct (resSelectedFileIndex res <? 0); [split; [reflexivity | discriminate]|].
  destruct (infoFiles info !! _) as [entry|]; [|split; [reflexivity | discriminate]].
  destruct (pieceGeometry _ _ _ _) as [geo|]; [|split; [reflexivity | discriminate]].
  split; [reflexivity|]. intros Hempty st' stream [= <- <-]. split; [reflexivity | exact Hempty].
Qed.

Lemma preparePrime_registry (stream : ActiveTorrentStream) (st : ModuleState) :
  activeStreams st = {[ streamId stream := stream ]} ->
  dom (activeStreams (preparePrime stream st).1) = {[ streamId stream ]}.
Proof.
  intros Hreg. unfold preparePrime.
  destruct (boostPieceWindow stream _ _) as [boosted|]; cbn [fst].
  - assert (Hdom : dom (<[streamId stream := boosted]> (activeStreams st))
                   = {[ streamId stream ]}).
    { rewrite Hreg, dom_insert_L, dom_singleton_L. set_solver. }
    destruct (httpServer _); cbn [fst activeStreams setActiveStreams]; exact Hdom.
  - rewrite Hreg. apply dom_singleton_L.
Qed.

(** The registry after a whole [prepareStreamInternal]: the new stream
    alone, or nothing when the prepare failed before registering. *)
Lemma prepareStreamInternal_registry (res : Resolution) (mbps : option Double.t)
    (st : ModuleState) :
  dom (activeStreams (prepareStreamInternal res mbps st).1) = {[ resStreamId res ]} \/
  activeStreams (prepareStreamInternal res mbps st).1 = ∅.
Proof.
  unfold prepareStreamInternal.
  pose proof (stopAllStreamsLocked_empty true
                (ensureHttpServerStartedLocked (resPort res)
                   (ensureSessionStartedLocked st))) as Hempty.
  fold (prepareStopPrior res st) in Hempty.
  destruct (prepareResolve_registry res mbps (prepareStopPrior res st)) as [Hkeep Hnew].
  destruct (prepareResolve res mbps (prepareStopPrior res st))
    as [st2 [message | stream]] eqn:Hres.
  - right. cbn [fst] in *. congruence.
  - left. destruct (Hnew Hempty st2 stream eq_refl) as [Hsid Hst2].
    rewrite <- Hsid. apply preparePrime_registry.
    unfold prepareRegister. cbn [activeStreams setActiveStreams].
    rewrite Hst2. apply insert_empty.
Qed.







(** Whatever was registered, [stopStream] leaves the registry without the id. *)
Lemma stopStream_registry (sid : string) (st : ModuleState) :
  activeStreams (stopStream sid st).1 = delete sid (activeStreams st).
Proof.
  unfold stopStream. cbn [fst].
  destruct (activeStreams st !! sid) as [s|]; [|reflexivity].
  now destruct (stopStreamLocked_keeps s true
                  (setActiveStreams st (delete sid (activeStreams st)))).
Qed.

(** C10. [stopStream(streamId)] resolves with [true] for every id,
    registered or not; when no stream has the id, the registry and the
    rest of the module's state are left as they were, which is also what
    stopping an id a second time does. *)
Theorem stop_stream_resolves (sid : string) (st : ModuleState) :
  (stopStream sid st).2 = Resolved true /\
  (activeStreams st !! sid = None -> (stopStream sid st).1 = st) /\
  stopStream sid (stopStream sid st).1 = ((stopStream sid st).1, Resolved true).
Proof.
  assert (Hsame : forall st0, activeStreams st0 !! sid = None ->
                              stopStream sid st0 = (st0, Resolved true)).
  { intros st0 Hnone. unfold stopStream.
    rewrite Hnone. unfold setActiveStreams. rewrite (delete_id _ _ Hnone).
    now destruct st0. }
  split; [reflexivity|]. split.
  - intros Hnone. now rewrite (Hsame st Hnone).
  - apply Hsame. rewrite stopStream_registry. apply lookup_delete_eq.
Qed.

Lemma stop_stream_resolves_witness :
  activeStreams oneStreamState !! "never-registered" = None /\
  stopStream "never-registered" oneStreamState = (oneStreamState, Resolved true).
Proof.
  assert (Hnone : activeStreams oneStreamState !! "never-registered" = None).
  { apply not_elem_of_dom.
    destruct (prepareStreamInternal_registry (sampleResolution "first" 0) None
                initialState) as [Hdom | Hnone].
    - unfold oneStreamState. rewrite Hdom. cbn. set_solver.
    - unfold oneStreamState. rewrite Hnone. set_solver. }
  split; [exact Hnone|].
  destruct (stop_stream_resolves "never-registered" oneStreamState) as (Hres & Hsame & _).
  rewrite (surjective_pairing (stopStream _ _)), Hres, (Hsame Hnone). reflexivity.
Defined.

(** Stopping a registered stream takes it out of the registry, deletes its
    save directory and leaves every other stream registered. *)
Lemma stopStream_registered (sid : string) (st : ModuleState) (s : ActiveTorrentStream) :
  activeStreams st !! sid = Some s ->
  activeStreams (stopStream sid st).1 = delete sid (activeStreams st) /\
  saveDir s ∉ disk (stopStream sid st).1.
Proof.
  intros Hreg. unfold stopStream. cbn [fst]. rewrite Hreg.
  destruct (stopStreamLocked_keeps s true
              (setActiveStreams st (delete sid (activeStreams st)))) as [Hkeep _].
  split; [exact Hkeep|]. rewrite stopStreamLocked_disk. set_solver.
Qed.

(** ** The body stream *)

(** A boost changes neither what the engine has nor the sizes. *)
Lemma boostPieceWindow_frame (stream boosted : ActiveTorrentStream) (fromPiece : Z)
    (windowPieces : option Z) :
  inBudget stream -> cursorsInFile stream ->
  boostPieceWindow stream fromPiece windowPieces = Some boosted ->
  isValid (handle boosted) = isValid (handle stream) /\
  havePiece (handle boosted) = havePiece (handle stream) /\
  engineThrows (handle boosted) = engineThrows (handle stream) /\
  fileSize boosted = fileSize stream /\ fileOffset boosted = fileOffset stream /\
  pieceLength boosted = pieceLength stream /\ totalPieces boosted = totalPieces stream.
Proof.
  intros Hb Hc Hboost.
  destruct (boostPieceWindow_cursors _ _ _ _ Hb Hc Hboost) as [-> | (pieces & -> & _)].
  - repeat split.
  - cbn [handle fileSize fileOffset pieceLength totalPieces setLastBoostedPiece setHandle].
    destruct (boostPieces_frame stream
                (clampTo (fileStartPiece stream) (fileEndPiece stream) fromPiece)
                pieces (handle stream)) as (_ & H2 & H3 & H4).
    repeat split; assumption.
Qed.

Lemma boostPieceWindow_servable (env : ReadEnv) (data : list Byte.byte)
    (stream boosted : ActiveTorrentStream) (fromPiece : Z) (windowPieces : option Z) :
  servable env data stream ->
  boostPieceWindow stream fromPiece windowPieces = Some boosted ->
  servable env data boosted /\
  fileSize boosted = fileSize stream /\ fileOffset boosted = fileOffset stream /\
  pieceLength boosted = pieceLength stream /\ totalPieces boosted = totalPieces stream.
Proof.
  intros (Hb & Hc & (Hvalid & Hhave) & Hsizes & Hfile & Hlen) Hboost.
  destruct (cursor_step_boost _ _ _ _ Hb Hc Hboost)
    as (_ & _ & Hfs & Hfe & _ & Hb' & Hc').
  destruct (boostPieceWindow_frame _ _ _ _ Hb Hc Hboost)
    as (F1 & F2 & F3 & F4 & F5 & F6 & F7).
  split; [|repeat split; assumption].
  split; [exact Hb'|]. split; [exact Hc'|]. split; [|split].
  - split; [congruence|]. intros p Hp. rewrite F2, F3. apply Hhave. lia.
  - unfold soundSizes in *. rewrite F4, F5, F6, F7. exact Hsizes.
  - split; [exact Hfile | congruence].
Qed.

(** A piece that is there is found at the first look. *)
Lemma waitForPiece_present (tick : TorrentHandle -> TorrentHandle) (polls : nat)
    (stream : ActiveTorrentStream) (pieceIndex : Z) :
  fileStartPiece stream <= fileEndPiece stream -> fullyDownloaded stream ->
  waitForPiece tick polls stream pieceIndex = Some (stream, true).
Proof.
  intros Hse [Hvalid Hhave]. unfold waitForPiece. rewrite Hvalid. cbn [negb].
  rewrite coerceIn_clampTo by lia. cbn [mbind option_bind].
  pose proof (clampTo_bounds pieceIndex (fileStartPiece stream) (fileEndPiece stream) Hse)
    as Hsafe.
  destruct (Hhave _ Hsafe) as [Hp Hq].
  destruct polls; simpl; rewrite Hq, Hp; reflexivity.
Qed.

(** One read on a servable stream delivers at least one byte, at most
    what was asked for and what remains, from the current offset on. *)
Lemma read_chunk (env : ReadEnv) (data : list Byte.byte) (t : TorrentInputStream)
    (len : Z) :
  servable env data (source t) ->
  0 <= offsetInFile t -> 1 <= remaining t ->
  offsetInFile t + remaining t <= fileSize (source t) ->
  1 <= len <= Int_MAX_VALUE ->
  exists t' (k : nat),
    read env t len =
      Some (t', ReadChunk (take k (drop (Z.to_nat (offsetInFile t)) data))) /\
    length (take k (drop (Z.to_nat (offsetInFile t)) data)) = k /\
    (1 <= k)%nat /\ Z.of_nat k <= len /\ Z.of_nat k <= remaining t /\
    offsetInFile t' = offsetInFile t + Z.of_nat k /\
    remaining t' = remaining t - Z.of_nat k /\
    servable env data (source t') /\ fileSize (source t') = fileSize (source t).
Proof.
  intros Hserv Hoff Hrem Hfit Hlen.
  pose proof Hserv as (Hb & Hc & Hfull & Hsizes & Hfile & Hdata).
  pose proof Hb as (Hse & _).
  destruct Hsizes as (HPL & HT & Hfo & Hfsz & Hsum & Hquot).
  unfold Int_MAX_VALUE, Long_MAX_VALUE in *.
  unfold read.
  destruct (remaining t <=? 0) eqn:E1; [apply Z.leb_le in E1; lia|].
  destruct (len <=? 0) eqn:E2; [apply Z.leb_le in E2; lia|].
  set (stream := source t) in *.
  set (requested := Z.min len (remaining t)).
  assert (Hreq : 1 <= requested <= 2 ^ 31 - 1) by (unfold requested; lia).
  rewrite (toInt_small requested) by (unfold isInt, Int_MIN_VALUE, Int_MAX_VALUE; lia).
  set (globalOffset := fileOffset stream + offsetInFile t).
  assert (Hglobal : 0 <= globalOffset <= fileOffset stream + fileSize stream)
    by (unfold globalOffset; lia).
  rewrite (toLong_small globalOffset)
    by (unfold isLong, Long_MIN_VALUE, Long_MAX_VALUE; lia).
  assert (Hq : 0 <= globalOffset / pieceLength stream <= 2 ^ 31 - 1).
  { split; [apply Z.div_pos; lia|].
    etransitivity; [apply Z.div_le_mono; [lia | apply Hglobal] | exact Hquot]. }
  rewrite Z.quot_div_nonneg by lia.
  rewrite (toLong_small (globalOffset / pieceLength stream))
    by (unfold isLong, Long_MIN_VALUE, Long_MAX_VALUE; lia).
  rewrite (toInt_small (globalOffset / pieceLength stream))
    by (unfold isInt, Int_MIN_VALUE, Int_MAX_VALUE; lia).
  rewrite (toInt_small (totalPieces stream - 1))
    by (unfold isInt, Int_MIN_VALUE, Int_MAX_VALUE; lia).
  rewrite coerceIn_clampTo by lia. cbn [mbind option_bind].
  pose proof (clampTo_bounds (globalOffset / pieceLength stream) 0
                (totalPieces stream - 1)) as Hpiece.
  set (pieceIndex := clampTo 0 (totalPieces stream - 1) _) in *.
  rewrite (waitForPiece_present _ _ stream pieceIndex (proj2 Hse) Hfull).
  destruct (boostPieceWindow stream pieceIndex None) as [boosted|] eqn:Hboost.
  2:{ exfalso. unfold boostPieceWindow in Hboost.
      destruct (isValid (handle stream)); [|discriminate].
      cbn [negb] in Hboost. rewrite coerceIn_clampTo in Hboost by lia.
      cbn [mbind option_bind] in Hboost. destruct (_ && _); discriminate. }
  cbn [mbind option_bind].
  destruct (boostPieceWindow_servable env data _ _ _ _ Hserv Hboost)
    as (Hserv' & Hsz' & _ & Hpl' & _).
  rewrite Hpl'.
  assert (Hend : 0 <= (pieceIndex + 1) * pieceLength stream < 2 ^ 62) by nia.
  rewrite (toLong_small (pieceIndex + 1))
    by (unfold isLong, Long_MIN_VALUE, Long_MAX_VALUE; lia).
  rewrite (toLong_small ((pieceIndex + 1) * pieceLength stream))
    by (unfold isLong, Long_MIN_VALUE, Long_MAX_VALUE; lia).
  rewrite (toLong_small ((pieceIndex + 1) * pieceLength stream - globalOffset))
    by (unfold isLong, Long_MIN_VALUE, Long_MAX_VALUE; lia).
  set (maxInPiece := Z.max 1 _).
  set (chunkSize := Z.min requested (Z.min maxInPiece IO_CHUNK_SIZE)).
  assert (Hchunk : 1 <= chunkSize <= requested).
  { unfold chunkSize, maxInPiece, IO_CHUNK_SIZE. lia. }
  rewrite (toInt_small chunkSize) by (unfold isInt, Int_MIN_VALUE, Int_MAX_VALUE; lia).
  rewrite Hfile.
  assert (Hk : length (take (Z.to_nat chunkSize)
                         (drop (Z.to_nat (offsetInFile t)) data))
               = Z.to_nat chunkSize).
  { apply length_take_le. rewrite length_drop. unfold requested in *. lia. }
  destruct (take (Z.to_nat chunkSize) (drop (Z.to_nat (offsetInFile t)) data))
    as [|b bytes] eqn:Htake.
  { simpl in Hk. lia. }
  eexists _, (Z.to_nat chunkSize). rewrite Htake.
  split; [reflexivity|]. rewrite Hk. cbn [offsetInFile remaining source].
  rewrite Z2Nat.id by lia.
  rewrite (toLong_small (offsetInFile t + chunkSize))
    by (unfold isLong, Long_MIN_VALUE, Long_MAX_VALUE; unfold requested in *; lia).
  rewrite (toLong_small (remaining t - chunkSize))
    by (unfold isLong, Long_MIN_VALUE, Long_MAX_VALUE; unfold requested in *; lia).
  unfold requested in *.
  split; [reflexivity|]. split; [lia|]. split; [lia|]. split; [lia|].
  split; [reflexivity|]. split; [reflexivity|]. split; [exact Hserv' | exact Hsz'].
Qed.

(** Sending a fixed-length body from a servable stream delivers the bytes
    of the file from the offset on, as many as are pending. *)
Lemma sendBody_delivers (env : ReadEnv) (data : list Byte.byte) (fuel : nat) :
  forall (t : TorrentInputStream) (pending : Z),
    servable env data (source t) ->
    0 <= offsetInFile t -> 0 <= remaining t ->
    offsetInFile t + remaining t <= fileSize (source t) ->
    pending = remaining t -> (Z.to_nat pending <= fuel)%nat ->
    sendBody env fuel t pending =
    take (Z.to_nat pending) (drop (Z.to_nat (offsetInFile t)) data).
Proof.
  induction fuel as [|fuel IH]; intros t pending Hserv Hoff Hrem Hfit Hpend Hfuel.
  - replace (Z.to_nat pending) with 0%nat by lia. reflexivity.
  - cbn [sendBody]. destruct (pending <=? 0) eqn:E.
    { apply Z.leb_le in E. replace (Z.to_nat pending) with 0%nat by lia. reflexivity. }
    apply Z.leb_gt in E.
    pose proof Hserv as (_ & _ & _ & (_ & _ & Hfo & _ & Hsum & _) & _).
    unfold Long_MAX_VALUE in Hsum.
    rewrite (toInt_small (Z.min pending (16 * 1024)))
      by (unfold isInt, Int_MIN_VALUE, Int_MAX_VALUE; lia).
    destruct (read_chunk env data t (Z.min pending (16 * 1024)) Hserv Hoff)
      as (t' & k & Hread & Hlen & Hk1 & Hk2 & Hk3 & Hoff' & Hrem' & Hserv' & Hsize');
      [lia | exact Hfit | unfold Int_MAX_VALUE; lia |].
    rewrite Hread, Hlen.
    rewrite (toLong_small (pending - Z.of_nat k))
      by (unfold isLong, Long_MIN_VALUE, Long_MAX_VALUE; lia).
    rewrite (IH t' (pending - Z.of_nat k)) by (try assumption; lia).
    rewrite Hoff'.
    replace (Z.to_nat (offsetInFile t + Z.of_nat k))
      with (Z.to_nat (offsetInFile t) + k)%nat by lia.
    rewrite <- drop_drop, take_take_drop. f_equal. lia.
Qed.

(** The Range header of [rangeRequest] parses to the range asked for. *)
Lemma rangeRequest_parsed (stream : ActiveTorrentStream) (sid : string)
    (others : gmap string string) (start end_ : Z) :
  isLong (fileSize stream) ->
  0 <= start <= end_ -> end_ < fileSize stream ->
  parseRangeHeader
    (headers (rangeRequest sid (Long_toString start) (Long_toString end_) others)
       !! "range") (fileSize stream) = Some (start, end_).
Proof.
  intros Hlong Hse Hef. unfold rangeRequest. cbn [headers].
  assert (HL : isLong start /\ isLong end_)
    by (unfold isLong, Long_MIN_VALUE, Long_MAX_VALUE in *; lia).
  destruct HL as [HLs HLe].
  assert (Hds : isDecimalOf (Long_toString start) start)
    by (apply Long_toString_decimal; unfold isLong, Long_MAX_VALUE in *; lia).
  assert (Hde : isDecimalOf (Long_toString end_) end_)
    by (apply Long_toString_decimal; unfold isLong, Long_MAX_VALUE in *; lia).
  rewrite lookup_insert_eq.
  rewrite (parseRangeHeader_closed _ _ start end_) by (assumption || lia).
  rewrite (toLongOrNull_decimal _ _ Hds) by (unfold isLong in HLs; lia).
  rewrite (toLongOrNull_decimal _ _ Hde) by (unfold isLong in HLe; lia).
  rewrite rangeWithin_inside by (assumption || lia).
  f_equal. f_equal. lia.
Qed.

(** Once the file is downloaded, the body sent for
    [Range: bytes={start}-{end}] is the bytes [start .. end] of the file:
    [end - start + 1] of them. *)
Lemma range_request_body (env : ReadEnv) (data : list Byte.byte) (fuel : nat)
    (streams : gmap string ActiveTorrentStream) (sid : string)
    (stream : ActiveTorrentStream) (others : gmap string string) (start end_ : Z) :
  streams !! sid = Some stream ->
  substringBefore sid "/" = sid ->
  servable env data stream ->
  0 <= start <= end_ -> end_ < fileSize stream ->
  (Z.to_nat (end_ - start + 1) <= fuel)%nat ->
  let sent := sentBody env fuel
                (serve streams
                   (rangeRequest sid (Long_toString start) (Long_toString end_) others)) in
  sent = take (Z.to_nat (end_ - start + 1)) (drop (Z.to_nat start) data) /\
  Z.of_nat (length sent) = end_ - start + 1.
Proof.
  intros Hreg Hsid Hserv Hse Hef Hfuel sent.
  pose proof Hserv as (_ & _ & _ & (_ & _ & Hfo & Hfsz & Hsum & _) & _ & Hdata).
  assert (Hlong : isLong (fileSize stream))
    by (unfold isLong, Long_MIN_VALUE, Long_MAX_VALUE in *; lia).
  assert (Hsent : sent = take (Z.to_nat (end_ - start + 1)) (drop (Z.to_nat start) data)).
  { unfold sent, rangeRequest.
    rewrite (serve_parsed streams sid stream _ start end_ Hreg Hsid Hlong)
      by (apply (rangeRequest_parsed stream sid others start end_ Hlong Hse Hef)).
    unfold sentBody. cbn [body].
    apply (sendBody_delivers env data fuel (openInputStream stream start (end_ - start + 1)));
      cbn [source offsetInFile remaining openInputStream];
      (assumption || reflexivity || lia). }
  split; [exact Hsent|]. rewrite Hsent, length_take_le; [lia|].
  rewrite length_drop. lia.
Qed.

(** C1. For every byte range with [0 <= start <= end < fileSize], a GET
    with [Range: bytes={start}-{end}] on [/torrent/{streamId}] of a
    registered stream is answered 206 with
    [Content-Range: bytes {start}-{end}/{fileSize}] and a body of exactly
    [end - start + 1] bytes: that is the length of the fixed-length
    response and of its [Content-Length], and once the file is downloaded
    it is the number of bytes sent. *)
Theorem range_request_partial_content
    (streams : gmap string ActiveTorrentStream) (sid : string)
    (stream : ActiveTorrentStream) (others : gmap string string) (start end_ : Z) :
  streams !! sid = Some stream ->
  substringBefore sid "/" = sid ->
  isLong (fileSize stream) ->
  0 <= start <= end_ -> end_ < fileSize stream ->
  let r := serve streams
             (rangeRequest sid (Long_toString start) (Long_toString end_) others) in
  requestStatus (status r) = 206 /\
  responseHeaders r !! "Content-Range" =
    Some ("bytes " +:+ Long_toString start +:+ "-" +:+ Long_toString end_ +:+
          "/" +:+ Long_toString (fileSize stream)) /\
  responseHeaders r !! "Content-Length" = Some (Long_toString (end_ - start + 1)) /\
  body r = StreamBody stream start (end_ - start + 1) /\
  bodyLength r = end_ - start + 1 /\
  (forall env data fuel,
     servable env data stream -> (Z.to_nat (end_ - start + 1) <= fuel)%nat ->
     sentBody env fuel r = take (Z.to_nat (end_ - start + 1)) (drop (Z.to_nat start) data) /\
     Z.of_nat (length (sentBody env fuel r)) = end_ - start + 1).
Proof.
  intros Hreg Hsid Hlong Hse Hef r.
  assert (Hr : r = {| status := PARTIAL_CONTENT;
                      mimeType := guessMimeType (fileName stream);
                      body := StreamBody stream start (end_ - start + 1);
                      responseHeaders :=
                        <["Content-Range" :=
                            "bytes " +:+ Long_toString start +:+ "-" +:+
                            Long_toString end_ +:+ "/" +:+
                            Long_toString (fileSize stream)]>
                        (<["Connection" := "keep-alive"]>
                         (<["Content-Length" := Long_toString (end_ - start + 1)]>
                          (<["Accept-Ranges" := "bytes"]> ∅))) |}).
  { unfold r, rangeRequest.
    apply (serve_parsed streams sid stream _ start end_ Hreg Hsid Hlong).
    apply (rangeRequest_parsed stream sid others start end_ Hlong Hse Hef). }
  split; [now rewrite Hr|]. split; [rewrite Hr; apply lookup_insert_eq|].
  split.
  { rewrite Hr. cbn [responseHeaders].
    rewrite lookup_insert_ne by discriminate.
    rewrite lookup_insert_ne by discriminate. apply lookup_insert_eq. }
  split; [now rewrite Hr|]. split; [now rewrite Hr|].
  intros env data fuel Hserv Hfuel.
  exact (range_request_body env data fuel streams sid stream others start end_
           Hreg Hsid Hserv Hse Hef Hfuel).
Qed.

Lemma range_request_partial_content_witness :
  smallRegistry !! streamId smallStream = Some smallStream /\
  0 <= 10 <= 19 /\ 19 < fileSize smallStream /\
  servable smallEnv smallData smallStream /\
  let r := serve smallRegistry
             (rangeRequest (streamId smallStream) (Long_toString 10) (Long_toString 19) ∅) in
  requestStatus (status r) = 206 /\
  responseHeaders r !! "Content-Range" = Some "bytes 10-19/100" /\
  bodyLength r = 10 /\
  Z.of_nat (length (sentBody smallEnv 10 r)) = 10.
Proof.
  assert (Hreg : smallRegistry !! streamId smallStream = Some smallStream)
    by apply lookup_singleton_eq.
  assert (Hserv : servable smallEnv smallData smallStream).
  { split; [unfold inBudget; cbn; lia|].
    split; [unfold cursorsInFile; cbn; lia|].
    split; [split; [reflexivity | intros p _; split; reflexivity]|].
    split; [vm_compute; repeat split; first [reflexivity | discriminate]|].
    split; reflexivity. }
  split; [exact Hreg|]. split; [lia|]. split; [reflexivity|]. split; [exact Hserv|].
  destruct (range_request_partial_content smallRegistry (streamId smallStream)
              smallStream ∅ 10 19 Hreg eq_refl) as (H1 & H2 & _ & _ & H5 & H6).
  - unfold isLong. vm_compute. split; discriminate.
  - lia.
  - reflexivity.
  - cbv zeta. split; [exact H1|]. split; [exact H2|]. split; [exact H5|].
    destruct (H6 smallEnv smallData 10%nat Hserv) as [_ Hsent]; [vm_compute; lia|].
    exact Hsent.
Defined.

(** * Further properties *)

(** ** The playback server, all request forms *)

(** The answer to a GET or HEAD for a registered stream, in one formula:
    a parsed range is answered 206, no parsed range 200 with the whole
    file, and a file of no bytes 416. *)
Lemma serve_registered (streams : gmap string ActiveTorrentStream) (sid : string)
    (stream : ActiveTorrentStream) (m : Method) (hs : gmap string string) :
  isGetOrHead m = true ->
  streams !! sid = Some stream ->
  substringBefore sid "/" = sid ->
  isLong (fileSize stream) ->
  serve streams {| method := m; uri := "/torrent/" +:+ sid; headers := hs |} =
  match parseRangeHeader (hs !! "range") (fileSize stream) with
  | Some (first, last) =>
      {| status := PARTIAL_CONTENT;
         mimeType := guessMimeType (fileName stream);
         body := if isHead m then TextBody ""
                 else StreamBody stream first (last - first + 1);
         responseHeaders :=
           <["Content-Range" := "bytes " +:+ Long_toString first +:+ "-" +:+
                                Long_toString last +:+ "/" +:+
                                Long_toString (fileSize stream)]>
           (<["Connection" := "keep-alive"]>
            (<["Content-Length" := Long_toString (last - first + 1)]>
             (<["Accept-Ranges" := "bytes"]> ∅))) |}
  | None =>
      if fileSize stream <=? 0 then
        {| status := RANGE_NOT_SATISFIABLE;
           mimeType := "text/plain";
           body := TextBody "Requested range not satisfiable";
           responseHeaders :=
             <["Content-Range" := "bytes */" +:+ Long_toString (fileSize stream)]>
             (<["Accept-Ranges" := "bytes"]> ∅) |}
      else
        {| status := OK;
           mimeType := guessMimeType (fileName stream);
           body := if isHead m then TextBody ""
                   else StreamBody stream 0 (fileSize stream);
           responseHeaders :=
             <["Connection" := "keep-alive"]>
             (<["Content-Length" := Long_toString (fileSize stream)]>
              (<["Accept-Ranges" := "bytes"]> ∅)) |}
  end.
Proof.
  intros Hm Hreg Hsid Hlong.
  unfold serve. cbn [uri method headers].
  change (startsWith ("/torrent/" +:+ sid) "/torrent/") with true. cbn [negb].
  unfold serveTorrentRequest. cbn [uri method headers]. rewrite Hm. cbn [negb].
  change (removePrefix ("/torrent/" +:+ sid) "/torrent/") with sid.
  rewrite Hsid, Hreg.
  destruct (parseRangeHeader (hs !! "range") (fileSize stream)) as [[first last]|] eqn:Hparse.
  - destruct (parseRangeHeader_sound _ _ _ _ Hlong Hparse) as [Hfl Hlast].
    destruct (first <? 0) eqn:E1; [apply Z.ltb_lt in E1; lia|].
    destruct (last <? first) eqn:E2; [apply Z.ltb_lt in E2; lia|].
    destruct (fileSize stream <=? first) eqn:E3; [apply Z.leb_le in E3; lia|].
    cbn [orb].
    assert (Hlen : toLong (toLong (last - first) + 1) = last - first + 1).
    { unfold isLong, Long_MIN_VALUE, Long_MAX_VALUE in Hlong.
      rewrite (toLong_small (last - first))
        by (unfold isLong, Long_MIN_VALUE, Long_MAX_VALUE; lia).
      apply toLong_small. unfold isLong, Long_MIN_VALUE, Long_MAX_VALUE. lia. }
    rewrite Hlen. destruct (isHead m); reflexivity.
  - change (0 <? 0) with false. cbn [orb].
    destruct (fileSize stream <=? 0) eqn:E3.
    + rewrite orb_true_r. reflexivity.
    + apply Z.leb_gt in E3.
      assert (Hlast : toLong (fileSize stream - 1) = fileSize stream - 1).
      { apply toLong_small. unfold isLong, Long_MIN_VALUE, Long_MAX_VALUE in *. lia. }
      rewrite Hlast.
      destruct (fileSize stream - 1 <? 0) eqn:E2; [apply Z.ltb_lt in E2; lia|].
      cbn [orb].
      assert (Hlen : toLong (toLong (fileSize stream - 1 - 0) + 1) = fileSize stream).
      { replace (fileSize stream - 1 - 0) with (fileSize stream - 1) by lia.
        rewrite Hlast. replace (fileSize stream - 1 + 1) with (fileSize stream) by lia.
        now apply toLong_small. }
      rewrite Hlen. destruct (isHead m); reflexivity.
Qed.

(** X1. A HEAD is answered like the GET for the same URI and headers: the
    same status, the same response headers ([Content-Length] included) and
    the same MIME type; only the body differs, which for a 200 or 206 is
    empty. *)
Theorem head_mirrors_get (streams : gmap string ActiveTorrentStream) (path : string)
    (hs : gmap string string) :
  let get := serve streams {| method := GET; uri := path; headers := hs |} in
  let head := serve streams {| method := HEAD; uri := path; headers := hs |} in
  status head = status get /\
  responseHeaders head = responseHeaders get /\
  mimeType head = mimeType get /\
  (body head = body get \/ body head = TextBody "") /\
  (status get = OK \/ status get = PARTIAL_CONTENT -> body head = TextBody "").
Proof.
  cbv zeta. unfold serve. cbn [uri method headers].
  destruct (startsWith path "/torrent/"); cbn [negb];
    [|repeat split; [now left | intros [H | H]; discriminate H]].
  unfold serveTorrentRequest. cbn [uri method headers isGetOrHead isHead negb].
  destruct (streams !! _) as [stream|];
    [|repeat split; [now left | intros [H | H]; discriminate H]].
  destruct (parseRangeHeader _ _) as [[first last]|];
    destruct (_ || _);
    repeat split; try (now left); try (now right);
    try (intros [H | H]; discriminate H); reflexivity.
Qed.

(** X2. A GET without a Range header for a registered, non-empty file is
    answered 200 with [Accept-Ranges: bytes], [Content-Length: {fileSize}],
    [Connection: keep-alive], no [Content-Range], and the whole file as
    body: once the file is downloaded, exactly its bytes are sent. *)
Theorem no_range_whole_file (streams : gmap string ActiveTorrentStream) (sid : string)
    (stream : ActiveTorrentStream) (hs : gmap string string) :
  streams !! sid = Some stream ->
  substringBefore sid "/" = sid ->
  isLong (fileSize stream) -> 0 < fileSize stream ->
  hs !! "range" = None ->
  let r := serve streams {| method := GET; uri := "/torrent/" +:+ sid; headers := hs |} in
  requestStatus (status r) = 200 /\
  responseHeaders r !! "Accept-Ranges" = Some "bytes" /\
  responseHeaders r !! "Content-Length" = Some (Long_toString (fileSize stream)) /\
  responseHeaders r !! "Connection" = Some "keep-alive" /\
  responseHeaders r !! "Content-Range" = None /\
  body r = StreamBody stream 0 (fileSize stream) /\
  (forall env data fuel,
     servable env data stream -> (length data <= fuel)%nat ->
     sentBody env fuel r = data).
Proof.
  intros Hreg Hsid Hlong Hpos Hnone r.
  assert (Hr : r = {| status := OK;
                      mimeType := guessMimeType (fileName stream);
                      body := StreamBody stream 0 (fileSize stream);
                      responseHeaders :=
                        <["Connection" := "keep-alive"]>
                        (<["Content-Length" := Long_toString (fileSize stream)]>
                         (<["Accept-Ranges" := "bytes"]> ∅)) |}).
  { unfold r. rewrite (serve_registered streams sid stream GET hs eq_refl Hreg Hsid Hlong).
    rewrite Hnone. cbn [parseRangeHeader isHead].
    destruct (fileSize stream <=? 0) eqn:E; [apply Z.leb_le in E; lia | reflexivity]. }
  rewrite Hr. cbn [status responseHeaders body requestStatus].
  split; [reflexivity|].
  split; [now rewrite !lookup_insert_ne by discriminate; rewrite lookup_insert_eq|].
  split; [now rewrite lookup_insert_ne by discriminate; rewrite lookup_insert_eq|].
  split; [apply lookup_insert_eq|].
  split; [now rewrite !lookup_insert_ne by discriminate|].
  split; [reflexivity|].
  intros env data fuel Hserv Hfuel. unfold sentBody. cbn [body].
  pose proof Hserv as (_ & _ & _ & _ & _ & Hdata).
  rewrite (sendBody_delivers env data fuel (openInputStream stream 0 (fileSize stream))
             (fileSize stream));
    cbn [source offsetInFile remaining openInputStream];
    try assumption; try reflexivity; try lia.
  change (Z.to_nat 0) with 0%nat. rewrite drop_0. apply take_ge. lia.
Qed.

Lemma parseRangeHeader_open (a : string) (first fileSize : Z) :
  isDecimalOf a first -> 0 < fileSize ->
  parseRangeHeader (Some ("bytes=" +:+ a +:+ "-")) fileSize =
  match toLongOrNull a with
  | Some start => rangeWithin fileSize start (toLong (fileSize - 1))
  | None => None
  end.
Proof.
  intros Ha Hsize.
  assert (Hplain : allChars (fun c => negb (isWhitespace c)) (a +:+ "-") = true).
  { rewrite allChars_app. destruct Ha as (_ & Ha & _).
    rewrite (allChars_impl _ _ _ isDigit_not_whitespace Ha). reflexivity. }
  unfold parseRangeHeader.
  change (isBlank ("bytes=" +:+ a +:+ "-")) with false.
  change (startsWith ("bytes=" +:+ a +:+ "-") "bytes=") with true.
  change (removePrefix ("bytes=" +:+ a +:+ "-") "bytes=") with (a +:+ "-").
  destruct (fileSize <=? 0) eqn:E; [apply Z.leb_le in E; lia|]. simpl orb. cbv iota.
  rewrite (trim_plain _ Hplain). unfold split2.
  change (a +:+ "-") with (a +:+ String "-" "").
  rewrite cutAtFirst_app
    by (destruct Ha as (_ & Ha & _); exact (allChars_impl _ _ _ isDigit_not_dash Ha)).
  rewrite (trim_decimal _ _ Ha), (isBlank_decimal _ _ Ha).
  change (isBlank (trim "")) with true. cbv iota. reflexivity.
Qed.

Lemma parseRangeHeader_suffix (b : string) (count fileSize : Z) :
  isDecimalOf b count -> 0 < fileSize ->
  parseRangeHeader (Some ("bytes=-" +:+ b)) fileSize =
  match toLongOrNull b with
  | Some suffixLength =>
      if suffixLength <=? 0 then None
      else rangeWithin fileSize (Z.max 0 (toLong (fileSize - suffixLength)))
                       (toLong (fileSize - 1))
  | None => None
  end.
Proof.
  intros Hb Hsize.
  assert (Hplain : allChars (fun c => negb (isWhitespace c)) ("-" +:+ b) = true).
  { rewrite allChars_app. destruct Hb as (_ & Hb & _).
    rewrite (allChars_impl _ _ _ isDigit_not_whitespace Hb). reflexivity. }
  unfold parseRangeHeader.
  change (isBlank ("bytes=-" +:+ b)) with false.
  change (startsWith ("bytes=-" +:+ b) "bytes=") with true.
  change (removePrefix ("bytes=-" +:+ b) "bytes=") with ("-" +:+ b).
  destruct (fileSize <=? 0) eqn:E; [apply Z.leb_le in E; lia|]. simpl orb. cbv iota.
  rewrite (trim_plain _ Hplain). unfold split2.
  change (cutAtFirst "-" ("-" +:+ b)) with (Some (EmptyString, b)). cbv iota.
  change (isBlank (trim "")) with true. cbv iota.
  rewrite (trim_decimal _ _ Hb). reflexivity.
Qed.

(** X3. The two other range forms. [bytes={start}-] with [start] inside the
    file is answered 206 for the bytes from [start] to the end of the file.
    [bytes=-{n}] with [n >= 1] is answered 206 for the last [n] bytes, or
    for the whole file when it has fewer; [bytes=-0] is not a range, and
    is answered 200 with the whole file. *)
Theorem open_and_suffix_ranges (streams : gmap string ActiveTorrentStream) (sid : string)
    (stream : ActiveTorrentStream) :
  streams !! sid = Some stream ->
  substringBefore sid "/" = sid ->
  isLong (fileSize stream) -> 0 < fileSize stream ->
  let get (range : string) :=
    serve streams {| method := GET; uri := "/torrent/" +:+ sid;
                     headers := {[ "range" := range ]} |} in
  (forall start, 0 <= start < fileSize stream ->
     let r := get ("bytes=" +:+ Long_toString start +:+ "-") in
     requestStatus (status r) = 206 /\
     body r = StreamBody stream start (fileSize stream - start) /\
     responseHeaders r !! "Content-Range" =
       Some ("bytes " +:+ Long_toString start +:+ "-" +:+
             Long_toString (fileSize stream - 1) +:+ "/" +:+
             Long_toString (fileSize stream))) /\
  (forall n, 1 <= n <= Long_MAX_VALUE ->
     let r := get ("bytes=-" +:+ Long_toString n) in
     requestStatus (status r) = 206 /\
     body r = StreamBody stream (Z.max 0 (fileSize stream - n))
                (Z.min n (fileSize stream)) /\
     responseHeaders r !! "Content-Range" =
       Some ("bytes " +:+ Long_toString (Z.max 0 (fileSize stream - n)) +:+ "-" +:+
             Long_toString (fileSize stream - 1) +:+ "/" +:+
             Long_toString (fileSize stream))) /\
  (let r := get "bytes=-0" in
   requestStatus (status r) = 200 /\ body r = StreamBody stream 0 (fileSize stream)).
Proof.
  intros Hreg Hsid Hlong Hpos get.
  assert (Hsz : fileSize stream <= Long_MAX_VALUE) by (destruct Hlong; assumption).
  unfold Long_MAX_VALUE in *.
  assert (Hlast : toLong (fileSize stream - 1) = fileSize stream - 1)
    by (apply toLong_small; unfold isLong, Long_MIN_VALUE, Long_MAX_VALUE; lia).
  split; [|split].
  - intros start Hstart. cbv zeta. unfold get.
    rewrite (serve_registered streams sid stream GET _ eq_refl Hreg Hsid Hlong).
    rewrite lookup_singleton_eq.
    assert (Hds : isDecimalOf (Long_toString start) start)
      by (apply Long_toString_decimal; unfold Long_MAX_VALUE; lia).
    rewrite (parseRangeHeader_open _ start) by (assumption || lia).
    rewrite (toLongOrNull_decimal _ _ Hds) by (unfold Long_MAX_VALUE; lia).
    rewrite Hlast, rangeWithin_inside by (assumption || lia).
    replace (Z.min (fileSize stream - 1) (fileSize stream - 1))
      with (fileSize stream - 1) by lia.
    cbn [status body responseHeaders requestStatus isHead].
    split; [reflexivity|]. split; [f_equal; lia | apply lookup_insert_eq].
  - intros n Hn. cbv zeta. unfold get.
    rewrite (serve_registered streams sid stream GET _ eq_refl Hreg Hsid Hlong).
    rewrite lookup_singleton_eq.
    assert (Hdn : isDecimalOf (Long_toString n) n)
      by (apply Long_toString_decimal; unfold Long_MAX_VALUE; lia).
    rewrite (parseRangeHeader_suffix _ n) by (assumption || lia).
    rewrite (toLongOrNull_decimal _ _ Hdn) by (unfold Long_MAX_VALUE; lia).
    destruct (n <=? 0) eqn:E; [apply Z.leb_le in E; lia|].
    rewrite (toLong_small (fileSize stream - n))
      by (unfold isLong, Long_MIN_VALUE, Long_MAX_VALUE; lia).
    rewrite Hlast, rangeWithin_inside by (assumption || lia).
    replace (Z.min (fileSize stream - 1) (fileSize stream - 1))
      with (fileSize stream - 1) by lia.
    cbn [status body responseHeaders requestStatus isHead].
    split; [reflexivity|]. split; [f_equal; lia | apply lookup_insert_eq].
  - cbv zeta. unfold get.
    rewrite (serve_registered streams sid stream GET _ eq_refl Hreg Hsid Hlong).
    rewrite lookup_singleton_eq.
    assert (Hparse : parseRangeHeader (Some "bytes=-0") (fileSize stream) = None).
    { change "bytes=-0" with ("bytes=-" +:+ Long_toString 0).
      rewrite (parseRangeHeader_suffix _ 0)
        by (try lia; apply Long_toString_decimal; unfold Long_MAX_VALUE; lia).
      reflexivity. }
    rewrite Hparse.
    destruct (fileSize stream <=? 0) eqn:E; [apply Z.leb_le in E; lia|].
    split; reflexivity.
Qed.

(** X4. Whatever the Range header of a GET or HEAD for a registered stream
    says, a 206 answer is for a non-empty range inside the file: its
    [Content-Range] names [first] and [last] with
    [0 <= first <= last < fileSize], its [Content-Length] is
    [last - first + 1], and the body of the GET is exactly that part of
    the file. *)
Theorem partial_content_inside_file (streams : gmap string ActiveTorrentStream)
    (sid : string) (stream : ActiveTorrentStream) (m : Method) (hs : gmap string string) :
  isGetOrHead m = true ->
  streams !! sid = Some stream ->
  substringBefore sid "/" = sid ->
  isLong (fileSize stream) ->
  let r := serve streams {| method := m; uri := "/torrent/" +:+ sid; headers := hs |} in
  status r = PARTIAL_CONTENT ->
  exists first last,
    0 <= first <= last /\ last < fileSize stream /\
    responseHeaders r !! "Content-Range" =
      Some ("bytes " +:+ Long_toString first +:+ "-" +:+ Long_toString last +:+
            "/" +:+ Long_toString (fileSize stream)) /\
    responseHeaders r !! "Content-Length" = Some (Long_toString (last - first + 1)) /\
    (m = GET -> body r = StreamBody stream first (last - first + 1)).
Proof.
  intros Hm Hreg Hsid Hlong r. unfold r.
  rewrite (serve_registered streams sid stream m hs Hm Hreg Hsid Hlong).
  destruct (parseRangeHeader (hs !! "range") (fileSize stream)) as [[first last]|] eqn:Hparse.
  - intros _. destruct (parseRangeHeader_sound _ _ _ _ Hlong Hparse) as [Hfl Hlast].
    exists first, last. cbn [responseHeaders body].
    split; [exact Hfl|]. split; [exact Hlast|].
    split; [apply lookup_insert_eq|].
    split; [now rewrite !lookup_insert_ne by discriminate; rewrite lookup_insert_eq|].
    intros ->. reflexivity.
  - destruct (fileSize stream <=? 0); discriminate.
Qed.

(** X5. A GET or HEAD for a registered stream is answered 200, 206 or 416,
    and 416 exactly when the file has no bytes: no Range header, however
    far out of bounds, makes a non-empty file unsatisfiable. *)
Theorem unsatisfiable_only_when_empty (streams : gmap string ActiveTorrentStream)
    (sid : string) (stream : ActiveTorrentStream) (m : Method) (hs : gmap string string) :
  isGetOrHead m = true ->
  streams !! sid = Some stream ->
  substringBefore sid "/" = sid ->
  isLong (fileSize stream) ->
  let r := serve streams {| method := m; uri := "/torrent/" +:+ sid; headers := hs |} in
  (status r = OK \/ status r = PARTIAL_CONTENT \/ status r = RANGE_NOT_SATISFIABLE) /\
  (status r = RANGE_NOT_SATISFIABLE <-> fileSize stream <= 0) /\
  (status r = RANGE_NOT_SATISFIABLE ->
   responseHeaders r !! "Content-Range" =
     Some ("bytes */" +:+ Long_toString (fileSize stream))).
Proof.
  intros Hm Hreg Hsid Hlong r. unfold r.
  rewrite (serve_registered streams sid stream m hs Hm Hreg Hsid Hlong).
  destruct (parseRangeHeader (hs !! "range") (fileSize stream)) as [[first last]|] eqn:Hparse.
  - destruct (parseRangeHeader_sound _ _ _ _ Hlong Hparse) as [Hfl Hlast].
    cbn [status]. split; [right; now left|]. split; [|discriminate].
    split; [discriminate | intros; lia].
  - destruct (fileSize stream <=? 0) eqn:E; cbn [status responseHeaders].
    + apply Z.leb_le in E. split; [right; now right|]. split; [easy|].
      intros _. apply lookup_insert_eq.
    + apply Z.leb_gt in E. split; [now left|]. split; [|discriminate].
      split; [discriminate | intros; lia].
Qed.

(** The stream id of a request is what lies between [/torrent/] and the
    next slash. *)
Lemma request_stream_id (sid rest : string) :
  allChars (isNot "/") sid = true ->
  substringBefore sid "/" = sid /\
  substringBefore (sid +:+ String "/" rest) "/" = sid.
Proof.
  intros Hsid. unfold substringBefore.
  rewrite (cutAtFirst_absent _ _ Hsid), (cutAtFirst_app _ _ _ Hsid). easy.
Qed.

(** X6. Anything after the stream id in the path is ignored: a request for
    [/torrent/{streamId}/{rest}] is answered like the one for
    [/torrent/{streamId}]. *)
Theorem path_after_stream_id_ignored (streams : gmap string ActiveTorrentStream)
    (sid rest : string) (m : Method) (hs : gmap string string) :
  allChars (isNot "/") sid = true ->
  serve streams {| method := m; uri := "/torrent/" +:+ sid +:+ String "/" rest;
                   headers := hs |} =
  serve streams {| method := m; uri := "/torrent/" +:+ sid; headers := hs |}.
Proof.
  intros Hsid. destruct (request_stream_id sid rest Hsid) as [H1 H2].
  unfold serve. cbn [uri method headers].
  change (startsWith ("/torrent/" +:+ sid +:+ String "/" rest) "/torrent/") with true.
  change (startsWith ("/torrent/" +:+ sid) "/torrent/") with true. cbn [negb].
  unfold serveTorrentRequest. cbn [uri method headers].
  change (removePrefix ("/torrent/" +:+ sid +:+ String "/" rest) "/torrent/")
    with (sid +:+ String "/" rest).
  change (removePrefix ("/torrent/" +:+ sid) "/torrent/") with sid.
  rewrite H1, H2. reflexivity.
Qed.

(** X7. Once a stream is stopped its URL is gone: after [stopStream] of an
    id, and after [stopAllStreams] for every id, a GET or HEAD for
    [/torrent/{id}] is answered 404, with a plain text body and no
    headers; any other method is answered 405, registered or not. *)
Theorem stopped_stream_not_found (st : ModuleState) (sid : string) (m : Method)
    (hs : gmap string string) :
  substringBefore sid "/" = sid ->
  let request := {| method := m; uri := "/torrent/" +:+ sid; headers := hs |} in
  let afterStop := serve (activeStreams (stopStream sid st).1) request in
  let afterStopAll := serve (activeStreams (stopAllStreams st).1) request in
  (isGetOrHead m = true ->
   afterStop = newFixedLengthResponse NOT_FOUND "text/plain" (TextBody "Stream not found") /\
   afterStopAll = afterStop) /\
  (isGetOrHead m = false ->
   requestStatus (status (serve (activeStreams st) request)) = 405 /\
   requestStatus (status afterStop) = 405).
Proof.
  intros Hsid. cbv zeta. unfold serve. cbn [uri method headers].
  change (startsWith ("/torrent/" +:+ sid) "/torrent/") with true. cbn [negb].
  unfold serveTorrentRequest. cbn [uri method headers].
  change (removePrefix ("/torrent/" +:+ sid) "/torrent/") with sid.
  rewrite Hsid. split; intros Hm; rewrite Hm; cbn [negb].
  - rewrite stopStream_registry, lookup_delete_eq.
    unfold stopAllStreams. cbn [fst].
    rewrite stopAllStreamsLocked_empty, lookup_empty. easy.
  - split; reflexivity.
Qed.

(** The sample stream is registered, its id has no slash, and its file is
    complete on disk. *)
Lemma smallRegistry_lookup : smallRegistry !! streamId smallStream = Some smallStream.
Proof. apply lookup_singleton_eq. Qed.

Lemma smallStream_isLong : isLong (fileSize smallStream).
Proof. unfold isLong. vm_compute. split; discriminate. Qed.

Lemma smallStream_servable : servable smallEnv smallData smallStream.
Proof.
  split; [unfold inBudget; cbn; lia|].
  split; [unfold cursorsInFile; cbn; lia|].
  split; [split; [reflexivity | intros p _; split; reflexivity]|].
  split; [vm_compute; repeat split; first [reflexivity | discriminate]|].
  split; reflexivity.
Qed.

Lemma no_range_whole_file_witness :
  let r := serve smallRegistry
             {| method := GET; uri := "/torrent/" +:+ streamId smallStream; headers := ∅ |} in
  requestStatus (status r) = 200 /\
  responseHeaders r !! "Content-Length" = Some "100" /\
  sentBody smallEnv 100 r = smallData.
Proof.
  destruct (no_range_whole_file smallRegistry (streamId smallStream) smallStream ∅
              smallRegistry_lookup eq_refl smallStream_isLong)
    as (H1 & _ & H3 & _ & _ & _ & H7).
  - reflexivity.
  - apply lookup_empty.
  - cbv zeta. split; [exact H1|]. split; [exact H3|].
    apply H7; [exact smallStream_servable | vm_compute; lia].
Defined.

Lemma open_and_suffix_ranges_witness :
  let get (range : string) :=
    serve smallRegistry {| method := GET; uri := "/torrent/" +:+ streamId smallStream;
                           headers := {[ "range" := range ]} |} in
  body (get "bytes=40-") = StreamBody smallStream 40 60 /\
  body (get "bytes=-30") = StreamBody smallStream 70 30 /\
  body (get "bytes=-500") = StreamBody smallStream 0 100 /\
  requestStatus (status (get "bytes=-0")) = 200.
Proof.
  destruct (open_and_suffix_ranges smallRegistry (streamId smallStream) smallStream
              smallRegistry_lookup eq_refl smallStream_isLong)
    as (Hopen & Hsuffix & Hzero).
  - reflexivity.
  - cbv zeta.
    split; [apply (Hopen 40); vm_compute; split; [discriminate | reflexivity]|].
    split; [apply (Hsuffix 30); vm_compute; split; discriminate|].
    split; [apply (Hsuffix 500); vm_compute; split; discriminate|].
    apply Hzero.
Defined.

Lemma partial_content_inside_file_witness :
  let r := serve smallRegistry
             {| method := GET; uri := "/torrent/" +:+ streamId smallStream;
                headers := {[ "range" := "bytes=10-19" ]} |} in
  status r = PARTIAL_CONTENT /\
  exists first last,
    0 <= first <= last /\ last < 100 /\
    responseHeaders r !! "Content-Length" = Some (Long_toString (last - first + 1)) /\
    body r = StreamBody smallStream first (last - first + 1).
Proof.
  cbv zeta.
  assert (Hstatus : status (serve smallRegistry
                              {| method := GET; uri := "/torrent/" +:+ streamId smallStream;
                                 headers := {[ "range" := "bytes=10-19" ]} |})
                    = PARTIAL_CONTENT) by reflexivity.
  split; [exact Hstatus|].
  destruct (partial_content_inside_file smallRegistry (streamId smallStream) smallStream
              GET {[ "range" := "bytes=10-19" ]} eq_refl smallRegistry_lookup eq_refl
              smallStream_isLong Hstatus)
    as (first & last & H1 & H2 & _ & H4 & H5).
  exists first, last. split; [exact H1|]. split; [exact H2|]. split; [exact H4|].
  exact (H5 eq_refl).
Defined.

Lemma unsatisfiable_only_when_empty_witness :
  let r := serve smallRegistry
             {| method := GET; uri := "/torrent/" +:+ streamId smallStream;
                headers := {[ "range" := "bytes=100-200" ]} |} in
  status r <> RANGE_NOT_SATISFIABLE.
Proof.
  cbv zeta. intros H.
  destruct (unsatisfiable_only_when_empty smallRegistry (streamId smallStream) smallStream
              GET {[ "range" := "bytes=100-200" ]} eq_refl smallRegistry_lookup eq_refl
              smallStream_isLong) as (_ & [Hempty _] & _).
  specialize (Hempty H). vm_compute in Hempty. apply Hempty. reflexivity.
Defined.

Lemma path_after_stream_id_ignored_witness :
  serve smallRegistry
    {| method := GET; uri := "/torrent/" +:+ streamId smallStream +:+ "/movie.mkv";
       headers := ∅ |} =
  serve smallRegistry
    {| method := GET; uri := "/torrent/" +:+ streamId smallStream; headers := ∅ |}.
Proof.
  apply (path_after_stream_id_ignored smallRegistry (streamId smallStream) "movie.mkv" GET ∅).
  reflexivity.
Defined.

Lemma stopped_stream_not_found_witness :
  requestStatus
    (status (serve (activeStreams (stopStream "first" oneStreamState).1)
               {| method := GET; uri := "/torrent/first"; headers := ∅ |})) = 404.
Proof.
  destruct (stopped_stream_not_found oneStreamState "first" GET ∅ eq_refl) as [Hget _].
  destruct (Hget eq_refl) as [Hstop _].
  change ("/torrent/" +:+ "first") with "/torrent/first" in Hstop.
  rewrite Hstop. reflexivity.
Defined.

(** ** The registry, all entry points *)

(** X8. [stopStream] of a registered id removes that id and no other from
    the registry, deletes the save directory of the stream and nothing
    else on disk, leaves the HTTP bridge as it is, and takes the torrent
    of the stream out of the session, which keeps running (when the engine
    raises on the removal the session is left as it was). *)
Theorem stop_stream_leaves_others (sid : string) (st : ModuleState)
    (s : ActiveTorrentStream) :
  activeStreams st !! sid = Some s ->
  let st' := (stopStream sid st).1 in
  activeStreams st' !! sid = None /\
  (forall other, other <> sid -> activeStreams st' !! other = activeStreams st !! other) /\
  httpServer st' = httpServer st /\
  disk st' = disk st ∖ {[saveDir s]} /\
  match sessionManager st, sessionManager st' with
  | None, None => True
  | Some sm, Some sm' =>
      isRunning sm' = isRunning sm /\ removeThrows sm' = removeThrows sm /\
      torrents sm' = torrents sm ∖ ({[handleId (handle s)]} ∖ removeThrows sm)
  | _, _ => False
  end.
Proof.
  intros Hreg st'. unfold st'.
  split; [rewrite stopStream_registry; apply lookup_delete_eq|].
  split; [intros other Hne; rewrite stopStream_registry; now apply lookup_delete_ne|].
  unfold stopStream. rewrite Hreg. cbn [fst].
  set (st1 := setActiveStreams st (delete sid (activeStreams st))).
  split; [apply (stopStreamLocked_keeps s true st1)|].
  split; [apply (stopStreamLocked_disk s st1)|].
  apply (stopStreamLocked_session s true st1).
Qed.

Lemma stop_stream_leaves_others_witness :
  let st' := (stopStream "first" oneStreamState).1 in
  activeStreams st' !! "first" = None /\
  httpServer st' = Some 38211 /\
  "cache/torrent-stream/c12fe1c06bba254a9dc9f519b335aa7c1367a88a" ∉ disk st'.
Proof.
  assert (Hreg : exists s, activeStreams oneStreamState !! "first" = Some s /\
                           saveDir s = "cache/torrent-stream/c12fe1c06bba254a9dc9f519b335aa7c1367a88a").
  { eexists. split; [vm_compute; reflexivity | reflexivity]. }
  destruct Hreg as (s & Hreg & Hdir).
  destruct (stop_stream_leaves_others "first" oneStreamState s Hreg)
    as (H1 & _ & H3 & H4 & _).
  cbv zeta. split; [exact H1|]. split; [rewrite H3; reflexivity|].
  rewrite H4, Hdir. apply not_elem_of_difference. right. now apply elem_of_singleton.
Defined.

(** X9. [stopAllStreams] resolves with [true] and leaves no stream
    registered. A directory is on disk afterwards exactly when it was
    before and is the save directory of no registered stream; the torrent
    of every registered stream is out of the session unless the engine
    raised on its removal. The HTTP bridge and the session keep running,
    and a second [stopAllStreams] changes nothing. *)
Theorem stop_all_streams_clears (st : ModuleState) :
  let st' := (stopAllStreams st).1 in
  (stopAllStreams st).2 = Resolved true /\
  activeStreams st' = ∅ /\
  httpServer st' = httpServer st /\
  (forall dir, dir ∈ disk st' <->
     dir ∈ disk st /\
     forall sid s, activeStreams st !! sid = Some s -> saveDir s <> dir) /\
  match sessionManager st, sessionManager st' with
  | None, None => True
  | Some sm, Some sm' =>
      isRunning sm' = isRunning sm /\
      forall sid s, activeStreams st !! sid = Some s ->
        handleId (handle s) ∉ removeThrows sm -> handleId (handle s) ∉ torrents sm'
  | _, _ => False
  end /\
  stopAllStreams st' = (st', Resolved true).
Proof.
  cbv zeta. unfold stopAllStreams. cbn [fst snd].
  split; [reflexivity|].
  split; [apply stopAllStreamsLocked_empty|].
  unfold stopAllStreamsLocked at 1 2 3 4.
  set (current := (map_to_list (activeStreams st)).*2).
  destruct (stop_fold true current (setActiveStreams st ∅)) as (_ & Hhttp & Hsm).
  split; [exact Hhttp|].
  split.
  { intros dir. rewrite stop_fold_disk. cbn [setActiveStreams disk].
    rewrite elem_of_difference, elem_of_list_to_set, list_elem_of_fmap.
    split.
    - intros [Hin Hnot]. split; [exact Hin|].
      intros sid s Hreg Hdir. apply Hnot. exists s. split; [now symmetry|].
      now apply (registered_in_values st sid).
    - intros [Hin Hnone]. split; [exact Hin|].
      intros (s & Hdir & Hs). unfold current in Hs.
      apply list_elem_of_fmap in Hs as ([sid s'] & Heq & Hs). cbn in Heq. subst s'.
      apply elem_of_map_to_list in Hs. now apply (Hnone sid s). }
  split.
  { cbn [setActiveStreams sessionManager] in Hsm.
    destruct (sessionManager st) as [sm|],
             (sessionManager (foldl _ _ current)) as [sm'|]; try easy.
    destruct Hsm as (Hrun & _ & Htor). split; [exact Hrun|].
    intros sid s Hreg Hthrows. rewrite Htor.
    assert (handleId (handle s) ∈
            (list_to_set ((fun s => handleId (handle s)) <$> current) : gset positive)).
    { apply elem_of_list_to_set, list_elem_of_fmap. exists s. split; [reflexivity|].
      now apply (registered_in_values st sid). }
    set_solver. }
  f_equal. fold (stopAllStreamsLocked true st).
  pose proof (stopAllStreamsLocked_empty true st) as Hempty.
  destruct (stopAllStreamsLocked true st) as [streams sm http d].
  cbn in Hempty. subst streams.
  unfold stopAllStreamsLocked. cbn [activeStreams].
  rewrite map_to_list_empty. reflexivity.
Qed.

(** ** Picking the file to play *)

Lemma fileScore_bounds (size : Z) (lowerPath : string) :
  0 <= size <= Long_MAX_VALUE ->
  size - 1200000000 <= fileScore size lowerPath <= size.
Proof.
  intros Hsize. unfold fileScore, Long_MAX_VALUE in *.
  destruct (contains lowerPath "/sample" || contains lowerPath "sample.");
    destruct (contains lowerPath "trailer");
    destruct (contains lowerPath "extras");
    destruct (contains lowerPath "featurette");
    rewrite ?toLong_small; unfold isLong, Long_MIN_VALUE, Long_MAX_VALUE;
    rewrite ?toLong_small; unfold isLong, Long_MIN_VALUE, Long_MAX_VALUE;
    rewrite ?toLong_small; unfold isLong, Long_MIN_VALUE, Long_MAX_VALUE;
    rewrite ?toLong_small; unfold isLong, Long_MIN_VALUE, Long_MAX_VALUE; lia.
Qed.

Lemma pickStep_fields (acc : PickState) (i : Z) (e : FileEntry) :
  bestIndex (pickStep acc i e) =
    (if isVideoEntry e && (bestScore acc <? entryScore e) then i else bestIndex acc) /\
  bestScore (pickStep acc i e) =
    (if isVideoEntry e && (bestScore acc <? entryScore e) then entryScore e else bestScore acc) /\
  fallbackLargestIndex (pickStep acc i e) =
    (if fallbackLargestSize acc <? entrySize e then i else fallbackLargestIndex acc) /\
  fallbackLargestSize (pickStep acc i e) =
    (if fallbackLargestSize acc <? entrySize e then entrySize e
     else fallbackLargestSize acc).
Proof.
  unfold pickStep, isVideoEntry, entryScore.
  destruct (fallbackLargestSize acc <? entrySize e);
    destruct (isLikelyVideoFile (lowercase (entryPath e))); cbn [negb andb];
    cbn [bestIndex bestScore fallbackLargestIndex fallbackLargestSize];
    try (repeat split; reflexivity);
    match goal with |- context [?a <? ?b] => destruct (a <? b) end;
    repeat split; reflexivity.
Qed.

Lemma pickLoop_best (files : list FileEntry) : forall (i : Z) (acc : PickState),
  let acc' := pickLoop i files acc in
  bestScore acc <= bestScore acc' /\
  (forall j e, files !! j = Some e -> isVideoEntry e = true -> entryScore e <= bestScore acc') /\
  ((bestIndex acc' = bestIndex acc /\ bestScore acc' = bestScore acc) \/
   exists (k : nat) e,
     files !! k = Some e /\ bestIndex acc' = i + Z.of_nat k /\ isVideoEntry e = true /\
     bestScore acc' = entryScore e /\ bestScore acc < entryScore e /\
     forall (j : nat) e', (j < k)%nat -> files !! j = Some e' -> isVideoEntry e' = true ->
                          entryScore e' < entryScore e).
Proof.
  induction files as [|e rest IH]; intros i acc; cbn [pickLoop].
  - split; [lia|]. split; [intros j e H; discriminate H|]. now left.
  - destruct (IH (i + 1) (pickStep acc i e)) as (Hle & Hall & Hcase).
    destruct (pickStep_fields acc i e) as (Hbi & Hbs & _ & _).
    assert (Hstep : bestScore acc <= bestScore (pickStep acc i e) /\
                    (isVideoEntry e = true -> entryScore e <= bestScore (pickStep acc i e))).
    { rewrite Hbs. destruct (isVideoEntry e); cbn [andb];
        [destruct (bestScore acc <? entryScore e) eqn:E;
           [apply Z.ltb_lt in E | apply Z.ltb_ge in E]; split; intros; lia
        | split; [lia | discriminate]]. }
    destruct Hstep as [Hstep1 Hstep2].
    split; [lia|]. split.
    { intros [|j] e' Hj Hv; cbn in Hj.
      - injection Hj as <-. specialize (Hstep2 Hv). lia.
      - now apply (Hall j). }
    destruct Hcase as [[Hi Hs] | (k & ek & Hk & Hi & Hv & Hs & Hlt & Hfirst)].
    + rewrite Hi, Hs, Hbi, Hbs.
      destruct (isVideoEntry e) eqn:Ev; cbn [andb]; [|now left].
      destruct (bestScore acc <? entryScore e) eqn:E; [|now left].
      apply Z.ltb_lt in E. right. exists 0%nat, e.
      split; [reflexivity|]. split; [lia|]. split; [exact Ev|].
      split; [reflexivity|]. split; [exact E|]. intros j e' Hj. lia.
    + right. exists (S k), ek.
      split; [exact Hk|]. split; [lia|]. split; [exact Hv|].
      split; [exact Hs|]. split; [lia|].
      intros [|j] e' Hjk Hj Hv'; cbn in Hj.
      * injection Hj as <-. specialize (Hstep2 Hv'). lia.
      * apply (Hfirst j); [lia | exact Hj | exact Hv'].
Qed.

Lemma pickLoop_fallback (files : list FileEntry) : forall (i : Z) (acc : PickState),
  let acc' := pickLoop i files acc in
  fallbackLargestSize acc <= fallbackLargestSize acc' /\
  (forall j e, files !! j = Some e -> entrySize e <= fallbackLargestSize acc') /\
  ((fallbackLargestIndex acc' = fallbackLargestIndex acc /\
    fallbackLargestSize acc' = fallbackLargestSize acc) \/
   exists (k : nat) e,
     files !! k = Some e /\ fallbackLargestIndex acc' = i + Z.of_nat k /\
     fallbackLargestSize acc' = entrySize e /\ fallbackLargestSize acc < entrySize e /\
     forall (j : nat) e', (j < k)%nat -> files !! j = Some e' ->
                          entrySize e' < entrySize e).
Proof.
  induction files as [|e rest IH]; intros i acc; cbn [pickLoop].
  - split; [lia|]. split; [intros j e H; discriminate H|]. now left.
  - destruct (IH (i + 1) (pickStep acc i e)) as (Hle & Hall & Hcase).
    destruct (pickStep_fields acc i e) as (_ & _ & Hfi & Hfs).
    assert (Hstep : fallbackLargestSize acc <= fallbackLargestSize (pickStep acc i e) /\
                    entrySize e <= fallbackLargestSize (pickStep acc i e)).
    { rewrite Hfs. destruct (fallbackLargestSize acc <? entrySize e) eqn:E;
        [apply Z.ltb_lt in E | apply Z.ltb_ge in E]; lia. }
    destruct Hstep as [Hstep1 Hstep2].
    split; [lia|]. split.
    { intros [|j] e' Hj; cbn in Hj.
      - injection Hj as <-. lia.
      - now apply (Hall j). }
    destruct Hcase as [[Hi Hs] | (k & ek & Hk & Hi & Hs & Hlt & Hfirst)].
    + rewrite Hi, Hs, Hfi, Hfs.
      destruct (fallbackLargestSize acc <? entrySize e) eqn:E; [|now left].
      apply Z.ltb_lt in E. right. exists 0%nat, e.
      split; [reflexivity|]. split; [lia|].
      split; [reflexivity|]. split; [exact E|]. intros j e' Hj. lia.
    + right. exists (S k), ek.
      split; [exact Hk|]. split; [lia|].
      split; [exact Hs|]. split; [lia|].
      intros [|j] e' Hjk Hj; cbn in Hj.
      * injection Hj as <-. lia.
      * apply (Hfirst j); [lia | exact Hj].
Qed.

(** What the loop of the picker returns, file names apart. *)
Lemma select_without_preference (info : TorrentInfo) :
  infoFiles info <> [] ->
  let acc := pickLoop 0 (infoFiles info)
               {| bestIndex := -1; bestScore := Long_MIN_VALUE;
                  fallbackLargestIndex := 0; fallbackLargestSize := Long_MIN_VALUE |} in
  selectPlayableFileIndex info None =
    if 0 <=? bestIndex acc then bestIndex acc else fallbackLargestIndex acc.
Proof.
  intros Hne. unfold selectPlayableFileIndex.
  destruct (infoFiles info) as [|e rest]; [easy|].
  destruct (Z.of_nat (length (e :: rest)) <=? 0) eqn:E; [|reflexivity].
  apply Z.leb_le in E. cbn [length] in E. lia.
Qed.

Lemma select_with_preference (info : TorrentInfo) (p : Z) :
  selectPlayableFileIndex info (Some p) =
    match infoFiles info !! Z.to_nat p with
    | Some entry =>
        if (0 <=? p) && isLikelyVideoFile (lowercase (entryPath entry))
        then p else selectPlayableFileIndex info None
    | None => selectPlayableFileIndex info None
    end.
Proof.
  unfold selectPlayableFileIndex.
  destruct (Z.of_nat (length (infoFiles info)) <=? 0) eqn:E.
  - apply Z.leb_le in E.
    destruct (infoFiles info) as [|e rest]; [|cbn [length] in E; lia].
    reflexivity.
  - destruct (0 <=? p) eqn:E0; cbn [andb].
    + apply Z.leb_le in E0.
      destruct (p <? Z.of_nat (length (infoFiles info))) eqn:E1.
      * destruct (infoFiles info !! Z.to_nat p) as [entry|]; [|reflexivity].
        destruct (isLikelyVideoFile _); reflexivity.
      * apply Z.ltb_ge in E1.
        rewrite (lookup_ge_None_2 (infoFiles info) (Z.to_nat p)) by lia. reflexivity.
    + destruct (infoFiles info !! Z.to_nat p); reflexivity.
Qed.

Lemma select_range (info : TorrentInfo) (preferredFileIndex : option Z) :
  infoFiles info <> [] ->
  0 <= selectPlayableFileIndex info preferredFileIndex < Z.of_nat (length (infoFiles info)).
Proof.
  - intros Hne.
    assert (Hnone : 0 <= selectPlayableFileIndex info None
                    < Z.of_nat (length (infoFiles info))).
    { rewrite (select_without_preference info Hne). cbv zeta.
      set (acc0 := {| bestIndex := -1; bestScore := Long_MIN_VALUE;
                      fallbackLargestIndex := 0; fallbackLargestSize := Long_MIN_VALUE |}).
      destruct (pickLoop_best (infoFiles info) 0 acc0) as (_ & _ & Hbest).
      destruct (pickLoop_fallback (infoFiles info) 0 acc0) as (_ & _ & Hfall).
      assert (Hlen : 0 < Z.of_nat (length (infoFiles info))).
      { destruct (infoFiles info); [easy | cbn [length]; lia]. }
      destruct (0 <=? bestIndex (pickLoop 0 (infoFiles info) acc0)) eqn:E.
      - apply Z.leb_le in E.
        destruct Hbest as [[Hi _] | (k & e & Hk & Hi & _)].
        + rewrite Hi in E. cbn in E. lia.
        + apply lookup_lt_Some in Hk. lia.
      - destruct Hfall as [[Hi _] | (k & e & Hk & Hi & _)].
        + rewrite Hi. cbn. lia.
        + apply lookup_lt_Some in Hk. lia. }
    destruct preferredFileIndex as [p|]; [|exact Hnone].
    rewrite select_with_preference.
    destruct (infoFiles info !! Z.to_nat p) as [entry|] eqn:Hp; [|exact Hnone].
    destruct (0 <=? p) eqn:E0; cbn [andb]; [|exact Hnone].
    destruct (isLikelyVideoFile _); [|exact Hnone].
    apply Z.leb_le in E0. apply lookup_lt_Some in Hp. lia.
Qed.

(** X10. The picker returns [-1] only for a torrent without files;
    otherwise its result is the index of a file of the torrent, whatever
    the preferred index is, so the [fs.filePath(selectedFileIndex)] that
    follows never reads outside the file list. *)
Theorem selected_file_in_range (info : TorrentInfo) (preferredFileIndex : option Z) :
  let r := selectPlayableFileIndex info preferredFileIndex in
  (infoFiles info = [] -> r = -1) /\
  (infoFiles info <> [] -> 0 <= r < Z.of_nat (length (infoFiles info))).
Proof.
  cbv zeta. split.
  - intros Hnil. unfold selectPlayableFileIndex. rewrite Hnil. reflexivity.
  - apply select_range.
Qed.

Lemma selected_file_in_range_witness :
  selectPlayableFileIndex sampleInfo (Some 7) = 0 /\
  0 <= selectPlayableFileIndex sampleInfo (Some 7) < 3.
Proof.
  split; [reflexivity|].
  apply (selected_file_in_range sampleInfo (Some 7)). discriminate.
Defined.

(** X11. A preferred file index is honoured exactly when it is the index
    of a file with a video extension (in any letter case); any other
    preferred index, out of range or of a file that is no video, is
    ignored and the picker answers as if none had been given. *)
Theorem preferred_file_honoured (info : TorrentInfo) (p : Z) :
  (isVideoAt info p -> selectPlayableFileIndex info (Some p) = p) /\
  (~ isVideoAt info p ->
   selectPlayableFileIndex info (Some p) = selectPlayableFileIndex info None).
Proof.
  rewrite select_with_preference. unfold isVideoAt. split.
  - intros (entry & Hp & H0 & Hv). rewrite Hp, Hv.
    apply Z.leb_le in H0. now rewrite H0.
  - intros Hnot. destruct (infoFiles info !! Z.to_nat p) as [entry|]; [|reflexivity].
    destruct (0 <=? p) eqn:E0; cbn [andb]; [|reflexivity].
    destruct (isLikelyVideoFile _) eqn:Ev; [|reflexivity].
    exfalso. apply Hnot. exists entry. apply Z.leb_le in E0. easy.
Qed.

Lemma preferred_file_honoured_witness :
  selectPlayableFileIndex sampleInfo (Some 1) = 1 /\
  selectPlayableFileIndex sampleInfo (Some 2) = selectPlayableFileIndex sampleInfo None.
Proof.
  destruct (preferred_file_honoured sampleInfo 1) as [H1 _].
  destruct (preferred_file_honoured sampleInfo 2) as [_ H2].
  split.
  - apply H1. eexists. split; [reflexivity|]. split; [lia | reflexivity].
  - apply H2. intros (entry & Hp & _ & Hv). cbn in Hp. injection Hp as <-.
    vm_compute in Hv. discriminate Hv.
Defined.

(** X12. Without a usable preferred index, a torrent that has a file with
    a video extension gets a video picked, never another file however
    large: the first one of the highest score (size minus the penalties
    for samples, trailers, extras and featurettes). Only a torrent without
    any video file falls back to its first largest file. *)
Theorem best_video_selected (info : TorrentInfo) :
  soundFiles info ->
  let r := selectPlayableFileIndex info None in
  ((exists i, isVideoAt info i) ->
   isVideoAt info r /\
   forall j, isVideoAt info j ->
     exists sj sr, scoreAt info j = Some sj /\ scoreAt info r = Some sr /\
                   sj <= sr /\ (j < r -> sj < sr)) /\
  ((forall i, ~ isVideoAt info i) -> infoFiles info <> [] ->
   exists er, infoFiles info !! Z.to_nat r = Some er /\ 0 <= r /\
     forall (j : nat) ej, infoFiles info !! j = Some ej ->
       entrySize ej <= entrySize er /\ (Z.of_nat j < r -> entrySize ej < entrySize er)).
Proof.
  intros Hsound r.
  set (acc0 := {| bestIndex := -1; bestScore := Long_MIN_VALUE;
                  fallbackLargestIndex := 0; fallbackLargestSize := Long_MIN_VALUE |}).
  destruct (pickLoop_best (infoFiles info) 0 acc0) as (_ & Hall & Hbest).
  destruct (pickLoop_fallback (infoFiles info) 0 acc0) as (_ & Hsizes & Hfall).
  unfold isVideoEntry, entryScore in Hall, Hbest.
  cbn [bestIndex bestScore fallbackLargestIndex fallbackLargestSize acc0] in Hbest, Hfall.
  assert (Hscore : forall j e, infoFiles info !! j = Some e ->
            Long_MIN_VALUE < fileScore (entrySize e) (lowercase (entryPath e)) /\
            Long_MIN_VALUE < entrySize e).
  { intros j e Hj. unfold soundFiles in Hsound. rewrite Forall_lookup in Hsound.
    specialize (Hsound j e Hj). cbn beta in Hsound.
    pose proof (fileScore_bounds (entrySize e) (lowercase (entryPath e)) Hsound) as Hb.
    unfold Long_MIN_VALUE, Long_MAX_VALUE in *. lia. }
  split.
  - intros (i & ei & Hi & Hi0 & Hvi).
    assert (Hne : infoFiles info <> []) by (intros Hnil; rewrite Hnil in Hi; discriminate Hi).
    pose proof (select_without_preference info Hne) as Hr. cbv zeta in Hr. fold acc0 in Hr.
    destruct Hbest as [[_ Hs] | (k & ek & Hk & Hidx & Hvk & Hs & _ & Hfirst)].
    { pose proof (Hall _ _ Hi Hvi) as Hle. rewrite Hs in Hle.
      destruct (Hscore _ _ Hi) as [Hlt _]. lia. }
    assert (Hrk : r = Z.of_nat k).
    { unfold r. rewrite Hr, Hidx.
      destruct (0 <=? 0 + Z.of_nat k) eqn:E; [lia | apply Z.leb_gt in E; lia]. }
    split.
    + exists ek. rewrite Hrk, Nat2Z.id. split; [exact Hk|]. split; [lia | exact Hvk].
    + intros j (ej & Hj & Hj0 & Hvj).
      exists (fileScore (entrySize ej) (lowercase (entryPath ej))),
             (fileScore (entrySize ek) (lowercase (entryPath ek))).
      unfold scoreAt. rewrite Hj, Hrk, Nat2Z.id, Hk. cbn.
      split; [reflexivity|]. split; [reflexivity|].
      pose proof (Hall _ _ Hj Hvj) as Hle. rewrite Hs in Hle.
      split; [exact Hle|]. intros Hlt.
      apply (Hfirst (Z.to_nat j) ej); [lia | exact Hj | exact Hvj].
  - intros Hnone Hne.
    pose proof (select_without_preference info Hne) as Hr. cbv zeta in Hr. fold acc0 in Hr.
    assert (Hbi : bestIndex (pickLoop 0 (infoFiles info) acc0) = -1).
    { destruct Hbest as [[Hi _] | (k & ek & Hk & _ & Hvk & _)]; [exact Hi|].
      exfalso. apply (Hnone (Z.of_nat k)). exists ek.
      rewrite Nat2Z.id. split; [exact Hk|]. split; [lia | exact Hvk]. }
    rewrite Hbi in Hr. cbn in Hr.
    destruct Hfall as [[_ Hs] | (k & ek & Hk & Hidx & Hs & _ & Hfirst)].
    { destruct (infoFiles info) as [|e0 rest] eqn:Hfiles; [easy|].
      pose proof (Hsizes 0%nat e0 eq_refl) as Hle. rewrite Hs in Hle.
      destruct (Hscore 0%nat e0 eq_refl) as [_ Hlt]. lia. }
    assert (Hrk : r = Z.of_nat k) by (unfold r; rewrite Hr, Hidx; lia).
    exists ek. rewrite Hrk, Nat2Z.id. split; [exact Hk|]. split; [lia|].
    intros j ej Hj. pose proof (Hsizes _ _ Hj) as Hle. rewrite Hs in Hle.
    split; [exact Hle|]. intros Hlt. apply (Hfirst j ej); [lia | exact Hj].
Qed.

Lemma best_video_selected_witness :
  soundFiles bundleInfo /\
  selectPlayableFileIndex bundleInfo None = 2 /\
  isVideoAt bundleInfo (selectPlayableFileIndex bundleInfo None).
Proof.
  assert (Hsound : soundFiles bundleInfo).
  { unfold soundFiles, bundleInfo, Long_MAX_VALUE. cbn [infoFiles].
    repeat (constructor; [cbn; lia|]). constructor. }
  split; [exact Hsound|]. split; [reflexivity|].
  destruct (best_video_selected bundleInfo Hsound) as [Hvideo _].
  apply Hvideo. exists 1. eexists. split; [reflexivity|]. split; [lia | reflexivity].
Defined.

(** X13. The picker and the MIME guess agree on what a video is: a path
    has one of the extensions [isLikelyVideoFile] looks for, in any letter
    case, exactly when [guessMimeType] gives it a [video/] type; every
    other path is served as [application/octet-stream]. *)
Theorem video_files_get_video_type (path : string) :
  (isLikelyVideoFile (lowercase path) = true <->
   startsWith (guessMimeType path) "video/" = true) /\
  (isLikelyVideoFile (lowercase path) = false <->
   guessMimeType path = "application/octet-stream").
Proof.
  unfold isLikelyVideoFile, guessMimeType. cbv zeta.
  destruct (endsWith (lowercase path) ".mkv"); [cbn; now intuition|].
  destruct (endsWith (lowercase path) ".mp4"); [cbn; now intuition|].
  destruct (endsWith (lowercase path) ".m4v"); [cbn; now intuition|].
  destruct (endsWith (lowercase path) ".webm");
    [cbn; rewrite ?orb_true_r; now intuition|].
  destruct (endsWith (lowercase path) ".avi"); [cbn; now intuition|].
  destruct (endsWith (lowercase path) ".mov"); [cbn; now intuition|].
  destruct (endsWith (lowercase path) ".ts"); [cbn; now intuition|].
  destruct (endsWith (lowercase path) ".m2ts"); [cbn; now intuition|].
  destruct (endsWith (lowercase path) ".mpg"); [cbn; now intuition|].
  destruct (endsWith (lowercase path) ".mpeg"); cbn; now intuition.
Qed.

(** X14. For the index the picker returns on a torrent with files,
    [prioritizeSelectedFile] does not raise and hands the engine one
    priority per file: [SEVEN] for the selected file and [IGNORE] for
    every other, so only the file that is played is downloaded. *)
Theorem selected_file_prioritised (info : TorrentInfo) (preferredFileIndex : option Z) :
  infoFiles info <> [] ->
  let r := selectPlayableFileIndex info preferredFileIndex in
  exists priorities,
    prioritizeSelectedFile info r = Some priorities /\
    length priorities = length (infoFiles info) /\
    forall i : nat, (i < length (infoFiles info))%nat ->
      priorities !! i = Some (if decide (Z.of_nat i = r) then SEVEN else IGNORE).
Proof.
  intros Hne r. pose proof (select_range info preferredFileIndex Hne) as Hr. fold r in Hr.
  unfold prioritizeSelectedFile.
  replace (Z.max 1 (Z.of_nat (length (infoFiles info))))
    with (Z.of_nat (length (infoFiles info))) by lia.
  destruct (0 <=? r) eqn:E0; [|apply Z.leb_gt in E0; lia].
  destruct (r <? Z.of_nat (length (infoFiles info))) eqn:E1; [|apply Z.ltb_ge in E1; lia].
  cbn [andb]. eexists. split; [reflexivity|].
  rewrite Nat2Z.id. split; [now rewrite length_insert, length_replicate|].
  intros i Hi. destruct (decide (Z.of_nat i = r)) as [Heq | Hneq].
  - rewrite <- Heq, Nat2Z.id. apply list_lookup_insert_eq. now rewrite length_replicate.
  - rewrite list_lookup_insert_ne by lia. now apply lookup_replicate_2.
Qed.

Lemma selected_file_prioritised_witness :
  prioritizeSelectedFile bundleInfo (selectPlayableFileIndex bundleInfo None)
  = Some [IGNORE; IGNORE; SEVEN; IGNORE].
Proof.
  destruct (selected_file_prioritised bundleInfo None) as (ps & Hps & _); [discriminate|].
  cbv zeta in Hps. rewrite Hps. vm_compute in Hps. injection Hps as <-. reflexivity.
Defined.

(** ** Preparing a stream, from the request to the first response *)

Lemma coerceIn_Some (v lo hi r : Z) : coerceIn v lo hi = Some r -> lo <= r <= hi.
Proof.
  unfold coerceIn.
  destruct (hi <? lo) eqn:E1; [discriminate|]. apply Z.ltb_ge in E1.
  destruct (v <? lo) eqn:E2; [intros [= <-]; lia|]. apply Z.ltb_ge in E2.
  destruct (hi <? v) eqn:E3; [intros [= <-]; lia|]. apply Z.ltb_ge in E3.
  intros [= <-]. lia.
Qed.

Lemma pieceGeometry_ordered (off size pl n : Z) (geo : PieceGeometry) :
  pieceGeometry off size pl n = Some geo -> geoFirstPiece geo <= geoLastPiece geo.
Proof.
  unfold pieceGeometry. cbv zeta.
  destruct (coerceIn _ 0 _) as [first|]; [|discriminate]. cbn.
  destruct (coerceIn _ first _) as [last|] eqn:Hlast; [|discriminate]. cbn.
  intros [= <-]. cbn. apply coerceIn_Some in Hlast. lia.
Qed.

(** After the first locked block of a prepare nothing is registered, the
    session runs and the bridge listens: on the port it had, or on the new
    one. *)
Lemma prepareStopPrior_started (res : Resolution) (st : ModuleState) :
  activeStreams (prepareStopPrior res st) = ∅ /\
  (exists sm, sessionManager (prepareStopPrior res st) = Some sm /\ isRunning sm = true) /\
  httpServer (prepareStopPrior res st) = Some (default (resPort res) (httpServer st)).
Proof.
  unfold prepareStopPrior.
  split; [apply stopAllStreamsLocked_empty|].
  set (st0 := ensureHttpServerStartedLocked (resPort res) (ensureSessionStartedLocked st)).
  assert (Hsm : exists sm, sessionManager st0 = Some sm /\ isRunning sm = true).
  { unfold st0, ensureHttpServerStartedLocked, ensureSessionStartedLocked.
    destruct (sessionManager st) as [sm|] eqn:Hsm; [destruct (isRunning sm) eqn:Hrun|];
      cbn [httpServer setSessionManager]; destruct (httpServer st);
      cbn [sessionManager setSessionManager setHttpServer]; eauto. }
  assert (Hhttp : httpServer st0 = Some (default (resPort res) (httpServer st))).
  { unfold st0, ensureHttpServerStartedLocked, ensureSessionStartedLocked.
    destruct (sessionManager st) as [sm|]; [destruct (isRunning sm)|];
      cbn [httpServer setSessionManager]; destruct (httpServer st) eqn:Hh;
      cbn; congruence. }
  unfold stopAllStreamsLocked.
  destruct (stop_fold true (map_to_list (activeStreams st0)).*2 (setActiveStreams st0 ∅))
    as (_ & Hh & Hs).
  cbn [setActiveStreams sessionManager httpServer] in Hh, Hs.
  split; [|now rewrite Hh].
  destruct Hsm as (sm & Hsm & Hrun). rewrite Hsm in Hs.
  destruct (sessionManager (foldl _ _ _)) as [sm'|]; [|easy].
  exists sm'. split; [reflexivity|]. destruct Hs as (Hr & _). congruence.
Qed.

(** What a successful resolution has looked up, and what it leaves. *)
Lemma prepareResolve_inr (res : Resolution) (mbps : option Double.t)
    (st st' : ModuleState) (s : ActiveTorrentStream) :
  prepareResolve res mbps st = (st', inr s) ->
  (exists h info entry,
     resHandle res = Some h /\ resTorrentInfo res = Some info /\
     0 <= resSelectedFileIndex res /\
     infoFiles info !! Z.to_nat (resSelectedFileIndex res) = Some entry /\
     handle s = h /\ fileIndex s = resSelectedFileIndex res /\
     fileSize s = entrySize entry /\
     fileName s = (if isBlank (entryPath entry) then "stream.bin" else entryPath entry)) /\
  streamId s = resStreamId res /\
  fileStartPiece s <= fileEndPiece s /\
  nextPrefetchPiece s = fileStartPiece s /\ lastBoostedPiece s = -1 /\
  httpServer st' = httpServer st /\ activeStreams st' = activeStreams st.
Proof.
  unfold prepareResolve. cbn [sessionManager setDisk].
  destruct (sessionManager st) as [sm|]; [|intros [= _ ?]; discriminate].
  destruct (resHandle res) as [h|]; [|intros [= _ ?]; discriminate].
  destruct (resTorrentInfo res) as [info|]; [|intros [= _ ?]; discriminate].
  destruct (resSelectedFileIndex res <? 0) eqn:E; [intros [= _ ?]; discriminate|].
  apply Z.ltb_ge in E.
  destruct (infoFiles info !! _) as [entry|] eqn:Hentry; [|intros [= _ ?]; discriminate].
  destruct (pieceGeometry _ _ _ _) as [geo|] eqn:Hgeo; [|intros [= _ ?]; discriminate].
  intros [= <- <-]. cbn.
  split; [exists h, info, entry; repeat split; try reflexivity; try lia; exact Hentry|].
  split; [reflexivity|]. split; [now apply pieceGeometry_ordered in Hgeo|].
  repeat split; reflexivity.
Qed.

(** What a failed resolution leaves behind. *)
Lemma prepareResolve_inl (res : Resolution) (mbps : option Double.t)
    (st st' : ModuleState) (message : string) :
  prepareResolve res mbps st = (st', inl message) ->
  (exists sm, sessionManager st = Some sm) ->
  activeStreams st' = activeStreams st /\
  disk st' = disk st ∪ {[ baseTorrentDir +:+ "/" +:+ resInfoHashHex res ]} /\
  (forall h, resHandle res = Some h ->
     exists sm', sessionManager st' = Some sm' /\ handleId h ∈ torrents sm') /\
  match resHandle res, resTorrentInfo res with
  | None, _ => message = "Timed out while waiting for torrent handle"
  | Some _, None => message = "Timed out while waiting for torrent metadata"
  | Some _, Some info =>
      (resSelectedFileIndex res < 0 /\
       message = "No playable video file found in torrent") \/
      (Z.of_nat (length (infoFiles info)) <= resSelectedFileIndex res /\
       message = "file index out of range") \/
      (exists entry,
         infoFiles info !! Z.to_nat (resSelectedFileIndex res) = Some entry /\
         pieceGeometry (entryOffset entry) (entrySize entry)
           (infoPieceLength info) (infoNumPieces info) = None /\
         message = "Cannot coerce value to an empty range")
  end.
Proof.
  unfold prepareResolve. cbn [sessionManager setDisk]. intros Hres (sm & Hsm).
  rewrite Hsm in Hres.
  destruct (resHandle res) as [h|].
  2:{ injection Hres as <- <-. cbn. repeat split; try reflexivity. intros h [=]. }
  assert (Hin : forall (t : gset positive) h', Some h = Some h' ->
                  handleId h' ∈ t ∪ {[handleId h]}).
  { intros t h' [= <-]. set_solver. }
  destruct (resTorrentInfo res) as [info|].
  2:{ injection Hres as <- <-. cbn. repeat split; try reflexivity.
      intros h' Hh. eexists. split; [reflexivity|]. cbn. now apply Hin. }
  destruct (resSelectedFileIndex res <? 0) eqn:E.
  { apply Z.ltb_lt in E. injection Hres as <- <-. cbn.
    split; [reflexivity|]. split; [reflexivity|].
    split; [intros h' Hh; eexists; split; [reflexivity | cbn; now apply Hin]|].
    left. easy. }
  apply Z.ltb_ge in E.
  destruct (infoFiles info !! _) as [entry|] eqn:Hentry.
  2:{ injection Hres as <- <-. cbn.
      split; [reflexivity|]. split; [reflexivity|].
      split; [intros h' Hh; eexists; split; [reflexivity | cbn; now apply Hin]|].
      right. left. apply lookup_ge_None_1 in Hentry. split; [lia | reflexivity]. }
  destruct (pieceGeometry _ _ _ _) as [geo|] eqn:Hgeo; [discriminate Hres|].
  injection Hres as <- <-. cbn.
  split; [reflexivity|]. split; [reflexivity|].
  split; [intros h' Hh; eexists; split; [reflexivity | cbn; now apply Hin]|].
  right. right. exists entry. easy.
Qed.

(** The first boost of a stream whose pieces are in order is carried out,
    and writes nothing but the engine's tables and [lastBoostedPiece]. *)
Lemma boostPieceWindow_first (s : ActiveTorrentStream) (windowPieces : option Z) :
  fileStartPiece s <= fileEndPiece s -> lastBoostedPiece s = -1 ->
  exists b,
    boostPieceWindow s (fileStartPiece s) windowPieces = Some b /\
    streamId b = streamId s /\ fileName b = fileName s /\ fileSize b = fileSize s /\
    fileIndex b = fileIndex s /\ saveDir b = saveDir s /\
    fileStartPiece b = fileStartPiece s /\ fileEndPiece b = fileEndPiece s /\
    nextPrefetchPiece b = nextPrefetchPiece s /\
    isValid (handle b) = isValid (handle s) /\
    handleId (handle b) = handleId (handle s) /\
    lastBoostedPiece b = (if isValid (handle s) then fileStartPiece s else -1).
Proof.
  intros Hord Hlast. unfold boostPieceWindow.
  destruct (isValid (handle s)) eqn:Hvalid; cbn [negb].
  - rewrite (coerceIn_clampTo _ _ _ Hord). cbn.
    rewrite Hlast. cbn [Z.leb andb].
    change (0 <=? -1) with false. cbn [andb].
    eexists. split; [reflexivity|]. cbn.
    destruct (boostPieces_frame s (clampTo (fileStartPiece s) (fileEndPiece s)
                                           (fileStartPiece s))
                (seqZ (clampTo (fileStartPiece s) (fileEndPiece s) (fileStartPiece s))
                   (Z.min (fileEndPiece s)
                      (toInt (clampTo (fileStartPiece s) (fileEndPiece s) (fileStartPiece s)
                              + Z.max 1 (default (streamingWindowPieces s) windowPieces)))
                    - clampTo (fileStartPiece s) (fileEndPiece s) (fileStartPiece s) + 1))
                (handle s)) as (Hid & Hv & _).
    repeat split; try reflexivity; try congruence.
    unfold clampTo. lia.
  - exists s. rewrite Hvalid, Hlast. repeat split; reflexivity.
Qed.

(** A prepare that resolves has registered exactly the stream it
    describes, primed at its first piece. *)
Lemma prepareStream_resolved (res : Resolution) (mbps : option Double.t)
    (st st' : ModuleState) (out : PreparedStream) :
  prepareStream res mbps st = (st', Resolved out) ->
  exists s,
    activeStreams st' = {[ resStreamId res := s ]} /\
    streamId s = resStreamId res /\
    outStreamId out = resStreamId res /\
    outFileName out = fileName s /\ outFileSize out = fileSize s /\
    outMimeType out = guessMimeType (fileName s) /\
    httpServer st' = Some (default (resPort res) (httpServer st)) /\
    outPlaybackUrl out =
      "http://" +:+ HTTP_HOST +:+ ":" +:+
      Long_toString (default (resPort res) (httpServer st)) +:+
      "/torrent/" +:+ resStreamId res /\
    fileStartPiece s <= fileEndPiece s /\
    nextPrefetchPiece s = fileStartPiece s /\
    lastBoostedPiece s = (if isValid (handle s) then fileStartPiece s else -1) /\
    exists h info entry,
      resHandle res = Some h /\ resTorrentInfo res = Some info /\
      0 <= resSelectedFileIndex res /\
      infoFiles info !! Z.to_nat (resSelectedFileIndex res) = Some entry /\
      handleId (handle s) = handleId h /\ fileIndex s = resSelectedFileIndex res /\
      fileSize s = entrySize entry /\
      fileName s = (if isBlank (entryPath entry) then "stream.bin" else entryPath entry).
Proof.
  unfold prepareStream, prepareStreamInternal.
  destruct (prepareStopPrior_started res st) as (Hempty & _ & Hhttp).
  destruct (prepareResolve res mbps (prepareStopPrior res st))
    as [st2 [message | stream]] eqn:Hres; [discriminate|].
  destruct (prepareResolve_inr _ _ _ _ _ Hres)
    as ((h & info & entry & Hh & Hinfo & Hidx & Hentry & Hhandle & Hfi & Hsize & Hname)
        & Hsid & Hord & Hnext & Hlast & Hhttp2 & Hreg2).
  unfold preparePrime.
  destruct (boostPieceWindow_first stream (Some (prefetchWindowPieces stream)) Hord Hlast)
    as (b & Hb & Hbsid & Hbname & Hbsize & Hbfi & _ & Hbstart & Hbend & Hbnext
        & Hbvalid & Hbid & Hblast).
  rewrite Hb. cbn [prepareRegister setActiveStreams httpServer activeStreams].
  rewrite Hhttp2, Hhttp. intros [= <- <-]. cbn.
  exists b. rewrite Hreg2, Hempty, Hsid, insert_insert_eq, insert_empty.
  split; [reflexivity|]. split; [congruence|]. split; [reflexivity|].
  split; [congruence|]. split; [congruence|]. split; [congruence|].
  split; [congruence|]. split; [reflexivity|].
  split; [lia|]. split; [congruence|].
  split; [rewrite Hblast, Hbvalid, Hbstart; reflexivity|].
  exists h, info, entry. rewrite Hbname, Hbsize, Hbfi, Hbid, Hhandle. easy.
Qed.

(** A prepare that is rejected has registered nothing and left its save
    directory, and the torrent if the engine came up with it, behind. *)
Lemma prepareStream_rejected (res : Resolution) (mbps : option Double.t)
    (st st' : ModuleState) (code message : string) :
  prepareStream res mbps st = (st', Rejected code message) ->
  code = "TORRENT_PREPARE_FAILED" /\
  activeStreams st' = ∅ /\
  baseTorrentDir +:+ "/" +:+ resInfoHashHex res ∈ disk st' /\
  (forall h, resHandle res = Some h ->
     exists sm', sessionManager st' = Some sm' /\ handleId h ∈ torrents sm') /\
  match resHandle res, resTorrentInfo res with
  | None, _ => message = "Timed out while waiting for torrent handle"
  | Some _, None => message = "Timed out while waiting for torrent metadata"
  | Some _, Some info =>
      (resSelectedFileIndex res < 0 /\
       message = "No playable video file found in torrent") \/
      (Z.of_nat (length (infoFiles info)) <= resSelectedFileIndex res /\
       message = "file index out of range") \/
      (exists entry,
         infoFiles info !! Z.to_nat (resSelectedFileIndex res) = Some entry /\
         pieceGeometry (entryOffset entry) (entrySize entry)
           (infoPieceLength info) (infoNumPieces info) = None /\
         message = "Cannot coerce value to an empty range")
  end.
Proof.
  unfold prepareStream, prepareStreamInternal.
  destruct (prepareStopPrior_started res st) as (Hempty & (sm & Hsm & _) & Hhttp).
  destruct (prepareResolve res mbps (prepareStopPrior res st))
    as [st2 [msg | stream]] eqn:Hres.
  - intros [= <- <- <-].
    destruct (prepareResolve_inl _ _ _ _ _ Hres (ex_intro _ sm Hsm))
      as (Hreg & Hdisk & Htor & Hmsg).
    split; [reflexivity|]. split; [congruence|].
    split; [rewrite Hdisk; set_solver|]. split; [exact Htor | exact Hmsg].
  - destruct (prepareResolve_inr _ _ _ _ _ Hres)
      as (_ & Hsid & Hord & Hnext & Hlast & Hhttp2 & Hreg2).
    unfold preparePrime.
    destruct (boostPieceWindow_first stream (Some (prefetchWindowPieces stream)) Hord Hlast)
      as (b & Hb & _).
    rewrite Hb. cbn [prepareRegister setActiveStreams httpServer activeStreams].
    rewrite Hhttp2, Hhttp. discriminate.
Qed.

Lemma startsWith_app (p x : string) : startsWith (p +:+ x) p = true.
Proof.
  induction p as [|c p IH]; [reflexivity|].
  rewrite app_cons. cbn [startsWith]. now rewrite Ascii.eqb_refl, IH.
Qed.

Lemma dropChars_app (p x : string) : dropChars (String.length p) (p +:+ x) = x.
Proof. induction p as [|c p IH]; [reflexivity|]. rewrite app_cons. exact IH. Qed.

Lemma stripPrefix_app (p x : string) : stripPrefix (p +:+ x) p = Some x.
Proof. unfold stripPrefix. now rewrite startsWith_app, dropChars_app. Qed.

Lemma skipDigits_app (ds rest : string) :
  allChars isDigit ds = true -> skipDigits (ds +:+ String "/" rest) = String "/" rest.
Proof.
  induction ds as [|c ds IH]; intros Hds; [reflexivity|].
  cbn [allChars] in Hds. apply andb_prop in Hds as [Hc Hds].
  rewrite app_cons. cbn [skipDigits]. rewrite Hc. now apply IH.
Qed.

(** A loopback URL with a decimal port and a [/torrent/] path is one the
    player takes for a local torrent stream. *)
Lemma isLocal_of_digits (ds rest : string) :
  ds <> EmptyString -> allChars isDigit ds = true ->
  isLocalTorrentPlaybackUrl
    (Some ("http://" +:+ HTTP_HOST +:+ ":" +:+ ds +:+ "/torrent/" +:+ rest)) = true.
Proof.
  intros Hne Hds. unfold isLocalTorrentPlaybackUrl, HTTP_HOST.
  rewrite stripPrefix_app. rewrite stripPrefix_app. rewrite stripPrefix_app.
  change ("/torrent/" +:+ rest) with (String "/" ("torrent/" +:+ rest)).
  rewrite (skipDigits_app _ _ Hds), length_app'.
  assert (Hs : startsWith (String "/" ("torrent/" +:+ rest)) "/torrent/" = true)
    by apply (startsWith_app "/torrent/" rest).
  rewrite Hs, andb_true_r.
  apply Nat.ltb_lt. destruct ds; [easy | cbn; lia].
Qed.

(** X15. Once the magnet has parsed, and with the file picked by
    [selectPlayableFileIndex] from metadata that lists a file, the only
    exceptions [prepareStreamInternal] throws itself are its two
    timeouts: when the engine has come up with the handle and the
    metadata the prepare resolves, with exactly the picked file registered
    under the new id. Its other exceptions (no playable file, an index
    outside the file list, an empty piece range, a session or a bridge
    that is not there) cannot be raised. *)
Theorem prepare_fails_only_on_timeouts (res : Resolution) (preferredFileIndex : option Z)
    (mbps : option Double.t) (st : ModuleState) :
  pickedBy res preferredFileIndex -> soundInfo res ->
  match resHandle res, resTorrentInfo res with
  | None, _ =>
      (prepareStream res mbps st).2 =
      Rejected "TORRENT_PREPARE_FAILED" "Timed out while waiting for torrent handle"
  | Some _, None =>
      (prepareStream res mbps st).2 =
      Rejected "TORRENT_PREPARE_FAILED" "Timed out while waiting for torrent metadata"
  | Some h, Some info =>
      exists out s,
        (prepareStream res mbps st).2 = Resolved out /\
        activeStreams (prepareStream res mbps st).1 = {[ resStreamId res := s ]} /\
        outStreamId out = resStreamId res /\
        fileIndex s = selectPlayableFileIndex info preferredFileIndex /\
        handleId (handle s) = handleId h /\
        exists entry,
          infoFiles info !! Z.to_nat (fileIndex s) = Some entry /\
          outFileSize out = entrySize entry /\
          outFileName out =
            (if isBlank (entryPath entry) then "stream.bin" else entryPath entry)
  end.
Proof.
  intros Hpick Hsound.
  destruct (prepareStream res mbps st) as [st' [out | code message]] eqn:Hprep; cbn [fst snd].
  - destruct (prepareStream_resolved _ _ _ _ _ Hprep)
      as (s & Hreg & Hsid & Hout & Hname & Hsize & _ & _ & _ & _ & _ & _
          & h & info & entry & Hh & Hinfo & Hidx & Hentry & Hid & Hfi & Hfs & Hfn).
    rewrite Hh, Hinfo. exists out, s.
    split; [reflexivity|]. split; [exact Hreg|]. split; [exact Hout|].
    destruct (Hpick info Hinfo) as [_ Hsel].
    split; [congruence|]. split; [exact Hid|].
    exists entry. rewrite Hfi. split; [exact Hentry|]. split; congruence.
  - destruct (prepareStream_rejected _ _ _ _ _ _ Hprep) as (-> & _ & _ & _ & Hmsg).
    destruct (resHandle res) as [h|]; [|now rewrite Hmsg].
    destruct (resTorrentInfo res) as [info|] eqn:Hinfo; [|now rewrite Hmsg].
    exfalso.
    destruct (Hpick info Hinfo) as [Hne Hsel].
    pose proof (select_range info preferredFileIndex Hne) as Hrange.
    rewrite <- Hsel in Hrange.
    destruct Hmsg as [[Hneg _] | [[Hbig _] | (entry & Hentry & Hgeo & _)]]; [lia | lia |].
    destruct (Hsound info Hinfo) as (Hpl & Hnp & Hfiles).
    rewrite Forall_lookup in Hfiles. specialize (Hfiles _ _ Hentry). cbn beta in Hfiles.
    destruct Hfiles as (Hoff & Hsz & Hsum & Hquot).
    rewrite (pieceGeometry_value _ _ _ _ Hpl Hnp Hoff Hsz Hsum Hquot) in Hgeo.
    discriminate Hgeo.
Qed.

Lemma sampleResolution_picked (sid : string) :
  pickedBy (sampleResolution sid 0) None /\ soundInfo (sampleResolution sid 0).
Proof.
  split.
  - intros info [= <-]. split; [discriminate | reflexivity].
  - intros info [= <-].
    split; [unfold isInt; vm_compute; split; discriminate|].
    split; [unfold isInt; vm_compute; split; discriminate|].
    repeat (constructor; [vm_compute; repeat split; discriminate|]). constructor.
Qed.

Lemma prepare_fails_only_on_timeouts_witness :
  exists out,
    (prepareStream (sampleResolution "second" 0) None oneStreamState).2 = Resolved out /\
    outStreamId out = "second".
Proof.
  destruct (sampleResolution_picked "second") as [Hpick Hsound].
  destruct (prepare_fails_only_on_timeouts (sampleResolution "second" 0) None None
              oneStreamState Hpick Hsound) as (out & s & Hout & _ & Hsid & _).
  exists out. split; [exact Hout | exact Hsid].
Defined.




(** X17. The URL a prepare resolves with is
    [http://127.0.0.1:{port}/torrent/{streamId}] for the port the bridge
    listens on, it is one [isLocalTorrentPlaybackUrl] recognises, and its
    path is served: a GET for it is answered 200 or 206 with the MIME type
    and, without a Range header, the [Content-Length] the prepare
    reported. The one exception is a file of no bytes, whose URL is
    answered 416 whatever is asked. *)
Theorem prepared_url_is_served (res : Resolution) (mbps : option Double.t)
    (st st' : ModuleState) (out : PreparedStream) (hs : gmap string string) :
  prepareStream res mbps st = (st', Resolved out) ->
  allChars (isNot "/") (resStreamId res) = true ->
  0 <= default (resPort res) (httpServer st) <= Long_MAX_VALUE ->
  isLong (outFileSize out) ->
  (exists port,
     httpServer st' = Some port /\
     outPlaybackUrl out =
       "http://127.0.0.1:" +:+ Long_toString port +:+ "/torrent/" +:+ outStreamId out) /\
  isLocalTorrentPlaybackUrl (Some (outPlaybackUrl out)) = true /\
  let r := serve (activeStreams st')
             {| method := GET; uri := "/torrent/" +:+ outStreamId out; headers := hs |} in
  (0 < outFileSize out ->
   (status r = OK \/ status r = PARTIAL_CONTENT) /\ mimeType r = outMimeType out) /\
  (0 < outFileSize out -> hs !! "range" = None ->
   status r = OK /\ bodyLength r = outFileSize out /\
   responseHeaders r !! "Content-Length" = Some (Long_toString (outFileSize out))) /\
  (outFileSize out <= 0 -> status r = RANGE_NOT_SATISFIABLE).
Proof.
  intros Hprep Hsid Hport Hlong.
  destruct (prepareStream_resolved _ _ _ _ _ Hprep)
    as (s & Hreg & Hssid & Hout & Hname & Hsize & Hmime & Hhttp & Hurl & _).
  split; [exists (default (resPort res) (httpServer st)); rewrite Hout; easy|].
  split.
  { rewrite Hurl. apply isLocal_of_digits;
      destruct (Long_toString_decimal _ Hport) as (Hne & Hds & _); assumption. }
  cbv zeta. rewrite Hout, Hsize, Hmime in *.
  destruct (request_stream_id (resStreamId res) EmptyString Hsid) as [Hcut _].
  assert (Hlook : activeStreams st' !! resStreamId res = Some s)
    by (rewrite Hreg; apply lookup_singleton_eq).
  rewrite (serve_registered _ _ _ GET hs eq_refl Hlook Hcut Hlong). cbn [isHead].
  destruct (parseRangeHeader (hs !! "range") (fileSize s)) as [[first last]|] eqn:Hparse.
  - destruct (parseRangeHeader_sound _ _ _ _ Hlong Hparse) as [Hfl Hlast].
    cbn [status mimeType].
    split; [intros _; split; [now right | reflexivity]|].
    split; [intros _ Hnone; rewrite Hnone in Hparse; discriminate Hparse|].
    intros Hle. lia.
  - destruct (fileSize s <=? 0) eqn:E; [apply Z.leb_le in E | apply Z.leb_gt in E];
      cbn [status mimeType].
    + split; [intros; lia|]. split; [intros; lia | reflexivity].
    + split; [intros _; split; [now left | reflexivity]|].
      split; [|intros; lia].
      intros _ _. split; [reflexivity|]. split; [reflexivity|].
      cbn [responseHeaders]. rewrite lookup_insert_ne by discriminate.
      apply lookup_insert_eq.
Qed.

Lemma prepared_url_is_served_witness :
  exists out,
    (prepareStream (sampleResolution "second" 0) None oneStreamState).2 = Resolved out /\
    outPlaybackUrl out = "http://127.0.0.1:38211/torrent/second" /\
    isLocalTorrentPlaybackUrl (Some (outPlaybackUrl out)) = true /\
    requestStatus
      (status (serve (activeStreams
                        (prepareStream (sampleResolution "second" 0) None oneStreamState).1)
                 {| method := GET; uri := "/torrent/second"; headers := ∅ |})) = 200.
Proof.
  destruct (prepareStream (sampleResolution "second" 0) None oneStreamState)
    as [st' [out | code message]] eqn:Hprep; [|vm_compute in Hprep; discriminate Hprep].
  assert (Hsize : outFileSize out = 48 /\ outStreamId out = "second").
  { vm_compute in Hprep. injection Hprep as _ <-. split; reflexivity. }
  destruct Hsize as [Hsize Hid].
  destruct (prepared_url_is_served (sampleResolution "second" 0) None oneStreamState
              st' out ∅ Hprep eq_refl) as ((port & Hhttp & Hurl) & Hlocal & Hserve).
  - vm_compute. split; discriminate.
  - rewrite Hsize. vm_compute. split; discriminate.
  - cbv zeta in Hserve. destruct Hserve as (_ & Hok & _).
    rewrite Hsize, Hid in Hok.
    destruct Hok as (Hstatus & _); [reflexivity | apply lookup_empty |].
    exists out. cbn [fst snd]. split; [reflexivity|].
    split; [vm_compute in Hprep; injection Hprep as _ <-; reflexivity|].
    split; [exact Hlocal|].
    change ("/torrent/" +:+ "second") with "/torrent/second" in Hstatus.
    now rewrite Hstatus.
Defined.

(** X18. [shutdownLocked], the task [invalidate] queues, leaves the module
    as it started: no stream registered, no bridge, no session, and on
    disk the directories that were there except the save directories of
    the registered streams. Run again it changes nothing. *)
Theorem shutdown_leaves_nothing (st : ModuleState) :
  let st' := shutdownLocked st in
  activeStreams st' = ∅ /\ httpServer st' = None /\ sessionManager st' = None /\
  (forall dir, dir ∈ disk st' <->
     dir ∈ disk st /\
     forall sid s, activeStreams st !! sid = Some s -> saveDir s <> dir) /\
  st' = {| activeStreams := ∅; sessionManager := None; httpServer := None;
           disk := disk st' |} /\
  shutdownLocked st' = st'.
Proof.
  cbv zeta. unfold shutdownLocked.
  cbn [activeStreams httpServer sessionManager disk setSessionManager setHttpServer].
  pose proof (stopAllStreamsLocked_empty true st) as Hempty.
  split; [exact Hempty|]. split; [reflexivity|]. split; [reflexivity|].
  split.
  { intros dir. unfold stopAllStreamsLocked. rewrite stop_fold_disk.
    cbn [setActiveStreams disk].
    rewrite elem_of_difference, elem_of_list_to_set, list_elem_of_fmap.
    split.
    - intros [Hin Hnot]. split; [exact Hin|].
      intros sid s Hreg Hdir. apply Hnot. exists s. split; [now symmetry|].
      now apply (registered_in_values st sid).
    - intros [Hin Hnone]. split; [exact Hin|].
      intros (s & Hdir & Hs).
      apply list_elem_of_fmap in Hs as ([sid s'] & Heq & Hs). cbn in Heq. subst s'.
      apply elem_of_map_to_list in Hs. now apply (Hnone sid s). }
  destruct (stopAllStreamsLocked true st) as [streams sm http d].
  cbn in Hempty. subst streams. cbn.
  split; [reflexivity|].
  unfold stopAllStreamsLocked. cbn. rewrite map_to_list_empty. reflexivity.
Qed.

(** ** The network estimate, from the TypeScript service to the tuning *)

Lemma payload_of_finite (q : Q) :
  payloadNetworkMbps (Some (Double.Fin q)) =
  Some (if Qle_bool (3602879701896397 # 36028797018963968) q
        then Double.Fin q else MIN_NETWORK_MBPS).
Proof. reflexivity. Qed.

(** The tuning chosen for the payload of a finite estimate other than zero
    is the profile of the estimate's network class. *)
Lemma payload_tuning_finite (q : Q) :
  ~ (q == 0)%Q ->
  deriveStreamingTuning (payloadNetworkMbps (Some (Double.Fin q))) =
  profileOf (getNetworkClassForMbps (Double.Fin q)).
Proof.
  intros Hq. rewrite payload_of_finite.
  unfold deriveStreamingTuning, getNetworkClassForMbps, clamp, orDefault,
    MIN_NETWORK_MBPS, DEFAULT_NETWORK_MBPS.
  q_case; q_solve.
Qed.

(** X19. [preparePlayback] forwards a finite estimate as
    [Math.max(0.1, estimate)] and anything else as [undefined]. The tuning
    [deriveStreamingTuning] picks for that payload is the profile of the
    class [getNetworkClassForMbps] gives the estimate, for every estimate
    but three: [0] (tuned as very slow, classed medium) and the two
    infinities (tuned as medium, classed ultra and very slow). *)
Theorem payload_tuning_matches_class (estimate : Double.t) :
  deriveStreamingTuning (payloadNetworkMbps (Some estimate)) =
  profileOf (getNetworkClassForMbps estimate)
  <-> match estimate with
      | Double.NaN => True
      | Double.Fin q => ~ (q == 0)%Q
      | Double.PosInf | Double.NegInf => False
      end.
Proof.
  destruct estimate as [| | |q].
  - split; [easy | reflexivity].
  - split; [discriminate | easy].
  - split; [discriminate | easy].
  - split; [|apply payload_tuning_finite].
    intros Heq Hq. revert Heq. rewrite payload_of_finite.
    unfold deriveStreamingTuning, getNetworkClassForMbps, clamp, orDefault,
      MIN_NETWORK_MBPS, DEFAULT_NETWORK_MBPS.
    q_case; [exfalso; lra|].
    cbn. repeat (q_case; cbn; try (exfalso; lra)); discriminate.
Qed.

Lemma estimate_clamped (d : Double.t) :
  (exists q, d = Double.Fin q /\ (0 < q)%Q) ->
  exists q, clamp d MIN_NETWORK_MBPS (Double.Fin 1000) = Double.Fin q /\
            (3602879701896397 # 36028797018963968 <= q)%Q /\ (q <= 1000)%Q /\
            (forall bound, (3602879701896397 # 36028797018963968 <= bound)%Q ->
                           Double.gtb d (Double.Fin bound) = false -> (q <= bound)%Q).
Proof.
  intros (q & -> & Hq). unfold clamp, MIN_NETWORK_MBPS. cbn.
  destruct (Qle_bool 1000 q) eqn:E1; cbn.
  - apply Qle_bool_iff in E1. exists 1000%Q. split; [reflexivity|].
    split; [lra|]. split; [lra|].
    intros bound Hb Hgt. apply negb_false_iff, Qle_bool_iff in Hgt. lra.
  - assert (H1 : ~ (1000 <= q)%Q) by (rewrite <- Qle_bool_iff, E1; discriminate).
    destruct (Qle_bool (3602879701896397 # 36028797018963968) q) eqn:E2; cbn.
    + apply Qle_bool_iff in E2. exists q. split; [reflexivity|].
      split; [lra|]. split; [lra|].
      intros bound Hb Hgt. apply negb_false_iff, Qle_bool_iff in Hgt. lra.
    + exists (3602879701896397 # 36028797018963968). split; [reflexivity|].
      split; [lra|]. split; [lra|]. intros bound Hb _. exact Hb.
Qed.

(** The estimate before the final clamp is a positive finite number. *)
Lemma estimate_positive (state : option MinimalNetInfoState) :
  exists raw,
    estimatedDownlinkMbps (estimateNetworkProfile state) =
      clamp raw MIN_NETWORK_MBPS (Double.Fin 1000) /\
    (exists q, raw = Double.Fin q /\ (0 < q)%Q) /\
    (isMetered (estimateNetworkProfile state) = true ->
     Double.gtb raw (Double.Fin 40) = false) /\
    (forall s, state = Some s -> isInternetReachable s = Some false ->
               raw = MIN_NETWORK_MBPS).
Proof.
  unfold estimateNetworkProfile. cbv zeta.
  cbn [estimatedDownlinkMbps isMetered].
  set (connection := match state with
                     | Some s => match netType s with
                                 | Some t => if String.eqb t EmptyString
                                             then "unknown" else t
                                 | None => "unknown"
                                 end
                     | None => "unknown"
                     end).
  set (metered := match state with
                  | Some s => match isConnectionExpensive s with
                              | Some b => b | None => false end
                  | None => false
                  end).
  set (rx := match state with Some s => rxLinkSpeed s | None => Double.NaN end).
  set (link := match state with Some s => linkSpeed s | None => Double.NaN end).
  set (generation := match state with
                     | Some s => cellularGeneration s | None => EmptyString end).
  set (estimate := if String.eqb connection "wifi" then _ else _).
  assert (Hest : exists q, estimate.1 = Double.Fin q /\ (0 < q)%Q).
  { unfold estimate.
    destruct (String.eqb connection "wifi").
    - destruct rx as [| | |r]; cbn [Double.isFinite andb].
      1-3: destruct link as [| | |l]; cbn [Double.isFinite andb];
           try (exists 20%Q; split; [reflexivity | lra]).
      + destruct (Double.gtb (Double.Fin l) (Double.Fin 0)) eqn:E; cbn [fst].
        * exists l. split; [reflexivity|].
          cbn in E. apply negb_true_iff in E.
          assert (~ (l <= 0)%Q) by (rewrite <- Qle_bool_iff, E; discriminate). lra.
        * exists 20%Q. split; [reflexivity | lra].
      + destruct (Double.gtb (Double.Fin l) (Double.Fin 0)) eqn:E; cbn [fst].
        * exists l. split; [reflexivity|].
          cbn in E. apply negb_true_iff in E.
          assert (~ (l <= 0)%Q) by (rewrite <- Qle_bool_iff, E; discriminate). lra.
        * exists 20%Q. split; [reflexivity | lra].
      + destruct (Double.gtb (Double.Fin l) (Double.Fin 0)) eqn:E; cbn [fst].
        * exists l. split; [reflexivity|].
          cbn in E. apply negb_true_iff in E.
          assert (~ (l <= 0)%Q) by (rewrite <- Qle_bool_iff, E; discriminate). lra.
        * exists 20%Q. split; [reflexivity | lra].
      + destruct (Double.gtb (Double.Fin r) (Double.Fin 0)) eqn:E; cbn [fst].
        * exists r. split; [reflexivity|].
          cbn in E. apply negb_true_iff in E.
          assert (~ (r <= 0)%Q) by (rewrite <- Qle_bool_iff, E; discriminate). lra.
        * destruct link as [| | |l]; cbn [Double.isFinite andb];
            try (exists 20%Q; split; [reflexivity | lra]).
          destruct (Double.gtb (Double.Fin l) (Double.Fin 0)) eqn:E'; cbn [fst].
          -- exists l. split; [reflexivity|].
             cbn in E'. apply negb_true_iff in E'.
             assert (~ (l <= 0)%Q) by (rewrite <- Qle_bool_iff, E'; discriminate). lra.
          -- exists 20%Q. split; [reflexivity | lra].
    - destruct (String.eqb connection "cellular").
      + cbn [fst].
        destruct (String.eqb generation "5g"); [exists 130%Q; split; [reflexivity | lra]|].
        destruct (String.eqb generation "4g"); [exists 28%Q; split; [reflexivity | lra]|].
        destruct (String.eqb generation "3g"); [exists 4%Q; split; [reflexivity | lra]|].
        destruct (String.eqb generation "2g");
          [eexists; split; [reflexivity | lra] | exists 12%Q; split; [reflexivity | lra]].
      + destruct (String.eqb connection "ethernet");
          [exists 350%Q | exists 20%Q]; split; try reflexivity; lra. }
  set (reach := match state with
                | Some s => match isInternetReachable s with
                            | Some false => MIN_NETWORK_MBPS
                            | _ => estimate.1
                            end
                | None => estimate.1
                end).
  assert (Hreach : exists q, reach = Double.Fin q /\ (0 < q)%Q).
  { unfold reach. destruct state as [s|]; [|exact Hest].
    destruct (isInternetReachable s) as [[|]|]; try exact Hest.
    eexists. split; [reflexivity | lra]. }
  destruct (metered && Double.gtb reach (Double.Fin 40)) eqn:Hcap.
  - exists (Double.Fin 40). split; [reflexivity|].
    split; [exists 40%Q; split; [reflexivity | lra]|].
    split; [intros _; reflexivity|].
    intros s -> Hs. exfalso. unfold reach in Hcap. rewrite Hs in Hcap.
    apply andb_prop in Hcap as [_ Hcap]. vm_compute in Hcap. discriminate Hcap.
  - exists reach. split; [reflexivity|]. split; [exact Hreach|].
    split; [intros Hm; rewrite Hm in Hcap; exact Hcap|].
    intros s -> Hs. unfold reach. now rewrite Hs.
Qed.

(** X20. Whatever NetInfo reports (a missing state, a link speed that is
    no number, negative or infinite, an unknown generation) the estimate
    of [estimateNetworkProfile] is a finite number between 0.1 and 1000
    Mbps; it is 0.1 when the internet is reported unreachable and at most
    40 on a metered connection. So the estimate is never one of the three
    values on which tuning and class part: the tuning the native module
    picks for it is the profile of its network class. *)
Theorem network_estimate_in_range (state : option MinimalNetInfoState) :
  let profile := estimateNetworkProfile state in
  exists q,
    estimatedDownlinkMbps profile = Double.Fin q /\
    (3602879701896397 # 36028797018963968 <= q)%Q /\ (q <= 1000)%Q /\
    (isMetered profile = true -> (q <= 40)%Q) /\
    (forall s, state = Some s -> isInternetReachable s = Some false ->
               estimatedDownlinkMbps profile = MIN_NETWORK_MBPS) /\
    deriveStreamingTuning (payloadNetworkMbps (Some (estimatedDownlinkMbps profile))) =
    profileOf (getNetworkClassForMbps (estimatedDownlinkMbps profile)).
Proof.
  cbv zeta.
  destruct (estimate_positive state) as (raw & Hraw & Hpos & Hmetered & Hreach).
  destruct (estimate_clamped raw Hpos) as (q & Hq & Hlo & Hhi & Hbound).
  exists q. rewrite Hraw, Hq.
  split; [reflexivity|]. split; [exact Hlo|]. split; [exact Hhi|].
  split; [intros Hm; apply Hbound; [lra | now apply Hmetered]|].
  split; [intros s Hs Hr; rewrite <- Hq, (Hreach s Hs Hr); reflexivity|].
  apply payload_tuning_finite. lra.
Qed.

Lemma classRank_monotone (a b : Q) :
  (0 < a)%Q -> (a <= b)%Q ->
  classRank (getNetworkClassForMbps (Double.Fin a)) <=
  classRank (getNetworkClassForMbps (Double.Fin b)).
Proof.
  intros Ha Hab.
  unfold getNetworkClassForMbps, clamp, orDefault, MIN_NETWORK_MBPS, DEFAULT_NETWORK_MBPS.
  cbn. repeat (q_case; cbn; try (exfalso; lra)); lia.
Qed.

(** X21. A faster link never gets less: for positive estimates [a <= b]
    the class of [b] is at least that of [a], every window, the advance
    step and both boost tiers of [b]'s tuning are at least those of [a]'s,
    and its deadline step is at most as long. Every tuning, for any
    estimate, has its tiers nested in its windows,
    [near <= mid <= streaming <= prefetch], and a prefetch advance larger
    than [STREAMING_BOOST_MIN_STEP]. *)
Theorem faster_network_wider_windows :
  (forall a b : Q, (0 < a)%Q -> (a <= b)%Q ->
     let ta := deriveStreamingTuning (Some (Double.Fin a)) in
     let tb := deriveStreamingTuning (Some (Double.Fin b)) in
     classRank (getNetworkClassForMbps (Double.Fin a)) <=
       classRank (getNetworkClassForMbps (Double.Fin b)) /\
     StreamingTuning.streamingWindowPieces ta <= StreamingTuning.streamingWindowPieces tb /\
     StreamingTuning.prefetchWindowPieces ta <= StreamingTuning.prefetchWindowPieces tb /\
     StreamingTuning.prefetchAdvanceStep ta <= StreamingTuning.prefetchAdvanceStep tb /\
     StreamingTuning.boostNearPieces ta <= StreamingTuning.boostNearPieces tb /\
     StreamingTuning.boostMidPieces ta <= StreamingTuning.boostMidPieces tb /\
     StreamingTuning.pieceDeadlineStepMs tb <= StreamingTuning.pieceDeadlineStepMs ta) /\
  (forall mbps : option Double.t,
     let t := deriveStreamingTuning mbps in
     0 < StreamingTuning.boostNearPieces t <= StreamingTuning.boostMidPieces t /\
     StreamingTuning.boostMidPieces t <= StreamingTuning.streamingWindowPieces t /\
     StreamingTuning.streamingWindowPieces t <= StreamingTuning.prefetchWindowPieces t /\
     STREAMING_BOOST_MIN_STEP < StreamingTuning.prefetchAdvanceStep t /\
     0 < StreamingTuning.pieceDeadlineStepMs t).
Proof.
  split.
  - intros a b Ha Hab. cbv zeta.
    pose proof (classRank_monotone a b Ha Hab) as Hrank.
    rewrite (tuning_of_positive a Ha), (tuning_of_positive b) by lra.
    split; [exact Hrank|].
    destruct (getNetworkClassForMbps (Double.Fin a)),
             (getNetworkClassForMbps (Double.Fin b)); cbn in *; lia.
  - intros mbps. cbv zeta.
    assert (Hprofile : exists c, deriveStreamingTuning mbps = profileOf c).
    { destruct mbps as [[| | |q]|];
        try (exists medium; reflexivity).
      destruct (Qle_bool q 0) eqn:E.
      - exists medium. apply tuning_default. right. cbn. now rewrite E.
      - eexists. apply tuning_of_positive.
        assert (~ (q <= 0)%Q) by (rewrite <- Qle_bool_iff, E; discriminate). lra. }
    destruct Hprofile as [c ->]. unfold STREAMING_BOOST_MIN_STEP.
    destruct c; cbn; lia.
Qed.

(** ** The coordinator under an engine that fails or lags *)

(** A boost writes the engine's two tables and [lastBoostedPiece], nothing
    else. *)
Lemma boostPieceWindow_static (s b : ActiveTorrentStream) (fromPiece : Z)
    (windowPieces : option Z) :
  boostPieceWindow s fromPiece windowPieces = Some b ->
  streamId b = streamId s /\ fileSize b = fileSize s /\ fileOffset b = fileOffset s /\
  pieceLength b = pieceLength s /\ totalPieces b = totalPieces s /\
  fileStartPiece b = fileStartPiece s /\ fileEndPiece b = fileEndPiece s /\
  nextPrefetchPiece b = nextPrefetchPiece s /\
  isValid (handle b) = isValid (handle s) /\
  havePiece (handle b) = havePiece (handle s) /\
  engineThrows (handle b) = engineThrows (handle s).
Proof.
  unfold boostPieceWindow.
  destruct (isValid (handle s)) eqn:Hvalid; cbn [negb];
    [|intros [= <-]; rewrite Hvalid; repeat split; reflexivity].
  destruct (coerceIn fromPiece _ _) as [startPiece|]; [|discriminate].
  cbn [mbind option_bind].
  destruct (_ && _); [intros [= <-]; rewrite Hvalid; repeat split; reflexivity|].
  intros [= <-]. cbn.
  match goal with
  | |- context [boostPieces s startPiece ?l (handle s)] =>
      destruct (boostPieces_frame s startPiece l (handle s)) as (_ & Hv & Hh & Ht)
  end.
  rewrite Hv, Hh, Ht, Hvalid. repeat split; reflexivity.
Qed.

Lemma boostPieceWindow_total (s : ActiveTorrentStream) (fromPiece : Z)
    (windowPieces : option Z) :
  fileStartPiece s <= fileEndPiece s ->
  exists b, boostPieceWindow s fromPiece windowPieces = Some b.
Proof.
  intros Hord. unfold boostPieceWindow.
  destruct (isValid (handle s)); cbn [negb]; [|eauto].
  rewrite (coerceIn_clampTo _ _ _ Hord). cbn [mbind option_bind].
  destruct (_ && _); eauto.
Qed.

Lemma waitLoop_outcome (tick : TorrentHandle -> TorrentHandle) (polls : nat) :
  forall (s : ActiveTorrentStream) (safePiece : Z),
    fileStartPiece s <= fileEndPiece s ->
    exists s' found,
      waitLoop tick polls s safePiece = Some (s', found) /\
      (found = true ->
       havePiece (handle s') safePiece = true /\
       engineThrows (handle s') safePiece = false) /\
      (havePiece (handle s) safePiece = true ->
       engineThrows (handle s) safePiece = false -> s' = s /\ found = true) /\
      (engineThrows (handle s) safePiece = true -> s' = s /\ found = false) /\
      streamId s' = streamId s /\ fileSize s' = fileSize s /\
      fileOffset s' = fileOffset s /\ pieceLength s' = pieceLength s /\
      totalPieces s' = totalPieces s /\
      fileStartPiece s' = fileStartPiece s /\ fileEndPiece s' = fileEndPiece s /\
      nextPrefetchPiece s' = nextPrefetchPiece s.
Proof.
  induction polls as [|polls IH]; intros s safePiece Hord; cbn [waitLoop].
  - exists s. eexists. split; [reflexivity|].
    destruct (engineThrows (handle s) safePiece) eqn:Ht.
    + repeat split; try reflexivity; try discriminate.
    + destruct (havePiece (handle s) safePiece) eqn:Hh;
        repeat split; try reflexivity; try discriminate; try assumption.
  - destruct (engineThrows (handle s) safePiece) eqn:Ht.
    { exists s, false. repeat split; try reflexivity; discriminate. }
    destruct (havePiece (handle s) safePiece) eqn:Hh.
    { exists s, true. repeat split; try reflexivity; try assumption; discriminate. }
    destruct (boostPieceWindow_total s safePiece None Hord) as [b Hb].
    rewrite Hb. cbn [mbind option_bind].
    destruct (boostPieceWindow_static _ _ _ _ Hb)
      as (H1 & H2 & H3 & H4 & H5 & H6 & H7 & H8 & _).
    destruct (IH (setHandle b (tick (handle b))) safePiece) as (s' & found & Hw & Hrest).
    { cbn. lia. }
    exists s', found. split; [exact Hw|].
    destruct Hrest as (Hfound & _ & _ & Hstatic). cbn in Hstatic.
    split; [exact Hfound|]. split; [discriminate|]. split; [discriminate|].
    destruct Hstatic as (S1 & S2 & S3 & S4 & S5 & S6 & S7 & S8).
    repeat split; congruence.
Qed.

(** A wait that answers [true] has seen the piece, and no wait changes
    the sizes or the pieces of the stream. *)
Lemma waitForPiece_found (tick : TorrentHandle -> TorrentHandle) (polls : nat)
    (s : ActiveTorrentStream) (pieceIndex : Z) :
  fileStartPiece s <= fileEndPiece s ->
  exists s' found,
    waitForPiece tick polls s pieceIndex = Some (s', found) /\
    (found = true ->
     havePiece (handle s')
       (clampTo (fileStartPiece s) (fileEndPiece s) pieceIndex) = true) /\
    fileSize s' = fileSize s /\ fileOffset s' = fileOffset s /\
    pieceLength s' = pieceLength s /\ totalPieces s' = totalPieces s /\
    fileStartPiece s' = fileStartPiece s /\ fileEndPiece s' = fileEndPiece s.
Proof.
  intros Hord. unfold waitForPiece.
  destruct (isValid (handle s)); cbn [negb].
  - rewrite (coerceIn_clampTo _ _ _ Hord). cbn [mbind option_bind].
    destruct (waitLoop_outcome tick polls s
                (clampTo (fileStartPiece s) (fileEndPiece s) pieceIndex) Hord)
      as (s' & found & Hw & Hfound & _ & _ & _ & S1 & S2 & S3 & S4 & S5 & S6 & _).
    exists s', found. split; [exact Hw|].
    split; [intros Hf; now apply Hfound|]. easy.
  - exists s, false. split; [reflexivity|]. split; [discriminate|]. easy.
Qed.

(** X22. [waitForPiece] never raises on a stream whose pieces are in
    order, and what it answers can be relied on: [false] at once, nothing
    touched, when the handle is invalid or the engine raises; [true] at
    once, without a boost, when the piece is there; and whenever it
    answers [true], the piece it waited for (the index clamped into the
    file) is on disk by the engine's word at that moment. Whatever happens
    it leaves the geometry of the stream and the prefetch cursor alone. *)
Theorem wait_for_piece_outcome (tick : TorrentHandle -> TorrentHandle) (polls : nat)
    (s : ActiveTorrentStream) (pieceIndex : Z) :
  fileStartPiece s <= fileEndPiece s ->
  let safePiece := clampTo (fileStartPiece s) (fileEndPiece s) pieceIndex in
  exists s' found,
    waitForPiece tick polls s pieceIndex = Some (s', found) /\
    (found = true ->
     isValid (handle s) = true /\ havePiece (handle s') safePiece = true /\
     engineThrows (handle s') safePiece = false) /\
    (isValid (handle s) = false \/ engineThrows (handle s) safePiece = true ->
     s' = s /\ found = false) /\
    (isValid (handle s) = true -> havePiece (handle s) safePiece = true ->
     engineThrows (handle s) safePiece = false -> s' = s /\ found = true) /\
    fileSize s' = fileSize s /\ fileOffset s' = fileOffset s /\
    pieceLength s' = pieceLength s /\ totalPieces s' = totalPieces s /\
    fileStartPiece s' = fileStartPiece s /\ fileEndPiece s' = fileEndPiece s /\
    nextPrefetchPiece s' = nextPrefetchPiece s.
Proof.
  intros Hord safePiece. unfold waitForPiece.
  destruct (isValid (handle s)) eqn:Hvalid; cbn [negb].
  - rewrite (coerceIn_clampTo _ _ _ Hord). cbn [mbind option_bind]. fold safePiece.
    destruct (waitLoop_outcome tick polls s safePiece Hord)
      as (s' & found & Hw & Hfound & Hhave & Hthrow & _ & Hstatic).
    exists s', found. split; [exact Hw|].
    split; [intros Hf; split; [reflexivity | now apply Hfound]|].
    split; [intros [Hf | Ht]; [discriminate | now apply Hthrow]|].
    split; [intros _; exact Hhave | exact Hstatic].
  - exists s, false. split; [reflexivity|].
    split; [discriminate|]. split; [easy|]. split; [discriminate|].
    repeat split; reflexivity.
Qed.

Lemma wait_for_piece_outcome_witness :
  waitForPiece (fun h => h) 3 (streamOver (handleMissing [2; 5]) 160 0 9 0 (-1)) 4
  = Some (streamOver (handleMissing [2; 5]) 160 0 9 0 (-1), true).
Proof.
  destruct (wait_for_piece_outcome (fun h => h) 3
              (streamOver (handleMissing [2; 5]) 160 0 9 0 (-1)) 4)
    as (s' & found & Hw & _ & _ & Hnow & _).
  - cbn. lia.
  - rewrite Hw. destruct Hnow as [-> ->]; reflexivity.
Defined.






(** ** Reading the body *)

(** The pieces of a prepared stream whose file has bytes and lies inside
    the torrent: no clamp applies. *)
Lemma prepared_pieces (s : ActiveTorrentStream) :
  soundSizes s -> preparedGeometry s -> insideTorrent s -> 0 < fileSize s ->
  fileStartPiece s = fileOffset s / pieceLength s /\
  fileEndPiece s = (fileOffset s + fileSize s - 1) / pieceLength s /\
  0 <= fileStartPiece s <= fileEndPiece s /\ fileEndPiece s <= totalPieces s - 1.
Proof.
  intros (HPL & HT & Hfo & Hfsz & Hsum & Hquot) Hgeo Hin Hpos.
  unfold preparedGeometry in Hgeo. unfold insideTorrent in Hin.
  rewrite pieceGeometry_value in Hgeo; try assumption;
    try (unfold isInt, Int_MIN_VALUE, Int_MAX_VALUE in *; lia);
    [|now replace (Z.max 1 (pieceLength s)) with (pieceLength s) by lia].
  replace (Z.max 1 (pieceLength s)) with (pieceLength s) in Hgeo by lia.
  replace (Z.max 1 (totalPieces s)) with (totalPieces s) in Hgeo by lia.
  replace (Z.max 1 (fileSize s)) with (fileSize s) in Hgeo by lia.
  injection Hgeo as Hfirst Hlast.
  assert (H1 : 0 <= fileOffset s / pieceLength s) by (apply Z.div_pos; lia).
  assert (H2 : (fileOffset s + fileSize s - 1) / pieceLength s < totalPieces s)
    by (apply Z.div_lt_upper_bound; lia).
  assert (H3 : fileOffset s / pieceLength s
               <= (fileOffset s + fileSize s - 1) / pieceLength s)
    by (apply Z.div_le_mono; lia).
  unfold clampTo in *. lia.
Qed.

(** What a read that returns bytes has done. *)
Lemma read_chunk_inv (env : ReadEnv) (t t' : TorrentInputStream)
    (len : Z) (bytes : list Byte.byte) :
  soundSizes (source t) -> preparedGeometry (source t) -> insideTorrent (source t) ->
  0 <= offsetInFile t -> offsetInFile t + remaining t <= fileSize (source t) ->
  len <= Int_MAX_VALUE ->
  read env t len = Some (t', ReadChunk bytes) ->
  let piece := (fileOffset (source t) + offsetInFile t) / pieceLength (source t) in
  let count := Z.of_nat (length bytes) in
  fileStartPiece (source t) <= piece <= fileEndPiece (source t) /\
  havePiece (handle (source t')) piece = true /\
  1 <= count <= Z.min len IO_CHUNK_SIZE /\ count <= remaining t /\
  (fileOffset (source t) + offsetInFile t + count - 1) / pieceLength (source t) = piece /\
  offsetInFile t' = offsetInFile t + count /\ remaining t' = remaining t - count /\
  (forall data, envFile env = Some data ->
     bytes = take (length bytes) (drop (Z.to_nat (offsetInFile t)) data)) /\
  fileSize (source t') = fileSize (source t) /\
  soundSizes (source t') /\ preparedGeometry (source t') /\ insideTorrent (source t').
Proof.
  intros Hsizes Hgeo Hin Hoff Hfit Hlen Hread piece count.
  pose proof Hsizes as (HPL & HT & Hfo & Hfsz & Hsum & Hquot).
  unfold Int_MAX_VALUE, Long_MAX_VALUE in *.
  unfold read in Hread.
  destruct (remaining t <=? 0) eqn:E1; [discriminate Hread|]. apply Z.leb_gt in E1.
  destruct (len <=? 0) eqn:E2; [discriminate Hread|]. apply Z.leb_gt in E2.
  set (stream := source t) in *.
  destruct (prepared_pieces stream Hsizes Hgeo Hin) as (Hfirst & Hlast & Hord & Htop);
    [lia|].
  set (requested := Z.min len (remaining t)) in *.
  assert (Hreq : 1 <= requested <= 2 ^ 31 - 1) by (unfold requested; lia).
  rewrite (toInt_small requested) in Hread
    by (unfold isInt, Int_MIN_VALUE, Int_MAX_VALUE; lia).
  set (globalOffset := fileOffset stream + offsetInFile t) in *.
  assert (Hglobal : 0 <= globalOffset < fileOffset stream + fileSize stream)
    by (unfold globalOffset; lia).
  rewrite (toLong_small globalOffset) in Hread
    by (unfold isLong, Long_MIN_VALUE, Long_MAX_VALUE; lia).
  assert (Hpiece : fileStartPiece stream <= piece <= fileEndPiece stream).
  { unfold piece. fold stream globalOffset. rewrite Hfirst, Hlast.
    split; apply Z.div_le_mono; unfold globalOffset; lia. }
  assert (Hq : 0 <= globalOffset / pieceLength stream <= 2 ^ 31 - 1)
    by (fold stream globalOffset in piece; fold piece; lia).
  rewrite (Z.quot_div_nonneg globalOffset (pieceLength stream)) in Hread by lia.
  fold stream globalOffset in piece. fold piece in Hread, Hq.
  rewrite (toLong_small piece) in Hread
    by (unfold isLong, Long_MIN_VALUE, Long_MAX_VALUE; lia).
  rewrite (toInt_small piece) in Hread
    by (unfold isInt, Int_MIN_VALUE, Int_MAX_VALUE; lia).
  rewrite (toInt_small (totalPieces stream - 1)) in Hread
    by (unfold isInt, Int_MIN_VALUE, Int_MAX_VALUE; lia).
  rewrite coerceIn_clampTo in Hread by lia.
  replace (clampTo 0 (totalPieces stream - 1) piece) with piece in Hread
    by (unfold clampTo; lia).
  cbn [mbind option_bind] in Hread.
  destruct (waitForPiece_found (envTick env) (envPolls env) stream piece (proj2 Hord))
    as (waited & found & Hwait & Hfound & Wsz & Wfo & Hpl & Wtp & Wfs & Wfe).
  replace (clampTo (fileStartPiece stream) (fileEndPiece stream) piece) with piece
    in Hfound by (unfold clampTo; lia).
  rewrite Hwait in Hread. destruct found; [|discriminate Hread].
  pose proof (Hfound eq_refl) as Hhave.
  destruct (boostPieceWindow waited piece None) as [boosted|] eqn:Hboost;
    [|discriminate Hread].
  cbn [mbind option_bind] in Hread.
  destruct (boostPieceWindow_static _ _ _ _ Hboost)
    as (_ & Bsz & Bfo & Hpl' & Btp & Bfs & Bfe & _ & _ & Hhave' & _).
  rewrite Hpl', Hpl in Hread.
  assert (Hmul : piece * pieceLength stream <= globalOffset
                 < (piece + 1) * pieceLength stream).
  { unfold piece. pose proof (Z.div_mod globalOffset (pieceLength stream)).
    pose proof (Z.mod_pos_bound globalOffset (pieceLength stream)). nia. }
  assert (Hend : 0 <= (piece + 1) * pieceLength stream < 2 ^ 62) by nia.
  rewrite (toLong_small (piece + 1)) in Hread
    by (unfold isLong, Long_MIN_VALUE, Long_MAX_VALUE; lia).
  rewrite (toLong_small ((piece + 1) * pieceLength stream)) in Hread
    by (unfold isLong, Long_MIN_VALUE, Long_MAX_VALUE; lia).
  rewrite (toLong_small ((piece + 1) * pieceLength stream - globalOffset)) in Hread
    by (unfold isLong, Long_MIN_VALUE, Long_MAX_VALUE; lia).
  replace (Z.max 1 ((piece + 1) * pieceLength stream - globalOffset))
    with ((piece + 1) * pieceLength stream - globalOffset) in Hread by lia.
  set (chunkSize := Z.min requested
                      (Z.min ((piece + 1) * pieceLength stream - globalOffset)
                             IO_CHUNK_SIZE)) in *.
  assert (Hchunk : 1 <= chunkSize <= requested /\ chunkSize <= IO_CHUNK_SIZE /\
                   chunkSize <= (piece + 1) * pieceLength stream - globalOffset).
  { unfold chunkSize, IO_CHUNK_SIZE. lia. }
  rewrite (toInt_small chunkSize) in Hread
    by (unfold isInt, Int_MIN_VALUE, Int_MAX_VALUE; lia).
  destruct (envFile env) as [data|] eqn:Hfile; [|discriminate Hread].
  assert (Hk : (length (take (Z.to_nat chunkSize) (drop (Z.to_nat (offsetInFile t)) data))
                <= Z.to_nat chunkSize)%nat) by (rewrite length_take; lia).
  assert (Hcontent : take (Z.to_nat chunkSize) (drop (Z.to_nat (offsetInFile t)) data) =
                     take (length (take (Z.to_nat chunkSize)
                                     (drop (Z.to_nat (offsetInFile t)) data)))
                          (drop (Z.to_nat (offsetInFile t)) data)).
  { rewrite length_take.
    destruct (Nat.le_gt_cases (Z.to_nat chunkSize)
                (length (drop (Z.to_nat (offsetInFile t)) data))) as [Hle | Hgt].
    - now rewrite Nat.min_l.
    - rewrite Nat.min_r by lia. rewrite !take_ge by lia. reflexivity. }
  destruct (take (Z.to_nat chunkSize) (drop (Z.to_nat (offsetInFile t)) data))
    as [|b rest] eqn:Htake; [discriminate Hread|].
  injection Hread as <- <-.
  cbn [source offsetInFile remaining]. unfold count.
  set (n := Z.of_nat (length (b :: rest))) in *.
  assert (Hn : 1 <= n <= chunkSize) by (unfold n; cbn [length] in *; lia).
  unfold requested in *.
  change (Z.of_nat (S (length rest))) with n.
  rewrite (toLong_small (offsetInFile t + n))
    by (unfold isLong, Long_MIN_VALUE, Long_MAX_VALUE; lia).
  rewrite (toLong_small (remaining t - n))
    by (unfold isLong, Long_MIN_VALUE, Long_MAX_VALUE; lia).
  split; [exact Hpiece|]. split; [now rewrite Hhave'|].
  split; [lia|]. split; [lia|].
  split; [symmetry;
          apply Z.div_unique_pos
            with (r := globalOffset + n - 1 - piece * pieceLength stream); lia|].
  split; [reflexivity|]. split; [reflexivity|].
  split; [intros data' [= <-]; exact Hcontent|].
  split; [congruence|].
  split; [unfold soundSizes; rewrite Hpl', Hpl, Btp, Wtp, Bfo, Wfo, Bsz, Wsz;
          unfold Int_MAX_VALUE, Long_MAX_VALUE; exact Hsizes|].
  split; [unfold preparedGeometry;
          rewrite Hpl', Hpl, Btp, Wtp, Bfo, Wfo, Bsz, Wsz, Bfs, Wfs, Bfe, Wfe; exact Hgeo|].
  unfold insideTorrent. rewrite Hpl', Hpl, Btp, Wtp, Bfo, Wfo, Bsz, Wsz. exact Hin.
Qed.



(** X25. Whenever [read] returns bytes of a prepared stream, they are
    bytes of one piece, the piece [(fileOffset + offsetInFile) /
    pieceLength] of the file, and the engine has said that this piece is
    on disk: a read never hands out bytes of a piece it has not waited
    for. The chunk is at most [IO_CHUNK_SIZE] (64 KiB) long, at most what
    was asked for and what remains, and the stream moves on by exactly
    its length. *)
Theorem read_returns_verified_bytes (env : ReadEnv) (t t' : TorrentInputStream)
    (len : Z) (bytes : list Byte.byte) :
  soundSizes (source t) -> preparedGeometry (source t) -> insideTorrent (source t) ->
  0 <= offsetInFile t -> offsetInFile t + remaining t <= fileSize (source t) ->
  len <= Int_MAX_VALUE ->
  read env t len = Some (t', ReadChunk bytes) ->
  let piece := (fileOffset (source t) + offsetInFile t) / pieceLength (source t) in
  let count := Z.of_nat (length bytes) in
  fileStartPiece (source t) <= piece <= fileEndPiece (source t) /\
  havePiece (handle (source t')) piece = true /\
  1 <= count <= Z.min len IO_CHUNK_SIZE /\ count <= remaining t /\
  (fileOffset (source t) + offsetInFile t + count - 1) / pieceLength (source t) = piece /\
  offsetInFile t' = offsetInFile t + count /\ remaining t' = remaining t - count.
Proof.
  intros Hsizes Hgeo Hin Hoff Hfit Hlen Hread.
  destruct (read_chunk_inv env t t' len bytes Hsizes Hgeo Hin Hoff Hfit Hlen Hread)
    as (H1 & H2 & H3 & H4 & H5 & H6 & H7 & _).
  cbv zeta. easy.
Qed.

Lemma read_returns_verified_bytes_witness :
  exists t' bytes,
    read smallEnv (openInputStream smallStream 10 50) 100 = Some (t', ReadChunk bytes) /\
    Z.of_nat (length bytes) = 6 /\ offsetInFile t' = 16 /\ remaining t' = 44.
Proof.
  destruct (read smallEnv (openInputStream smallStream 10 50) 100)
    as [[t' [| |bytes]]|] eqn:Hread; try (vm_compute in Hread; discriminate Hread).
  assert (Hlen : Z.of_nat (length bytes) = 6).
  { vm_compute in Hread. injection Hread as _ <-. reflexivity. }
  destruct (read_returns_verified_bytes smallEnv (openInputStream smallStream 10 50) t'
              100 bytes) as (_ & _ & _ & _ & _ & Hoff & Hrem).
  - vm_compute. repeat split; first [reflexivity | discriminate].
  - reflexivity.
  - vm_compute. discriminate.
  - cbn. lia.
  - cbn. lia.
  - vm_compute. discriminate.
  - exact Hread.
  - exists t', bytes. split; [reflexivity|]. split; [exact Hlen|].
    cbv zeta in Hoff, Hrem. rewrite Hlen in Hoff, Hrem. cbn in Hoff, Hrem.
    split; [exact Hoff | exact Hrem].
Defined.




(** X27. Inside a boosted window the urgency falls with the distance from
    its start and never rises again: of two pieces of the window the
    nearer one has a priority at least as high and a deadline at least as
    short. Every piece of the window is raised to [FOUR] or more, and the
    first piece is due at once. *)
Theorem boost_urgency_decays (s : ActiveTorrentStream) (fromPiece : Z)
    (windowPieces : option Z) :
  inBudget s ->
  -1 <= lastBoostedPiece s <= fileEndPiece s ->
  (forall w, windowPieces = Some w -> w <= 2 ^ 20) ->
  isValid (handle s) = true -> engineQuiet s ->
  let startPiece := clampTo (fileStartPiece s) (fileEndPiece s) fromPiece in
  let window := Z.max 1 (default (streamingWindowPieces s) windowPieces) in
  let endPiece := Z.min (fileEndPiece s) (startPiece + window) in
  lastBoostedPiece s < 0 \/ lastBoostedPiece s + STREAMING_BOOST_MIN_STEP < startPiece ->
  exists boosted,
    boostPieceWindow s fromPiece windowPieces = Some boosted /\
    pieceDeadline (handle boosted) !! startPiece = Some 0 /\
    forall near far, startPiece <= near -> near <= far -> far <= endPiece ->
      exists pNear pFar dNear dFar,
        piecePriority (handle boosted) !! near = Some pNear /\
        piecePriority (handle boosted) !! far = Some pFar /\
        pieceDeadline (handle boosted) !! near = Some dNear /\
        pieceDeadline (handle boosted) !! far = Some dFar /\
        4 <= priorityLevel pFar <= priorityLevel pNear /\
        0 <= dNear <= dFar.
Proof.
  intros Hbudget Hlast Hwin Hvalid Hquiet startPiece window endPiece Hfar.
  pose proof Hbudget as (Hse & Hend & Hsw & Hpw & Hadv & Hdl).
  pose proof (clampTo_bounds fromPiece (fileStartPiece s) (fileEndPiece s) (proj2 Hse))
    as Hsp. fold startPiece in Hsp.
  assert (Hw : 1 <= window <= 2 ^ 20).
  { unfold window. destruct windowPieces as [w|]; cbn.
    - specialize (Hwin w eq_refl). lia.
    - lia. }
  rewrite (boostPieceWindow_value s fromPiece windowPieces Hbudget Hlast Hwin Hvalid).
  fold startPiece window endPiece.
  assert (Hcond : (0 <=? lastBoostedPiece s) &&
                  (startPiece <=? lastBoostedPiece s + STREAMING_BOOST_MIN_STEP) = false).
  { apply andb_false_iff. destruct Hfar as [Hneg | Hpast].
    - left. apply Z.leb_gt. lia.
    - right. apply Z.leb_gt. lia. }
  rewrite Hcond. eexists. split; [reflexivity|].
  cbn [handle setLastBoostedPiece setHandle].
  assert (Hq : forall q, q ∈ seqZ startPiece (endPiece - startPiece + 1) ->
                         engineThrows (handle s) q = false).
  { intros q Hq%elem_of_seqZ. apply Hquiet. unfold endPiece in Hq. lia. }
  assert (Hpiece : forall p, startPiece <= p <= endPiece ->
            piecePriority (boostPieces s startPiece
                             (seqZ startPiece (endPiece - startPiece + 1)) (handle s)) !! p
              = Some (boostPriority s (p - startPiece)) /\
            pieceDeadline (boostPieces s startPiece
                             (seqZ startPiece (endPiece - startPiece + 1)) (handle s)) !! p
              = Some ((p - startPiece) * pieceDeadlineStepMs s)).
  { intros p Hp.
    assert (Hin : p ∈ seqZ startPiece (endPiece - startPiece + 1))
      by (apply elem_of_seqZ; lia).
    destruct (boostPieces_visited s startPiece _ (handle s) Hq p Hin) as [Hprio Hdead].
    assert (Hoff : 0 <= p - startPiece <= 2 ^ 20) by (unfold endPiece in Hp; lia).
    rewrite (toInt_small (p - startPiece)) in Hprio, Hdead
      by (unfold isInt, Int_MIN_VALUE, Int_MAX_VALUE; lia).
    rewrite toInt_small in Hdead
      by (unfold isInt, Int_MIN_VALUE, Int_MAX_VALUE; nia).
    split; [exact Hprio | exact Hdead]. }
  split.
  { destruct (Hpiece startPiece) as [_ Hd]; [unfold endPiece; lia|].
    rewrite Hd. f_equal. lia. }
  intros near far Hn Hnf Hf.
  destruct (Hpiece near) as [Hpn Hdn]; [lia|].
  destruct (Hpiece far) as [Hpf Hdf]; [lia|].
  do 4 eexists. split; [exact Hpn|]. split; [exact Hpf|].
  split; [exact Hdn|]. split; [exact Hdf|].
  split; [|nia].
  unfold boostPriority.
  destruct (near - startPiece <? boostNearPieces s) eqn:E1;
    destruct (far - startPiece <? boostNearPieces s) eqn:E2;
    destruct (near - startPiece <? boostMidPieces s) eqn:E3;
    destruct (far - startPiece <? boostMidPieces s) eqn:E4;
    cbn; try lia;
    repeat match goal with
           | H : (_ <? _) = true |- _ => apply Z.ltb_lt in H
           | H : (_ <? _) = false |- _ => apply Z.ltb_ge in H
           end; lia.
Qed.

Lemma boost_urgency_decays_witness :
  exists boosted,
    boostPieceWindow (streamOver (handleMissing [2; 5]) 1600 0 99 0 (-1)) 10 None
      = Some boosted /\
    piecePriority (handle boosted) !! 10 = Some SEVEN /\
    piecePriority (handle boosted) !! 40 = Some SIX /\
    piecePriority (handle boosted) !! 99 = Some FOUR /\
    pieceDeadline (handle boosted) !! 10 = Some 0.
Proof.
  destruct (boost_urgency_decays (streamOver (handleMissing [2; 5]) 1600 0 99 0 (-1))
              10 None) as (boosted & Hb & Hd & _).
  - unfold inBudget. cbn. lia.
  - cbn. lia.
  - intros w [=].
  - reflexivity.
  - intros p _. reflexivity.
  - left. cbn. lia.
  - exists boosted. split; [exact Hb|].
    assert (Hv : boostPieceWindow (streamOver (handleMissing [2; 5]) 1600 0 99 0 (-1))
                   10 None = Some boosted) by exact Hb.
    vm_compute in Hv. injection Hv as <-.
    split; [reflexivity|]. split; [reflexivity|]. split; [reflexivity|]. exact Hd.
Defined.

(** ** Ranking streams by playback viability *)

(** X28. The two places that classify the network agree. Whatever number
    the caller passes (zero, NaN, an infinity, a negative estimate)
    [availableMbps] is a finite number between 0.1 and 1000, clamping it
    again changes nothing, and its class, the one
    [computeStreamPlaybackViability] takes its weights from, is the class
    [rankStreamsByPlaybackViability] computes from the raw estimate to
    decide whether lower bitrates go first. *)
Theorem available_bandwidth_classified_alike (networkMbps : Double.t) :
  (exists q, availableMbps networkMbps = Double.Fin q /\
             (3602879701896397 # 36028797018963968 <= q)%Q /\ (q <= 1000)%Q) /\
  availableMbps (availableMbps networkMbps) = availableMbps networkMbps /\
  getNetworkClassForMbps (availableMbps networkMbps) = getNetworkClassForMbps networkMbps /\
  prefersLowerBitrate (availableMbps networkMbps) = prefersLowerBitrate networkMbps.
Proof.
  assert (Hclass : getNetworkClassForMbps (availableMbps networkMbps)
                   = getNetworkClassForMbps networkMbps).
  { unfold getNetworkClassForMbps, availableMbps, clamp, orDefault,
      MIN_NETWORK_MBPS, DEFAULT_NETWORK_MBPS.
    destruct networkMbps as [| | |q]; try reflexivity.
    cbn [Double.truthy]. destruct (Qeq_bool q 0) eqn:E0; cbn [negb]; [reflexivity|].
    apply Qeq_bool_neq in E0. q_solve. }
  split.
  { unfold availableMbps, clamp, orDefault, MIN_NETWORK_MBPS, DEFAULT_NETWORK_MBPS.
    destruct networkMbps as [| | |q];
      try (eexists; split; [reflexivity | split; lra]).
    cbn [Double.truthy]. destruct (Qeq_bool q 0) eqn:E0; cbn [negb];
      [exists 20%Q; split; [reflexivity | split; lra]|].
    cbn. q_case; cbn; [exists 1000%Q; split; [reflexivity | split; lra]|].
    q_case; cbn; [exists q; split; [reflexivity | split; lra]|].
    eexists; split; [reflexivity | split; lra]. }
  split.
  { unfold availableMbps, clamp, orDefault, MIN_NETWORK_MBPS, DEFAULT_NETWORK_MBPS.
    destruct networkMbps as [| | |q]; try reflexivity.
    cbn [Double.truthy]. destruct (Qeq_bool q 0) eqn:E0; cbn [negb]; [reflexivity|].
    apply Qeq_bool_neq in E0. q_solve. }
  split; [exact Hclass|]. unfold prefersLowerBitrate. now rewrite Hclass.
Qed.

Ltac rank_case :=
  match goal with
  | |- context [Qeq_bool ?a ?b] =>
      let E := fresh "E" in
      destruct (Qeq_bool a b) eqn:E;
      [apply Qeq_bool_iff in E | apply Qeq_bool_neq in E]
  | H : context [Qeq_bool ?a ?b] |- _ =>
      let E := fresh "E" in
      destruct (Qeq_bool a b) eqn:E;
      [apply Qeq_bool_iff in E | apply Qeq_bool_neq in E]
  end.

Ltac rank_open :=
  unfold compareRanked in *; cbv [default] in *;
  cbn [viabilityScore requiredMbps seeders quality isCached isTorrent itemIndex
       negb andb orb Bool.eqb] in *.

Lemma compareRanked_antisymmetric (p : bool) (a b : RankedItem) :
  (compareRanked p b a == - compareRanked p a b)%Q.
Proof.
  destruct a as [ia sa ra da qa ca ta], b as [ib sb rb db qb cb tb].
  rank_open.
  set (sda := match da with Some x => x | None => (- (1))%Q end).
  set (sdb := match db with Some x => x | None => (- (1))%Q end).
  clearbody sda sdb.
  destruct p, ca, cb, ta, tb; cbn [negb andb orb Bool.eqb];
    repeat (rank_case; cbn [negb andb orb]; try (exfalso; lra));
    try lra;
    replace (ib - ia) with (- (ia - ib)) by lia; rewrite inject_Z_opp; reflexivity.
Qed.

(** Two different positions are never tied. *)
Lemma compareRanked_tie (p : bool) (a b : RankedItem) :
  (compareRanked p a b == 0)%Q -> itemIndex a = itemIndex b.
Proof.
  destruct a as [ia sa ra da qa ca ta], b as [ib sb rb db qb cb tb].
  rank_open. intros H. revert H.
  destruct p, ca, cb, ta, tb; cbn [negb andb orb Bool.eqb];
    repeat (rank_case; cbn [negb andb orb]; try (exfalso; lra));
    intros H; try (exfalso; lra);
    unfold Qeq in H; cbn in H; lia.
Qed.

(** The comparator without its seeders clause is a lexicographic order on
    the keys of an item. *)
Lemma compareRanked_transitive (p : bool) (a b c : RankedItem) :
  (isTorrent a || isTorrent b) = (isTorrent b || isTorrent c) ->
  (isTorrent a || isTorrent b) = (isTorrent a || isTorrent c) ->
  (compareRanked p a b < 0)%Q -> (compareRanked p b c < 0)%Q ->
  (compareRanked p a c < 0)%Q.
Proof.
  destruct a as [ia sa ra da qa ca ta], b as [ib sb rb db qb cb tb],
           c as [ic sc rc dc qc cc tc].
  rank_open. intros Ht1 Ht2.
  destruct (ta || tb), (tb || tc), (ta || tc); try discriminate;
    clear Ht1 Ht2 ta tb tc;
    destruct p, ca, cb, cc; cbn [negb andb orb Bool.eqb];
    repeat (rank_case; cbn [negb andb orb]; try (exfalso; lra));
    intros H1 H2; try lra;
    unfold Qlt in *; cbn in *; lia.
Qed.


(** X29. The comparator [rankStreamsByPlaybackViability] sorts with is
    antisymmetric and never ties two different positions, so it orders
    any two streams one way. Among streams that meet the seeders clause
    alike (all torrents, or none) it is transitive, a strict order. On a
    mixed list it is not: seeders are compared only when one of the two
    streams is a torrent, and a torrent between two direct streams that
    differ in seeders closes a circle, for either bitrate preference. *)
Theorem ranking_comparator_consistency (prefersLower : bool) :
  (forall a b,
     (compareRanked prefersLower b a == - compareRanked prefersLower a b)%Q) /\
  (forall a b,
     (compareRanked prefersLower a b == 0)%Q -> itemIndex a = itemIndex b) /\
  (forall a b c,
     (isTorrent a || isTorrent b) = (isTorrent b || isTorrent c) ->
     (isTorrent a || isTorrent b) = (isTorrent a || isTorrent c) ->
     (compareRanked prefersLower a b < 0)%Q -> (compareRanked prefersLower b c < 0)%Q ->
     (compareRanked prefersLower a c < 0)%Q) /\
  ((compareRanked prefersLower circleDirectFew circleDirectMany < 0)%Q /\
   (compareRanked prefersLower circleDirectMany circleTorrent < 0)%Q /\
   (compareRanked prefersLower circleTorrent circleDirectFew < 0)%Q).
Proof.
  split; [apply compareRanked_antisymmetric|].
  split; [apply compareRanked_tie|].
  split; [apply compareRanked_transitive|].
  destruct prefersLower; repeat split; reflexivity.
Qed.

(** ** Merging trackers into the magnet *)



